(** * Translation workflow: marker parsing, fallbacks and batch processing

    A shallow embedding of [workflow.py] (class [TranslationWorkflow]) and of
    [agents.py] (class [GeminiLLM]).  Python strings are sequences of code
    points; the external collaborators (the M2M100 tokenizer and model, the
    CrewAI task engine, the Gemini API) are oracles over an explicit world
    state; exceptions are values of an error type and what [print] writes is
    recorded in a trace. *)

From Stdlib Require Import String Ascii DecimalString.
From stdpp Require Import base numbers option list.

Local Open Scope nat_scope.
Local Open Scope list_scope.

(** ** Python values *)

(** A [str] is a sequence of Unicode code points. *)
Definition pystr := list N.

(** An ASCII literal of the source. *)
Definition lit (s : string) : pystr :=
  map N_of_ascii (list_ascii_of_string s).

(** Exceptions are instances of [Exception]; [exn_str e] is [str(e)]. *)
Record exn := Exception { exn_str : pystr }.

Inductive result (A : Type) : Type :=
| Ok (a : A)
| Raise (e : exn).
Arguments Ok {A} a.
Arguments Raise {A} e.

Definition rbind {A B} (r : result A) (k : A -> result B) : result B :=
  match r with
  | Ok a => k a
  | Raise e => Raise e
  end.

(** ** The [str] methods used by the parser *)

Module Str.

Fixpoint startswith (p s : pystr) : bool :=
  match p, s with
  | [], _ => true
  | _ :: _, [] => false
  | a :: p', b :: s' => (a =? b)%N && startswith p' s'
  end.

(** [s.find(sep)]: index of the first occurrence, [None] for [-1]. *)
Fixpoint find (sep s : pystr) : option nat :=
  match s with
  | [] => if startswith sep [] then Some 0 else None
  | _ :: s' => if startswith sep s then Some 0 else S <$> find sep s'
  end.

(** [sep in s]. *)
Definition contains (sep s : pystr) : bool :=
  match find sep s with Some _ => true | None => false end.

(** [s.split(sep)] for a non-empty [sep]: cut at the first occurrence and
    go on after it.  Each cut removes at least one character, so
    [S (length s)] rounds are enough. *)
Fixpoint split_fuel (fuel : nat) (sep s : pystr) : list pystr :=
  match fuel with
  | 0 => [s]
  | S fuel' =>
      match find sep s with
      | None => [s]
      | Some i => take i s :: split_fuel fuel' sep (drop (i + length sep) s)
      end
  end.

Definition split (sep s : pystr) : result (list pystr) :=
  match sep with
  | [] => Raise (Exception (lit "empty separator"))
  | _ :: _ => Ok (split_fuel (S (length s)) sep s)
  end.

(** [l[i]] on a list. *)
Definition index {A} (l : list A) (i : nat) : result A :=
  match l !! i with
  | Some x => Ok x
  | None => Raise (Exception (lit "list index out of range"))
  end.

(** [c.isspace()] for one code point (the interpreter's whitespace table). *)
Definition isspace (c : N) : bool :=
  ((9 <=? c) && (c <=? 13) || (28 <=? c) && (c <=? 32)
   || (c =? 133) || (c =? 160) || (c =? 5760)
   || (8192 <=? c) && (c <=? 8202)
   || (c =? 8232) || (c =? 8233) || (c =? 8239) || (c =? 8287)
   || (c =? 12288))%N.

Fixpoint lstrip (s : pystr) : pystr :=
  match s with
  | [] => []
  | c :: s' => if isspace c then lstrip s' else s
  end.

Definition rstrip (s : pystr) : pystr := reverse (lstrip (reverse s)).

(** [s.strip()]. *)
Definition strip (s : pystr) : pystr := rstrip (lstrip s).

End Str.

(** ** Parsing the quality assessment (workflow.py, lines 196-211) *)

Definition SCORES : pystr := lit "SCORES:".
Definition ASSESSMENT : pystr := lit "ASSESSMENT:".
Definition RECOMMENDATION : pystr := lit "RECOMMENDATION:".

(** [try: ... except: pass] around an assignment: the variable keeps its
    old value when the right-hand side raises. *)
Definition assign_or_keep {A} (old : A) (rhs : result A) : A :=
  match rhs with
  | Ok v => v
  | Raise _ => old
  end.

Definition parse_accuracy_score (quality_assessment : pystr) : pystr :=
  let accuracy_score := lit "N/A" in
  if Str.contains SCORES quality_assessment then
    assign_or_keep accuracy_score
      (rbind (Str.split SCORES quality_assessment) (fun parts =>
       rbind (Str.index parts 1) (fun after =>
       rbind (Str.split ASSESSMENT after) (fun parts' =>
       rbind (Str.index parts' 0) (fun scores_section =>
       Ok (Str.strip scores_section))))))
  else accuracy_score.

Definition parse_final_recommendation
    (refined_translation quality_assessment : pystr) : pystr :=
  let final_recommendation := refined_translation in
  if Str.contains RECOMMENDATION quality_assessment then
    assign_or_keep final_recommendation
      (rbind (Str.split RECOMMENDATION quality_assessment) (fun parts =>
       rbind (Str.index parts 1) (fun after =>
       Ok (Str.strip after))))
  else final_recommendation.


(** ** The result record (workflow.py, lines 13-23) *)

Record TranslationResult := {
  original_text : pystr;
  source_lang : pystr;
  target_lang : pystr;
  initial_translation : pystr;
  context_analysis : pystr;
  refined_translation : pystr;
  accuracy_score : pystr;
  quality_assessment : pystr;
  final_recommendation : pystr
}.

(** ** The external collaborators *)

(** Keyword arguments of [model.generate]: the tokenizer's encoding with
    the [forced_bos_token_id] entry stored into it, and the four literal
    settings. *)
Record generate_kwargs (Encoding : Type) := {
  gen_inputs : Encoding;
  forced_bos_token_id : Z;
  max_length : Z;
  num_beams : Z;
  early_stopping : bool;
  do_sample : bool
}.
Arguments gen_inputs {Encoding} _.
Arguments forced_bos_token_id {Encoding} _.
Arguments max_length {Encoding} _.
Arguments num_beams {Encoding} _.
Arguments early_stopping {Encoding} _.
Arguments do_sample {Encoding} _.

Inductive Process := sequential | hierarchical.

Record task_kwargs (Agent Task : Type) := {
  description : pystr;
  agent : Agent;
  expected_output : pystr;
  context : option (list Task)
}.
Arguments description {Agent Task} _.
Arguments agent {Agent Task} _.
Arguments expected_output {Agent Task} _.
Arguments context {Agent Task} _.

Record crew_kwargs (Agent Task : Type) := {
  agents : list Agent;
  tasks : list Task;
  process : Process;
  verbose : bool
}.
Arguments agents {Agent Task} _.
Arguments tasks {Agent Task} _.
Arguments process {Agent Task} _.
Arguments verbose {Agent Task} _.

(** What [hasattr(task, 'output') and task.output] sees: no attribute, a
    falsy value, or a truthy value with its [str()]. *)
Inductive output_attr :=
| Missing
| Falsy
| Truthy (text : pystr).

(** The prompt shapes [GeminiLLM.call] tells apart: a [str], a [list] and
    a [dict] with the behaviour of the built-in types, and every other
    value with the name of its type and its [repr]. *)
#[local] Unset Elimination Schemes.
Inductive pyval :=
| VStr (s : pystr)
| VList (items : list pyval)
| VDict (entries : list (pystr * pyval))
| VOther (type_name repr : pystr).
#[local] Set Elimination Schemes.

(** The tokenizer and model loaded in [__init__], the three agents, the
    CrewAI constructors and engine, and the Gemini client.  A call may
    raise and may change the world; [get_lang_id], [task_output] and
    [response_text] only read.  The operators and methods of a value that
    is no [str], [list] or [dict] are those of its type: [py_add a b] is
    what [a + b] gives when the two operands are not both [str], and
    [py_strip v] what [v.strip()] gives when [v] is no [str]. *)
Record Externals := {
  World : Type;
  Encoding : Type;
  TokenIds : Type;
  Agent : Type;
  Task : Type;
  Crew : Type;
  Response : Type;
  set_src_lang : pystr -> World -> result unit * World;
  tokenize : pystr -> World -> result Encoding * World;
  get_lang_id : World -> pystr -> result Z;
  generate : generate_kwargs Encoding -> World -> result (list TokenIds) * World;
  decode : TokenIds -> World -> result pystr * World;
  translator_agent : Agent;
  context_agent : Agent;
  quality_agent : Agent;
  new_Task : task_kwargs Agent Task -> World -> result Task * World;
  new_Crew : crew_kwargs Agent Task -> World -> result Crew * World;
  kickoff : Crew -> World -> result unit * World;
  task_output : World -> Task -> output_attr;
  generate_content : pyval -> World -> result Response * World;
  response_text : Response -> result (option pystr);
  builtin_str : pyval -> pystr;
  py_add : pyval -> pyval -> result pyval;
  py_strip : pyval -> result pyval
}.

(** ** Literals with characters outside ASCII *)

Definition nl : pystr := [10%N].
Definition dq : pystr := [34%N].
Definition WARNING_SIGN : pystr := [9888%N; 65039%N].
Definition CROSS_MARK : pystr := [10060%N].
Definition ROCKET : pystr := [128640%N].
Definition RIGHT_ARROW : pystr := [8594%N].
Definition MEMO : pystr := [128221%N].
Definition ARROWS : pystr := [128260%N].
Definition ROBOT : pystr := [129302%N].
Definition CLIPBOARD : pystr := [128203%N].

(** [str(n)] for a non-negative [int]. *)
Definition str_of_nat (n : nat) : pystr :=
  lit (NilZero.string_of_uint (Nat.to_uint n)).

(** A triple-quoted block of the source: every line follows a line break
    and the twelve spaces of indentation. *)
Definition block (lines : list pystr) : pystr :=
  concat (map (fun l => nl ++ lit "            " ++ l) lines).

(** ** Effects: the world, the trace, exceptions *)

Section Program.

Variable E : Externals.

(** What the program does to the outside that the oracles do not return:
    the lines it prints and the arguments it hands to [model.generate]. *)
Inductive event :=
| Printed (line : pystr)
| Generated (kwargs : generate_kwargs (Encoding E)).

Record state := State {
  world : World E;
  trace : list event
}.

Definition M (A : Type) : Type := state -> result A * state.

Definition ret {A} (a : A) : M A := fun st => (Ok a, st).

Definition bind {A B} (m : M A) (k : A -> M B) : M B :=
  fun st =>
    match m st with
    | (Ok a, st') => k a st'
    | (Raise e, st') => (Raise e, st')
    end.

(** [try: body  except Exception as e: handler]. *)
Definition try_except {A} (body : M A) (handler : exn -> M A) : M A :=
  fun st =>
    match body st with
    | (Ok a, st') => (Ok a, st')
    | (Raise e, st') => handler e st'
    end.

Definition lift {A} (r : result A) : M A := fun st => (r, st).

Definition emit (ev : event) : M unit :=
  fun st => (Ok tt, State (world st) (trace st ++ [ev])).

Definition print (line : pystr) : M unit := emit (Printed line).

(** A call that may change the world. *)
Definition call_ext {A} (f : World E -> result A * World E) : M A :=
  fun st => let (r, w) := f (world st) in (r, State w (trace st)).

(** A call that only reads the world. *)
Definition read_ext {A} (f : World E -> result A) : M A :=
  fun st => (f (world st), st).

End Program.

Arguments Printed {E} line.
Arguments Generated {E} kwargs.
Arguments State {E} world trace.
Arguments world {E} _.
Arguments trace {E} _.
Arguments ret {E A} a.
Arguments bind {E A B} m k.
Arguments try_except {E A} body handler.
Arguments lift {E A} r.
Arguments emit {E} ev.
Arguments print {E} line.
Arguments call_ext {E A} f.
Arguments read_ext {E A} f.

Notation "x <- m ;; k" := (bind m (fun x => k))
(at level 100, m at next level, right associativity).
Notation "m ;;; k" := (bind m (fun _ => k))
(at level 100, right associativity).

(** ** workflow.py: class TranslationWorkflow *)

(** [lang_mapping] of [_get_initial_translation]. *)
Definition lang_mapping : list (pystr * pystr) :=
  map (fun c => (lit c, lit c))
    ["en"; "fr"; "es"; "de"; "it"; "pt"; "ru"; "zh"; "ja"; "ko"; "ar"; "hi"]%string.

(** [d.get(key, default)]. *)
Fixpoint dict_get {V} (d : list (pystr * V)) (key : pystr) (default : V) : V :=
  match d with
  | [] => default
  | (k, v) :: d' => if decide (k = key) then v else dict_get d' key default
  end.

(** [key in d]. *)
Definition dict_has {V} (d : list (pystr * V)) (key : pystr) : bool :=
  bool_decide (key ∈ map fst d).

Definition unsupported_warning (target_lang : pystr) : pystr :=
  WARNING_SIGN ++ lit " Language '" ++ target_lang
    ++ lit "' not supported, using 'fr' as fallback".

Definition context_description
    (text source_lang target_lang initial_translation : pystr) : pystr :=
  block [
    lit "Analyze the following text for translation context:";
    [];
    lit "Original Text: " ++ dq ++ text ++ dq;
    lit "Source Language: " ++ source_lang;
    lit "Target Language: " ++ target_lang;
    lit "Initial Translation: " ++ dq ++ initial_translation ++ dq;
    [];
    lit "Please provide:";
    lit "1. Text type and domain (formal/casual, business/personal, etc.)";
    lit "2. Cultural elements that need special attention";
    lit "3. Tone and register analysis";
    lit "4. Specific challenges for this language pair";
    lit "5. Recommendations for cultural adaptation";
    [];
    lit "Format your response as a detailed analysis in 3-4 sentences.";
    []
  ].

Definition refinement_description
    (text target_lang initial_translation : pystr) : pystr :=
  block [
    lit "Based on the context analysis, refine this translation:";
    [];
    lit "Original Text: " ++ dq ++ text ++ dq;
    lit "Initial Translation: " ++ dq ++ initial_translation ++ dq;
    lit "Target Language: " ++ target_lang;
    [];
    lit "Create an improved translation that:";
    lit "1. Sounds more natural and fluent";
    lit "2. Maintains the original meaning and tone";
    lit "3. Incorporates cultural appropriateness";
    lit "4. Fixes any grammatical or stylistic issues";
    lit "5. Matches the appropriate register (formal/informal)";
    [];
    lit "Provide ONLY the refined translation, nothing else.";
    []
  ].

Definition quality_description
    (text source_lang target_lang initial_translation : pystr) : pystr :=
  block [
    lit "Evaluate the translation quality and provide comprehensive assessment:";
    [];
    lit "Original (" ++ source_lang ++ lit "): " ++ dq ++ text ++ dq;
    lit "Initial Translation: " ++ dq ++ initial_translation ++ dq;
    lit "Target Language: " ++ target_lang;
    [];
    lit "Assess and score (1-10):";
    lit "1. Accuracy (meaning preservation)";
    lit "2. Fluency (natural sound)";
    lit "3. Cultural appropriateness";
    lit "4. Overall quality";
    [];
    lit "Also provide:";
    lit "- Specific strengths and weaknesses";
    lit "- Final recommendation (use refined or suggest further improvements)";
    lit "- Brief justification for scores";
    [];
    lit "Format as:";
    lit "SCORES: Accuracy: X/10, Fluency: X/10, Cultural: X/10, Overall: X/10";
    lit "ASSESSMENT: [detailed analysis]";
    lit "RECOMMENDATION: [final recommendation]";
    []
  ].

Definition CONTEXT_NOT_AVAILABLE : pystr := lit "Context analysis not available".
Definition QUALITY_NOT_AVAILABLE : pystr := lit "Quality assessment not available".
Definition ANALYSIS_FAILED : pystr := lit "Multi-agent analysis failed".

Definition quality_failed (e : exn) : pystr :=
  lit "Quality assessment failed: " ++ exn_str e.

(** [str(value) if present and value else default], on what the attribute
    holds. *)
Definition text_or (a : output_attr) (default : pystr) : pystr :=
  match a with
  | Truthy text => text
  | Missing | Falsy => default
  end.

Section Workflow.

Variable E : Externals.

(** The keyword arguments lines 72-78 pass to [model.generate]. *)
Definition generation_call (inputs : Encoding E) (forced : Z)
    : generate_kwargs (Encoding E) :=
  {| gen_inputs := inputs;
     forced_bos_token_id := forced;
     max_length := 200;
     num_beams := 4;
     early_stopping := true;
     do_sample := false |}.

(** Lines 65-69: the inner [try] with its bare [except]. *)
Definition resolve_forced_bos (target_lang mapped_target : pystr) : M E Z :=
  try_except
    (read_ext (fun w => get_lang_id E w mapped_target))
    (fun _ =>
       forced <- read_ext (fun w => get_lang_id E w (lit "fr")) ;;
       print (unsupported_warning target_lang) ;;;
       ret forced).

(** Lines 71-80: the generation call, recorded in the trace, and the
    decoding of its first output. *)
Definition decode_stage (inputs : Encoding E) (forced : Z) : M E pystr :=
  let kwargs := generation_call inputs forced in
  emit (Generated kwargs) ;;;
  outputs <- call_ext (generate E kwargs) ;;
  first <- lift (Str.index outputs 0) ;;
  call_ext (decode E first).

Definition _get_initial_translation
    (text source_lang target_lang : pystr) : M E pystr :=
  try_except
    (call_ext (set_src_lang E source_lang) ;;;
     inputs <- call_ext (tokenize E text) ;;
     let mapped_target := dict_get lang_mapping target_lang (lit "fr") in
     forced <- resolve_forced_bos target_lang mapped_target ;;
     decode_stage inputs forced)
    (fun e =>
       print (CROSS_MARK ++ lit " Translation error: " ++ exn_str e) ;;;
       ret (lit "Translation failed: " ++ exn_str e)).

(** [str(task.output) if hasattr(task, 'output') and task.output else default]. *)
Definition output_or (task : Task E) (default : pystr) : M E pystr :=
  fun st => (Ok (text_or (task_output E (world st) task) default), st).

(** The arguments of [Crew(...)], lines 174-179. *)
Definition the_crew (context_task refinement_task quality_task : Task E)
    : crew_kwargs (Agent E) (Task E) :=
  {| agents := [context_agent E; translator_agent E; quality_agent E];
     tasks := [context_task; refinement_task; quality_task];
     process := sequential;
     verbose := false |}.

(** The body of the [try] of lines 173-187. *)
Definition crew_stage (context_task refinement_task quality_task : Task E)
    (initial_translation : pystr) : M E (pystr * pystr * pystr) :=
  crew <- call_ext (new_Crew E
            (the_crew context_task refinement_task quality_task)) ;;
  print (nl ++ ROBOT ++ lit " Executing multi-agent crew...") ;;;
  call_ext (kickoff E crew) ;;;
  context_analysis <- output_or context_task CONTEXT_NOT_AVAILABLE ;;
  refined_translation <- output_or refinement_task initial_translation ;;
  quality_assessment <- output_or quality_task QUALITY_NOT_AVAILABLE ;;
  ret (context_analysis, refined_translation, quality_assessment).

(** The handler of lines 189-194. *)
Definition crew_fallback (initial_translation : pystr) (e : exn)
    : M E (pystr * pystr * pystr) :=
  print (CROSS_MARK ++ lit " Crew execution failed: " ++ exn_str e) ;;;
  ret (ANALYSIS_FAILED, initial_translation, quality_failed e).

(** Lines 97-170: the three [Task(...)] constructions, before the [try]. *)
Definition build_tasks (text source_lang target_lang initial_translation : pystr)
    : M E (Task E * Task E * Task E) :=
  context_task <- call_ext (new_Task E
    {| description :=
         context_description text source_lang target_lang initial_translation;
       agent := context_agent E;
       expected_output :=
         lit "Detailed context analysis with cultural and linguistic insights";
       context := None |}) ;;
  refinement_task <- call_ext (new_Task E
    {| description := refinement_description text target_lang initial_translation;
       agent := translator_agent E;
       expected_output :=
         lit "Refined, natural translation that incorporates context insights";
       context := Some [context_task] |}) ;;
  quality_task <- call_ext (new_Task E
    {| description :=
         quality_description text source_lang target_lang initial_translation;
       agent := quality_agent E;
       expected_output :=
         lit "Comprehensive quality assessment with scores and recommendations";
       context := Some [context_task; refinement_task] |}) ;;
  ret (context_task, refinement_task, quality_task).

(** Lines 88-94: the banner, the draft and its echo. *)
Definition draft_stage (text source_lang target_lang : pystr) : M E pystr :=
  print (nl ++ ROCKET ++ lit " Starting multi-agent translation: "
           ++ source_lang ++ lit " " ++ RIGHT_ARROW ++ lit " " ++ target_lang) ;;;
  print (MEMO ++ lit " Text: '" ++ text ++ lit "'") ;;;
  print (nl ++ ARROWS ++ lit " Getting initial translation...") ;;;
  initial_translation <- _get_initial_translation text source_lang target_lang ;;
  print (lit "Initial: " ++ initial_translation) ;;;
  ret initial_translation.

(** Lines 196-223: the two parsed fields and the record. *)
Definition assemble (text source_lang target_lang initial_translation : pystr)
    (parsed : pystr * pystr * pystr) : TranslationResult :=
  let '(context_analysis, refined_translation, quality_assessment) := parsed in
  let accuracy_score := parse_accuracy_score quality_assessment in
  let final_recommendation :=
    parse_final_recommendation refined_translation quality_assessment in
  {| original_text := text;
     source_lang := source_lang;
     target_lang := target_lang;
     initial_translation := initial_translation;
     context_analysis := context_analysis;
     refined_translation := refined_translation;
     accuracy_score := accuracy_score;
     quality_assessment := quality_assessment;
     final_recommendation := final_recommendation |}.

Definition translate (text source_lang target_lang : pystr)
    : M E TranslationResult :=
  initial_translation <- draft_stage text source_lang target_lang ;;
  built <- build_tasks text source_lang target_lang initial_translation ;;
  let '(context_task, refinement_task, quality_task) := built in
  parsed <- try_except
              (crew_stage context_task refinement_task quality_task
                 initial_translation)
              (crew_fallback initial_translation) ;;
  ret (assemble text source_lang target_lang initial_translation parsed).

(** The [for] loop of [batch_translate]: [i] counts from 1 and [total] is
    [len(texts)]. *)
Fixpoint batch_loop (total i : nat) (texts : list pystr)
    (source_lang target_lang : pystr) (results : list TranslationResult)
    : M E (list TranslationResult) :=
  match texts with
  | [] => ret results
  | text :: texts' =>
      print (nl ++ CLIPBOARD ++ lit " Processing batch item "
               ++ str_of_nat i ++ lit "/" ++ str_of_nat total) ;;;
      result <- translate text source_lang target_lang ;;
      batch_loop total (S i) texts' source_lang target_lang (results ++ [result])
  end.

Definition batch_translate (texts : list pystr) (source_lang target_lang : pystr)
    : M E (list TranslationResult) :=
  batch_loop (length texts) 1 texts source_lang target_lang [].

End Workflow.

(** ** agents.py: GeminiLLM.call *)

Definition APOLOGY : pystr :=
  lit "I apologize, but I encountered an error while processing your request. Please try again with a simpler prompt.".

Definition NO_RESPONSE : pystr := lit "No response generated".

(** [d[key]] once [key in d] holds. *)
Definition dict_item (d : list (pystr * pyval)) (key : pystr) : pyval :=
  dict_get d key (VOther (lit "NoneType") (lit "None")).

Section Client.

Variable E : Externals.

(** [a + b]: concatenation for two [str]; the [TypeError] of the built-in
    [list] and [dict] with a [str] on the right; what the types of the
    operands make of it in every other case. *)
Definition binary_add (a b : pyval) : result pyval :=
  match a, b with
  | VStr x, VStr y => Ok (VStr (x ++ y))
  | VList _, VStr _ =>
      Raise (Exception (lit "can only concatenate list (not "
                          ++ dq ++ lit "str" ++ dq ++ lit ") to list"))
  | VDict _, VStr _ =>
      Raise (Exception (lit "unsupported operand type(s) for +: 'dict' and 'str'"))
  | _, _ => py_add E a b
  end.

(** [v + "\n"]. *)
Definition add_newline (v : pyval) : result pyval := binary_add v (VStr nl).

(** [content += v + "\n"]. *)
Definition append_line (content v : pyval) : result pyval :=
  rbind (add_newline v) (fun piece => binary_add content piece).

(** The [for msg in prompt] loop of lines 37-44. *)
Fixpoint join_messages (content : pyval) (msgs : list pyval) : result pyval :=
  match msgs with
  | [] => Ok content
  | msg :: msgs' =>
      match msg with
      | VDict d =>
          if dict_has d (lit "content") then
            rbind (append_line content (dict_item d (lit "content")))
              (fun content' => join_messages content' msgs')
          else if dict_has d (lit "text") then
            rbind (append_line content (dict_item d (lit "text")))
              (fun content' => join_messages content' msgs')
          else join_messages content msgs'
      | VStr s =>
          rbind (append_line content (VStr s))
            (fun content' => join_messages content' msgs')
      | VList _ | VOther _ _ => join_messages content msgs'
      end
  end.

(** [content.strip()]. *)
Definition method_strip (content : pyval) : result pyval :=
  match content with
  | VStr s => Ok (VStr (Str.strip s))
  | _ => py_strip E content
  end.

(** Lines 31-56: the prompt turned into what is sent. *)
Definition normalize (prompt : pyval) : result pyval :=
  match prompt with
  | VStr s => Ok (VStr s)
  | VList msgs => rbind (join_messages (VStr []) msgs) method_strip
  | VDict d =>
      if dict_has d (lit "content") then Ok (dict_item d (lit "content"))
      else if dict_has d (lit "text") then Ok (dict_item d (lit "text"))
      else Ok (VStr (builtin_str E prompt))
  | VOther _ _ => Ok (VStr (builtin_str E prompt))
  end.

(** [response.text if response.text else "No response generated"]. *)
Definition text_or_default (response : Response E) : result pystr :=
  rbind (response_text E response) (fun text =>
  match text with
  | Some (c :: s) => Ok (c :: s)
  | Some [] | None => Ok NO_RESPONSE
  end).

(** The body of the [try] of lines 29-60. *)
Definition call_body (prompt : pyval) : M E pystr :=
  content <- lift (normalize prompt) ;;
  response <- call_ext (generate_content E content) ;;
  lift (text_or_default response).

Definition call (prompt : pyval) : M E pystr :=
  try_except (call_body prompt)
    (fun e =>
       print (CROSS_MARK ++ lit " Gemini API Error: " ++ exn_str e) ;;;
       ret APOLOGY).

End Client.

(** ** What the properties speak about *)

(** The text before the first occurrence of [sep], all of [s] when there
    is none. *)
Definition upto (sep s : pystr) : pystr :=
  match Str.find sep s with
  | Some i => take i s
  | None => s
  end.

(** An output attribute that is missing or falsy. *)
Definition unavailable (a : output_attr) : Prop := a = Missing \/ a = Falsy.

Section Observations.

Variable E : Externals.

Definition executing_line : event E :=
  Printed (nl ++ ROBOT ++ lit " Executing multi-agent crew...").

Definition crew_failed_line (e : exn) : event E :=
  Printed (CROSS_MARK ++ lit " Crew execution failed: " ++ exn_str e).

Definition error_line (e : exn) : event E :=
  Printed (CROSS_MARK ++ lit " Translation error: " ++ exn_str e).

Definition api_error_line (e : exn) : event E :=
  Printed (CROSS_MARK ++ lit " Gemini API Error: " ++ exn_str e).

Definition item_line (total i : nat) : event E :=
  Printed (nl ++ CLIPBOARD ++ lit " Processing batch item "
           ++ str_of_nat i ++ lit "/" ++ str_of_nat total).

(** The state after the line that announces item [i]. *)
Definition announced (total i : nat) (st : state E) : state E :=
  State (world st) (trace st ++ [item_line total i]).

(** No [Task(...)] construction raises. *)
Definition tasks_always_built : Prop :=
  forall kwargs w, exists task w', new_Task E kwargs w = (Ok task, w').

(** One [translate] per text, in the order of the list, each started in
    the state the one before it left. *)
Inductive batch_run (source target : pystr) (total : nat)
  : nat -> list pystr -> state E -> list TranslationResult -> state E -> Prop :=
| batch_done i st : batch_run source target total i [] st [] st
| batch_item i text texts st r st1 rs st2 :
    translate E text source target (announced total i st) = (Ok r, st1) ->
    batch_run source target total (S i) texts st1 rs st2 ->
    batch_run source target total i (text :: texts) st (r :: rs) st2.

(** The three places of the [try] body of [call] where an exception can
    come from: the normalisation of the prompt, the request, and the
    access to the text of the response. *)
Definition body_raises (prompt : pyval) (st : state E) (e : exn) : Prop :=
  normalize E prompt = Raise e
  \/ (exists content w,
        normalize E prompt = Ok content
        /\ generate_content E content (world st) = (Raise e, w))
  \/ (exists content response w,
        normalize E prompt = Ok content
        /\ generate_content E content (world st) = (Ok response, w)
        /\ response_text E response = Raise e).

End Observations.

Arguments announced {E} total i st.
Arguments batch_run {E} source target total _ _ _ _ _.

(** ** A test double of the collaborators

    The world counts the tasks built so far; a task is its number. *)

Record stub_config := {
  known_src : pystr -> bool;
  lang_ids : list (pystr * Z);
  task_raises : nat -> bool;
  crew_raises : bool;
  kickoff_raises : bool;
  outputs_after : nat -> output_attr;
  api_reply : pyval -> result (result (option pystr))
}.

Definition stub (c : stub_config) : Externals :=
  {| World := nat;
     Encoding := pystr;
     TokenIds := pystr;
     Agent := nat;
     Task := nat;
     Crew := unit;
     Response := result (option pystr);
     set_src_lang := fun l w =>
       (if known_src c l then Ok tt else Raise (Exception l), w);
     tokenize := fun text w => (Ok text, w);
     get_lang_id := fun _ l =>
       match list_find (fun kv => fst kv = l) (lang_ids c) with
       | Some (_, (_, id)) => Ok id
       | None => Raise (Exception l)
       end;
     generate := fun kw w => (Ok [gen_inputs kw], w);
     decode := fun ids w => (Ok ids, w);
     translator_agent := 0;
     context_agent := 1;
     quality_agent := 2;
     new_Task := fun _ w =>
       (if task_raises c w then Raise (Exception (lit "validation error"))
        else Ok w, S w);
     new_Crew := fun _ w =>
       (if crew_raises c then Raise (Exception (lit "no crew")) else Ok tt, w);
     kickoff := fun _ w =>
       (if kickoff_raises c then Raise (Exception (lit "rate limit")) else Ok tt, w);
     task_output := fun w t => outputs_after c t;
     generate_content := fun v w =>
       (match api_reply c v with Ok r => Ok r | Raise e => Raise e end, w);
     response_text := fun r => r;
     builtin_str := fun _ => lit "<object>";
     py_add := fun a b =>
       match a with
       | VOther type_name _ =>
           Raise (Exception (lit "unsupported operand type(s) for +: '"
                               ++ type_name ++ lit "' and 'str'"))
       | _ => Raise (Exception (lit "can only concatenate str to str"))
       end;
     py_strip := fun v =>
       Raise (Exception (lit "object has no attribute 'strip'")) |}.

Definition m2m_ids : list (pystr * Z) :=
  [(lit "en", 128022%Z); (lit "fr", 128028%Z); (lit "de", 128020%Z)].

Definition calm : stub_config :=
  {| known_src := fun _ => true;
     lang_ids := m2m_ids;
     task_raises := fun _ => false;
     crew_raises := false;
     kickoff_raises := false;
     outputs_after := fun t => Truthy (lit "out" ++ str_of_nat t);
     api_reply := fun _ => Ok (Ok (Some (lit "pong"))) |}.

Definition start {c : stub_config} : state (stub c) := State (0 : World (stub c)) [].


Definition hello : pystr := lit "Hello, how are you?".
Definition en : pystr := lit "en".
Definition fr : pystr := lit "fr".

(** A crew whose quality assessor answers [qa]. *)
Definition replying (qa : pystr) : stub_config :=
  {| known_src := known_src calm;
     lang_ids := lang_ids calm;
     task_raises := task_raises calm;
     crew_raises := false;
     kickoff_raises := false;
     outputs_after := fun t =>
       match t with
       | 0 => Truthy (lit "Casual greeting.")
       | 1 => Truthy (lit "Bonjour, comment allez-vous ?")
       | _ => Truthy qa
       end;
     api_reply := api_reply calm |}.

(** A crew whose run raises. *)
Definition stormy : stub_config :=
  {| known_src := known_src calm;
     lang_ids := lang_ids calm;
     task_raises := task_raises calm;
     crew_raises := false;
     kickoff_raises := true;
     outputs_after := outputs_after calm;
     api_reply := api_reply calm |}.

(** A [Task] constructor that rejects the task numbered [n]. *)
Definition rejecting (n : nat) : stub_config :=
  {| known_src := known_src calm;
     lang_ids := lang_ids calm;
     task_raises := fun w => bool_decide (w = n);
     crew_raises := false;
     kickoff_raises := false;
     outputs_after := outputs_after calm;
     api_reply := api_reply calm |}.

(** A run that leaves the three outputs unset or empty. *)
Definition silent : stub_config :=
  {| known_src := known_src calm;
     lang_ids := lang_ids calm;
     task_raises := task_raises calm;
     crew_raises := false;
     kickoff_raises := false;
     outputs_after := fun t => match t with 1 => Falsy | _ => Missing end;
     api_reply := api_reply calm |}.

(** A Gemini API that raises on every request. *)
Definition offline : stub_config :=
  {| known_src := known_src calm;
     lang_ids := lang_ids calm;
     task_raises := task_raises calm;
     crew_raises := false;
     kickoff_raises := false;
     outputs_after := outputs_after calm;
     api_reply := fun _ => Raise (Exception (lit "503 Service Unavailable")) |}.

(** A Gemini API whose responses carry the given [text]. *)
Definition answering (text : result (option pystr)) : stub_config :=
  {| known_src := known_src calm;
     lang_ids := lang_ids calm;
     task_raises := task_raises calm;
     crew_raises := false;
     kickoff_raises := false;
     outputs_after := outputs_after calm;
     api_reply := fun _ => Ok text |}.

(** ** What the further properties speak about *)

Definition translation_failed (e : exn) : pystr :=
  lit "Translation failed: " ++ exn_str e.

(** The field of a message record that the client reads: 'content', else
    'text', else none. *)
Definition selected (d : list (pystr * pyval)) : option pyval :=
  if dict_has d (lit "content") then Some (dict_item d (lit "content"))
  else if dict_has d (lit "text") then Some (dict_item d (lit "text"))
  else None.

(** A message record whose selected field is no [str]. *)
Definition malformed (msg : pyval) : bool :=
  match msg with
  | VDict d =>
      match selected d with
      | Some (VStr _) | None => false
      | Some _ => true
      end
  | _ => false
  end.

(** What a message adds to the content. *)
Definition message_text (msg : pyval) : pystr :=
  match msg with
  | VStr s => s ++ nl
  | VDict d =>
      match selected d with
      | Some (VStr s) => s ++ nl
      | _ => []
      end
  | _ => []
  end.

Definition nonspace (c : N) : Prop := Str.isspace c = false.

(** A message record whose selected field cannot take a line break:
    [v + "\n"] raises. *)
Definition unaddable (E : Externals) (msg : pyval) : Prop :=
  match msg with
  | VDict d =>
      match selected d with
      | Some v => exists e, add_newline E v = Raise e
      | None => False
      end
  | _ => False
  end.

(** The calls of [model.generate] as the world keeps them in [calls]: a
    call adds its keyword arguments, whether it returns or raises, and
    neither the tokenizer nor the tasks nor the crew make the model
    generate. *)
Record records (E : Externals)
    (calls : World E -> list (generate_kwargs (Encoding E))) : Prop := {
  generate_recorded : forall kwargs w,
    calls (snd (generate E kwargs w)) = calls w ++ [kwargs];
  set_src_lang_silent : forall source_lang w,
    calls (snd (set_src_lang E source_lang w)) = calls w;
  tokenize_silent : forall text w,
    calls (snd (tokenize E text w)) = calls w;
  decode_silent : forall ids w,
    calls (snd (decode E ids w)) = calls w;
  new_Task_silent : forall kwargs w,
    calls (snd (new_Task E kwargs w)) = calls w;
  new_Crew_silent : forall kwargs w,
    calls (snd (new_Crew E kwargs w)) = calls w;
  kickoff_silent : forall crew w,
    calls (snd (kickoff E crew w)) = calls w
}.

(** ** Construction: TranslationWorkflow.__init__, TranslationAgents, GeminiLLM.__init__ *)

Definition TRANSLATION_MODEL : pystr := lit "facebook/m2m100_418M".
Definition GEMINI_MODEL_NAME : pystr := lit "gemini-1.5-flash-002".

Definition CHECK_MARK : pystr := [9989%N].
Definition DART : pystr := [127919%N].
Definition PEOPLE : pystr := [128101%N].
Definition SPARKLES : pystr := [10024%N].
Definition BAR_CHART : pystr := [128202%N].
Definition BRAIN : pystr := [129504%N].
Definition MAGNIFIER : pystr := [128269%N].
Definition LETTERS : pystr := [128292%N].
Definition PACKAGE : pystr := [128230%N].
Definition BULB : pystr := [128161%N].
Definition GAMEPAD : pystr := [127918%N].
Definition WAVE : pystr := [128075%N].
Definition QUESTION : pystr := [10067%N].

(** The keyword arguments of [Agent(...)]. *)
Module AgentKw.
Record t (LLM : Type) := {
  role : pystr;
  goal : pystr;
  backstory : pystr;
  verbose : bool;
  allow_delegation : bool;
  llm : LLM
}.
Arguments role {LLM} _.
Arguments goal {LLM} _.
Arguments backstory {LLM} _.
Arguments verbose {LLM} _.
Arguments allow_delegation {LLM} _.
Arguments llm {LLM} _.
End AgentKw.

(** What construction and the front ends use beyond [Externals]: the
    loaders of the tokenizer and of the model, the base class and the
    Gemini module behind [GeminiLLM], the [Agent] constructor, the API key
    of the configuration, and the [repr] and [lower] of a [str]. *)
Record Setup (E : Externals) := {
  LLMHandle : Type;
  GEMINI_API_KEY : pystr;
  tokenizer_from_pretrained : pystr -> World E -> result unit * World E;
  model_from_pretrained : pystr -> World E -> result unit * World E;
  LLM_init : pystr -> World E -> result LLMHandle * World E;
  genai_configure : pystr -> World E -> result unit * World E;
  GenerativeModel : pystr -> World E -> result unit * World E;
  new_Agent : AgentKw.t LLMHandle -> World E -> result (Agent E) * World E;
  builtin_repr : pystr -> pystr;
  str_lower : pystr -> pystr
}.
Arguments LLMHandle {E} _.
Arguments GEMINI_API_KEY {E} _.
Arguments tokenizer_from_pretrained {E} _ _ _.
Arguments model_from_pretrained {E} _ _ _.
Arguments LLM_init {E} _ _ _.
Arguments genai_configure {E} _ _ _.
Arguments GenerativeModel {E} _ _ _.
Arguments new_Agent {E} _ _ _.
Arguments builtin_repr {E} _ _.
Arguments str_lower {E} _ _.

(** The attributes a constructed workflow holds. *)
Module Wf.
Record t (E : Externals) (LLM : Type) := {
  llm : LLM;
  translator_agent : Agent E;
  context_agent : Agent E;
  quality_agent : Agent E
}.
Arguments llm {E LLM} _.
Arguments translator_agent {E LLM} _.
Arguments context_agent {E LLM} _.
Arguments quality_agent {E LLM} _.
End Wf.

(** A backstory: its first line, then the lines that follow, each after a
    line break and the twelve spaces of the source. *)
Definition story (first : pystr) (rest : list pystr) : pystr :=
  first ++ block rest.

Definition translator_kwargs {LLM} (llm : LLM) : AgentKw.t LLM :=
  {| AgentKw.role := lit "Professional Translator";
     AgentKw.goal := lit "Provide accurate and natural translations while maintaining the original meaning and tone";
     AgentKw.backstory := story
       (lit "You are an expert linguist with deep knowledge of multiple languages. ")
       [lit "You specialize in creating natural, culturally appropriate translations that preserve ";
        lit "the original intent while being fluent in the target language. You have experience ";
        lit "with various text types from casual conversation to technical documents."];
     AgentKw.verbose := false;
     AgentKw.allow_delegation := false;
     AgentKw.llm := llm |}.

Definition context_kwargs {LLM} (llm : LLM) : AgentKw.t LLM :=
  {| AgentKw.role := lit "Cultural Context Analyst";
     AgentKw.goal := lit "Analyze text context, cultural nuances, and provide recommendations for optimal translation";
     AgentKw.backstory := story
       (lit "You are a cultural linguistics expert who specializes in understanding ")
       [lit "the subtle cultural, social, and contextual elements in text. You can identify ";
        lit "formal vs informal registers, cultural references, idioms, and suggest how to ";
        lit "best adapt them for different target cultures while maintaining authenticity."];
     AgentKw.verbose := false;
     AgentKw.allow_delegation := false;
     AgentKw.llm := llm |}.

Definition quality_kwargs {LLM} (llm : LLM) : AgentKw.t LLM :=
  {| AgentKw.role := lit "Translation Quality Assessor";
     AgentKw.goal := lit "Evaluate translation accuracy, fluency, and cultural appropriateness to ensure highest quality output";
     AgentKw.backstory := story
       (lit "You are a meticulous quality control expert in translation services. ")
       [lit "You have extensive experience in evaluating translations across multiple criteria ";
        lit "including accuracy, fluency, cultural appropriateness, and naturalness. You provide ";
        lit "detailed feedback and actionable recommendations for improvement."];
     AgentKw.verbose := false;
     AgentKw.allow_delegation := false;
     AgentKw.llm := llm |}.

Section Construction.

Variable E : Externals.
Variable K : Setup E.

Definition raise {A} (e : exn) : M E A := lift (Raise e).

(** agents.py, lines 16-22. *)
Definition GeminiLLM_init (api_key model_name : pystr) : M E (LLMHandle K) :=
  self <- call_ext (LLM_init K model_name) ;;
  call_ext (genai_configure K api_key) ;;;
  call_ext (GenerativeModel K model_name) ;;;
  print (CHECK_MARK ++ lit " Initialized Gemini LLM: " ++ model_name) ;;;
  ret self.

(** agents.py, lines 75-77. *)
Definition TranslationAgents_init (api_key : pystr) : M E (LLMHandle K) :=
  GeminiLLM_init api_key GEMINI_MODEL_NAME.

Definition create_translator_agent (llm : LLMHandle K) : M E (Agent E) :=
  call_ext (new_Agent K (translator_kwargs llm)).

Definition create_context_agent (llm : LLMHandle K) : M E (Agent E) :=
  call_ext (new_Agent K (context_kwargs llm)).

Definition create_quality_agent (llm : LLMHandle K) : M E (Agent E) :=
  call_ext (new_Agent K (quality_kwargs llm)).

(** workflow.py, lines 31-37: the model. *)
Definition load_model : M E unit :=
  try_except
    (call_ext (tokenizer_from_pretrained K TRANSLATION_MODEL) ;;;
     call_ext (model_from_pretrained K TRANSLATION_MODEL) ;;;
     print (CHECK_MARK ++ lit " Translation model loaded successfully"))
    (fun e =>
       print (CROSS_MARK ++ lit " Failed to load translation model: " ++ exn_str e) ;;;
       raise e).

(** workflow.py, lines 40-48: the agents. *)
Definition load_agents : M E (Wf.t E (LLMHandle K)) :=
  try_except
    (llm <- TranslationAgents_init (GEMINI_API_KEY K) ;;
     translator <- create_translator_agent llm ;;
     context <- create_context_agent llm ;;
     quality <- create_quality_agent llm ;;
     print (CHECK_MARK ++ lit " All agents initialized successfully!") ;;;
     ret {| Wf.llm := llm;
            Wf.translator_agent := translator;
            Wf.context_agent := context;
            Wf.quality_agent := quality |})
    (fun e =>
       print (CROSS_MARK ++ lit " Failed to initialize agents: " ++ exn_str e) ;;;
       raise e).

(** [TranslationWorkflow()]. *)
Definition TranslationWorkflow_init : M E (Wf.t E (LLMHandle K)) :=
  print (ARROWS ++ lit " Loading translation model...") ;;;
  load_model ;;;
  load_agents.

End Construction.

Arguments raise {E A} e.

(** ** gradio_app.py: class GradioTranslationApp *)

Module Gradio.

Definition LANGUAGES : list (pystr * pystr) :=
  map (fun kv => (lit (fst kv), lit (snd kv)))
    [("English", "en"); ("French", "fr"); ("Spanish", "es"); ("German", "de");
     ("Italian", "it"); ("Portuguese", "pt"); ("Russian", "ru"); ("Chinese", "zh");
     ("Japanese", "ja"); ("Korean", "ko"); ("Arabic", "ar"); ("Hindi", "hi");
     ("Dutch", "nl"); ("Turkish", "tr"); ("Polish", "pl")]%string.

(** [bool(s)] for a [str]. *)
Definition truthy (s : pystr) : bool :=
  match s with [] => false | _ :: _ => true end.

(** One row of the results table. *)
Record row := {
  Item : nat;
  Original_Text : pystr;
  Initial_Translation : pystr;
  Refined_Translation : pystr;
  Context_Analysis : pystr;
  Quality_Scores : pystr
}.

(** Line 109: the context analysis as the table shows it. *)
Definition shortened (context_analysis : pystr) : pystr :=
  if 100 <? length context_analysis
  then take 100 context_analysis ++ lit "..."
  else context_analysis.

(** Lines 102-111: the loop over [enumerate(results, 1)]. *)
Fixpoint rows_from (i : nat) (results : list TranslationResult) (df_data : list row)
    : list row :=
  match results with
  | [] => df_data
  | result :: results' =>
      rows_from (S i) results'
        (df_data ++
         [ {| Item := i;
              Original_Text := original_text result;
              Initial_Translation := initial_translation result;
              Refined_Translation := refined_translation result;
              Context_Analysis := shortened (context_analysis result);
              Quality_Scores := accuracy_score result |} ])
  end.

(** Line 89: the stripped lines that are not blank. *)
Definition texts_of (lines : list pystr) : list pystr :=
  map Str.strip (List.filter (fun line => truthy (Str.strip line)) lines).

Definition NOT_INITIALIZED : pystr :=
  CROSS_MARK ++ lit " Workflow not initialized. Please check your setup.".
Definition PLEASE_ENTER_TEXT : pystr :=
  WARNING_SIGN ++ lit " Please enter text to translate".
Definition PLEASE_ENTER_TEXTS : pystr :=
  WARNING_SIGN ++ lit " Please enter texts to translate (one per line)".
Definition SAME_LANGUAGES : pystr :=
  WARNING_SIGN ++ lit " Source and target languages cannot be the same".
Definition NO_VALID_TEXTS : pystr :=
  WARNING_SIGN ++ lit " No valid texts found".
Definition INITIALIZED : pystr :=
  CHECK_MARK ++ lit " Translation workflow initialized successfully!".

(** The six outputs of [translate_single] when only the status is set. *)
Definition only_status (status : pystr)
    : pystr * pystr * pystr * pystr * pystr * pystr :=
  (status, [], [], [], [], []).

Section App.

Variable E : Externals.
Variable K : Setup E.

Definition workflow_attr : Type := option (Wf.t E (LLMHandle K)).

(** [LANGUAGES[name]]: a missing key raises [KeyError], whose text is the
    [repr] of the key. *)
Definition language_code (name : pystr) : result pystr :=
  if dict_has LANGUAGES name then Ok (dict_get LANGUAGES name [])
  else Raise (Exception (builtin_repr K name)).

(** Lines 34-40; the first component is [self.workflow] afterwards. *)
Definition initialize_workflow (workflow : workflow_attr)
    : M E (workflow_attr * pystr) :=
  try_except
    (built <- TranslationWorkflow_init E K ;;
     ret (Some built, INITIALIZED))
    (fun e =>
       ret (workflow, CROSS_MARK ++ lit " Failed to initialize workflow: " ++ exn_str e)).

(** Lines 29-32: [__init__], giving [self.workflow]. *)
Definition app_init : M E workflow_attr :=
  out <- initialize_workflow None ;;
  ret (fst out).

Definition translate_single (workflow : workflow_attr)
    (text source_lang target_lang : pystr)
    : M E (pystr * pystr * pystr * pystr * pystr * pystr) :=
  match workflow with
  | None => ret (only_status NOT_INITIALIZED)
  | Some _ =>
      if negb (truthy (Str.strip text)) then ret (only_status PLEASE_ENTER_TEXT)
      else if decide (source_lang = target_lang)
      then ret (only_status SAME_LANGUAGES)
      else
        try_except
          (source_code <- lift (language_code source_lang) ;;
           target_code <- lift (language_code target_lang) ;;
           result <- translate E text source_code target_code ;;
           let status :=
             CHECK_MARK ++ lit " Translation completed: " ++ source_lang
               ++ lit " " ++ RIGHT_ARROW ++ lit " " ++ target_lang in
           ret (status, initial_translation result, refined_translation result,
                context_analysis result, accuracy_score result,
                quality_assessment result))
          (fun e =>
             ret (only_status (CROSS_MARK ++ lit " Translation failed: " ++ exn_str e)))
  end.

Definition translate_batch (workflow : workflow_attr)
    (batch_text source_lang target_lang : pystr) : M E (pystr * list row) :=
  match workflow with
  | None => ret (NOT_INITIALIZED, [])
  | Some _ =>
      if negb (truthy (Str.strip batch_text)) then ret (PLEASE_ENTER_TEXTS, [])
      else if decide (source_lang = target_lang) then ret (SAME_LANGUAGES, [])
      else
        try_except
          (lines <- lift (Str.split nl batch_text) ;;
           let texts := texts_of lines in
           match texts with
           | [] => ret (NO_VALID_TEXTS, [])
           | _ :: _ =>
               source_code <- lift (language_code source_lang) ;;
               target_code <- lift (language_code target_lang) ;;
               results <- batch_translate E texts source_code target_code ;;
               let df := rows_from 1 results [] in
               let status :=
                 CHECK_MARK ++ lit " Batch translation completed: "
                   ++ str_of_nat (length texts) ++ lit " texts processed ("
                   ++ source_lang ++ lit " " ++ RIGHT_ARROW ++ lit " "
                   ++ target_lang ++ lit ")" in
               ret (status, df)
           end)
          (fun e =>
             ret (CROSS_MARK ++ lit " Batch translation failed: " ++ exn_str e, []))
  end.

End App.

End Gradio.

(** ** main.py: the console application *)

Module Cli.

Definition RULE : pystr := replicate 60 61%N.

(** [x or default] for a [str]. *)
Definition or_default (x default : pystr) : pystr :=
  match x with [] => default | _ :: _ => x end.

Section Printing.

Variable E : Externals.

Definition print_header : M E unit :=
  print (ROBOT ++ lit " === CrewAI Multi-Agent Translation Workflow ===") ;;;
  print (DART ++ lit " Features: Context Analysis | Translation Refinement | Quality Assessment") ;;;
  print (PEOPLE ++ lit " Agents: Professional Translator | Cultural Context Analyst | Quality Assessor") ;;;
  print (nl ++ lit "Commands: 'single', 'batch', 'quit'" ++ nl).

Definition print_translation_result (result : TranslationResult) : M E unit :=
  print (nl ++ RULE) ;;;
  print (DART ++ lit " TRANSLATION RESULT") ;;;
  print RULE ;;;
  print (MEMO ++ lit " Original: " ++ original_text result) ;;;
  print (ARROWS ++ lit " Initial: " ++ initial_translation result) ;;;
  print (SPARKLES ++ lit " Refined: " ++ refined_translation result) ;;;
  print (BAR_CHART ++ lit " Scores: " ++ accuracy_score result) ;;;
  print (CLIPBOARD ++ lit " Assessment: " ++ quality_assessment result) ;;;
  print (DART ++ lit " Final Recommendation: " ++ final_recommendation result) ;;;
  print (BRAIN ++ lit " Context Analysis: " ++ context_analysis result) ;;;
  print RULE.

(** The loop of [print_batch_results]. *)
Fixpoint print_each (i : nat) (results : list TranslationResult) : M E unit :=
  match results with
  | [] => ret tt
  | result :: results' =>
      print (nl ++ MAGNIFIER ++ lit " --- TRANSLATION " ++ str_of_nat i ++ lit " ---") ;;;
      print (MEMO ++ lit " Original: " ++ original_text result) ;;;
      print (ARROWS ++ lit " Initial: " ++ initial_translation result) ;;;
      print (SPARKLES ++ lit " Refined: " ++ refined_translation result) ;;;
      print (BAR_CHART ++ lit " Scores: " ++ accuracy_score result) ;;;
      print (DART ++ lit " Context: " ++ take 150 (context_analysis result) ++ lit "...") ;;;
      print_each (S i) results'
  end.

Definition print_batch_results (results : list TranslationResult) : M E unit :=
  print (nl ++ RULE) ;;;
  print (BAR_CHART ++ lit " BATCH TRANSLATION RESULTS") ;;;
  print RULE ;;;
  print_each 1 results.

End Printing.

(** What arrives on standard input: a line, or an interrupt from the
    keyboard while a line is awaited. *)
Inductive key :=
| Line (text : pystr)
| CtrlC.

(** [KeyboardInterrupt] is no [Exception]: the two are told apart. *)
Inductive signal :=
| Exc (e : exn)
| KeyboardInterrupt.

(** How a computation at the console ends; [Running] is a loop that has
    not ended within the steps it was given. *)
Inductive outcome (A : Type) : Type :=
| Done (a : A)
| Thrown (s : signal)
| Running.
Arguments Done {A} a.
Arguments Thrown {A} s.
Arguments Running {A}.

Inductive loop_step := Continue | Break.

Section Console.

Variable E : Externals.
Variable K : Setup E.

(** What the terminal shows: the events of the program, and the prompts
    of [input], which end without a line break. *)
Inductive shown :=
| Out (ev : event E)
| Prompt (text : pystr).

Record console := Console {
  c_world : World E;
  stdin : list key;
  screen : list shown
}.

Definition C (A : Type) : Type := console -> outcome A * console.

Definition cret {A} (a : A) : C A := fun c => (Done a, c).

Definition cbind {A B} (m : C A) (k : A -> C B) : C B :=
  fun c =>
    match m c with
    | (Done a, c') => k a c'
    | (Thrown s, c') => (Thrown s, c')
    | (Running, c') => (Running, c')
    end.

(** A computation of the workflow, run at the console. *)
Definition run {A} (m : M E A) : C A :=
  fun c =>
    let (r, st) := m (State (c_world c) []) in
    (match r with Ok a => Done a | Raise e => Thrown (Exc e) end,
     Console (world st) (stdin c) (screen c ++ map Out (trace st))).

(** [input(prompt)]: at the end of the input [EOFError] is raised. *)
Definition input (prompt : pystr) : C pystr :=
  fun c =>
    let shown' := screen c ++ [Prompt prompt] in
    match stdin c with
    | [] =>
        (Thrown (Exc (Exception (lit "EOF when reading a line"))),
         Console (c_world c) [] shown')
    | Line text :: rest => (Done text, Console (c_world c) rest shown')
    | CtrlC :: rest => (Thrown KeyboardInterrupt, Console (c_world c) rest shown')
    end.

Definition get_user_input : C (option (pystr * pystr * pystr)) :=
  cbind (input (MEMO ++ lit " Text to translate: ")) (fun raw =>
  let text := Str.strip raw in
  match text with
  | [] => cret None
  | _ :: _ =>
      cbind (input (LETTERS ++ lit " From language [en]: ")) (fun raw_source =>
      let source := or_default (Str.strip raw_source) (lit "en") in
      cbind (input (DART ++ lit " To language [fr]: ")) (fun raw_target =>
      let target := or_default (Str.strip raw_target) (lit "fr") in
      cret (Some (text, source, target))))
  end).

(** The [while True] of [get_batch_input]; every round reads a line, so
    it ends within one round more than there are lines. *)
Fixpoint read_texts (rounds : nat) (texts : list pystr) : C (list pystr) :=
  match rounds with
  | 0 => fun c => (Running, c)
  | S rounds' =>
      cbind (input (lit "Text " ++ str_of_nat (length texts + 1) ++ lit ": "))
        (fun raw =>
           let text := Str.strip raw in
           match text with
           | [] => cret texts
           | _ :: _ => read_texts rounds' (texts ++ [text])
           end)
  end.

Definition get_batch_input : C (option (list pystr * pystr * pystr)) :=
  cbind (run (print (lit "Enter texts (empty line to finish):"))) (fun _ =>
  cbind (fun c => read_texts (S (length (stdin c))) [] c) (fun texts =>
  match texts with
  | [] => cret None
  | _ :: _ =>
      cbind (input (lit "From language [en]: ")) (fun raw_source =>
      let source := or_default (Str.strip raw_source) (lit "en") in
      cbind (input (lit "To language [fr]: ")) (fun raw_target =>
      let target := or_default (Str.strip raw_target) (lit "fr") in
      cret (Some (texts, source, target))))
  end)).

Definition run_single_mode (workflow : Wf.t E (LLMHandle K)) : C unit :=
  cbind get_user_input (fun got =>
  match got with
  | None => cret tt
  | Some (text, source, target) =>
      cbind (run (translate E text source target)) (fun result =>
      run (print_translation_result E result))
  end).

Definition run_batch_mode (workflow : Wf.t E (LLMHandle K)) : C unit :=
  cbind (run (print (nl ++ PACKAGE ++ lit " Batch Translation Mode"))) (fun _ =>
  cbind get_batch_input (fun got =>
  match got with
  | None => run (print (lit "No texts provided."))
  | Some (texts, source, target) =>
      cbind (run (batch_translate E texts source target)) (fun results =>
      run (print_batch_results E results))
  end)).

(** The body of the [try] of lines 110-120. *)
Definition one_command (workflow : Wf.t E (LLMHandle K)) : C loop_step :=
  cbind (input (GAMEPAD ++ lit " Mode [single/batch/quit]: ")) (fun raw =>
  let mode := str_lower K (Str.strip raw) in
  if decide (mode = lit "quit") then
    cbind (run (print (WAVE ++ lit " Goodbye!"))) (fun _ => cret Break)
  else if decide (mode = lit "batch") then
    cbind (run_batch_mode workflow) (fun _ => cret Continue)
  else if decide (mode = lit "single" \/ mode = []) then
    cbind (run_single_mode workflow) (fun _ => cret Continue)
  else
    cbind (run (print (QUESTION ++ lit " Please enter 'single', 'batch', or 'quit'")))
      (fun _ => cret Continue)).

(** Lines 125-127: what the loop prints for an exception. *)
Definition report_error (e : exn) : M E unit :=
  print (CROSS_MARK ++ lit " Error: " ++ exn_str e) ;;;
  print (BULB ++ lit " Try again or type 'quit' to exit").

(** Lines 108-127: the [while True], for at most [rounds] rounds. *)
Fixpoint main_loop (rounds : nat) (workflow : Wf.t E (LLMHandle K)) : C unit :=
  match rounds with
  | 0 => fun c => (Running, c)
  | S rounds' =>
      fun c =>
        match one_command workflow c with
        | (Done Break, c') => (Done tt, c')
        | (Done Continue, c') => main_loop rounds' workflow c'
        | (Thrown KeyboardInterrupt, c') =>
            run (print (nl ++ WAVE ++ lit " Interrupted by user. Goodbye!")) c'
        | (Thrown (Exc e), c') =>
            cbind (run (report_error e)) (fun _ => main_loop rounds' workflow) c'
        | (Running, c') => (Running, c')
        end
  end.

(** Lines 99-105: what [main] prints when the workflow cannot be built. *)
Definition report_no_workflow (e : exn) : M E unit :=
  print (CROSS_MARK ++ lit " Failed to initialize workflow: " ++ exn_str e) ;;;
  print (BULB ++ lit " Make sure you have:") ;;;
  print (lit "   - Valid Gemini API key") ;;;
  print (lit "   - Internet connection for model downloads") ;;;
  print (lit "   - Required packages: pip install crewai transformers torch google-generativeai").

Definition main (rounds : nat) : C unit :=
  cbind (run (print_header E)) (fun _ =>
  fun c =>
    match run (TranslationWorkflow_init E K) c with
    | (Done workflow, c') => main_loop rounds workflow c'
    | (Thrown (Exc e), c') => run (report_no_workflow e) c'
    | (Thrown KeyboardInterrupt, c') => (Thrown KeyboardInterrupt, c')
    | (Running, c') => (Running, c')
    end).

End Console.

Arguments Out {E} ev.
Arguments Prompt {E} text.
Arguments Console {E} c_world stdin screen.
Arguments c_world {E} _.
Arguments stdin {E} _.
Arguments screen {E} _.
Arguments cret {E A} a.
Arguments cbind {E A B} m k.
Arguments run {E A} m.
Arguments input {E} prompt.

End Cli.

(** ** The lines and statuses of the front ends *)

Definition load_failed_line {E : Externals} (e : exn) : event E :=
  Printed (CROSS_MARK ++ lit " Failed to load translation model: " ++ exn_str e).

Definition agents_failed_line {E : Externals} (e : exn) : event E :=
  Printed (CROSS_MARK ++ lit " Failed to initialize agents: " ++ exn_str e).

Definition agents_ready_line {E : Externals} : event E :=
  Printed (CHECK_MARK ++ lit " All agents initialized successfully!").

Definition completed_status (source_lang target_lang : pystr) : pystr :=
  CHECK_MARK ++ lit " Translation completed: " ++ source_lang
    ++ lit " " ++ RIGHT_ARROW ++ lit " " ++ target_lang.

Definition failed_status (e : exn) : pystr :=
  CROSS_MARK ++ lit " Translation failed: " ++ exn_str e.

Definition batch_failed_status (e : exn) : pystr :=
  CROSS_MARK ++ lit " Batch translation failed: " ++ exn_str e.

Definition batch_completed_status (n : nat) (source_lang target_lang : pystr) : pystr :=
  CHECK_MARK ++ lit " Batch translation completed: "
    ++ str_of_nat n ++ lit " texts processed ("
    ++ source_lang ++ lit " " ++ RIGHT_ARROW ++ lit " " ++ target_lang ++ lit ")".

Definition row_of (i : nat) (result : TranslationResult) : Gradio.row :=
  {| Gradio.Item := i;
     Gradio.Original_Text := original_text result;
     Gradio.Initial_Translation := initial_translation result;
     Gradio.Refined_Translation := refined_translation result;
     Gradio.Context_Analysis := Gradio.shortened (context_analysis result);
     Gradio.Quality_Scores := accuracy_score result |}.

Definition text_prompt (n : nat) : pystr :=
  lit "Text " ++ str_of_nat (n + 1) ++ lit ": ".

(** The prompts of the reading loop when [n] texts are there already. *)
Fixpoint text_prompts (E : Externals) (n count : nat) : list (Cli.shown E) :=
  match count with
  | 0 => []
  | S count' => Cli.Prompt (text_prompt n) :: text_prompts E (S n) count'
  end.

Definition mode_prompt (E : Externals) : Cli.shown E :=
  Cli.Prompt (GAMEPAD ++ lit " Mode [single/batch/quit]: ").

(** ** More of the test double *)

(** A tokenizer that does not know the source language [l]. *)
Definition rejecting_source (l : pystr) : stub_config :=
  {| known_src := fun l' => negb (bool_decide (l' = l));
     lang_ids := lang_ids calm;
     task_raises := task_raises calm;
     crew_raises := false;
     kickoff_raises := false;
     outputs_after := outputs_after calm;
     api_reply := api_reply calm |}.

(** A tokenizer without any language id. *)
Definition tongueless : stub_config :=
  {| known_src := known_src calm;
     lang_ids := [];
     task_raises := task_raises calm;
     crew_raises := false;
     kickoff_raises := false;
     outputs_after := outputs_after calm;
     api_reply := api_reply calm |}.

(** ASCII lower case, for the test double. *)
Definition ascii_lower (s : pystr) : pystr :=
  map (fun c => if ((65 <=? c) && (c <=? 90))%N then (c + 32)%N else c) s.

(** A construction in which the tokenizer loads only when [loads] holds
    and every other step goes through. *)
Definition test_setup (c : stub_config) (loads : bool) : Setup (stub c) :=
  {| LLMHandle := unit;
     GEMINI_API_KEY := lit "test-key";
     tokenizer_from_pretrained := fun name w =>
       (if loads then Ok tt else Raise (Exception (lit "no network")), w);
     model_from_pretrained := fun name w => (Ok tt, w);
     LLM_init := fun name w => (Ok tt, w);
     genai_configure := fun key w => (Ok tt, w);
     GenerativeModel := fun name w => (Ok tt, w);
     new_Agent := fun kwargs w => (Ok (length (AgentKw.role kwargs) : Agent (stub c)), w);
     builtin_repr := fun s => lit "'" ++ s ++ lit "'";
     str_lower := ascii_lower |}.

Definition test_workflow (c : stub_config) : Wf.t (stub c) unit :=
  {| Wf.llm := tt;
     Wf.translator_agent := 0 : Agent (stub c);
     Wf.context_agent := 1 : Agent (stub c);
     Wf.quality_agent := 2 : Agent (stub c) |}.

Definition keyboard (c : stub_config) (keys : list Cli.key) : Cli.console (stub c) :=
  Cli.Console (0 : World (stub c)) keys [].

Definition three_lines : pystr :=
  lit "Hello world" ++ nl ++ lit "   " ++ nl ++ lit " Goodbye ".

(** *** A world that keeps the calls of the model

    The collaborators [E] with a world that holds, beside the world of
    [E], the keyword arguments of the calls of [model.generate] so far. *)

Definition kept {W L A : Type} (f : W -> result A * W) (wl : W * L)
    : result A * (W * L) :=
  (fst (f (fst wl)), (snd (f (fst wl)), snd wl)).

Definition recording (E : Externals) : Externals :=
  {| World := World E * list (generate_kwargs (Encoding E));
     Encoding := Encoding E;
     TokenIds := TokenIds E;
     Agent := Agent E;
     Task := Task E;
     Crew := Crew E;
     Response := Response E;
     set_src_lang := fun source_lang => kept (set_src_lang E source_lang);
     tokenize := fun text => kept (tokenize E text);
     get_lang_id := fun wl => get_lang_id E (fst wl);
     generate := fun kwargs wl =>
       (fst (generate E kwargs (fst wl)),
        (snd (generate E kwargs (fst wl)), snd wl ++ [kwargs]));
     decode := fun ids => kept (decode E ids);
     translator_agent := translator_agent E;
     context_agent := context_agent E;
     quality_agent := quality_agent E;
     new_Task := fun kwargs => kept (new_Task E kwargs);
     new_Crew := fun kwargs => kept (new_Crew E kwargs);
     kickoff := fun crew => kept (kickoff E crew);
     task_output := fun wl => task_output E (fst wl);
     generate_content := fun content => kept (generate_content E content);
     response_text := response_text E;
     builtin_str := builtin_str E;
     py_add := py_add E;
     py_strip := py_strip E |}.

(** The calls kept by the world of [recording E]. *)
Definition recorded {E : Externals} (wl : World (recording E))
    : list (generate_kwargs (Encoding (recording E))) :=
  snd wl.

Definition recording_setup {E : Externals} (K : Setup E) : Setup (recording E) :=
  @Build_Setup (recording E)
    (LLMHandle K)
    (GEMINI_API_KEY K)
    (fun name => kept (tokenizer_from_pretrained K name))
    (fun name => kept (model_from_pretrained K name))
    (fun name => kept (LLM_init K name))
    (fun key => kept (genai_configure K key))
    (fun name => kept (GenerativeModel K name))
    (fun kwargs => kept (new_Agent K kwargs))
    (builtin_repr K)
    (str_lower K).

Definition recording_workflow {E : Externals} {LLM : Type} (wf : Wf.t E LLM)
    : Wf.t (recording E) LLM :=
  {| Wf.llm := Wf.llm wf;
     Wf.translator_agent := Wf.translator_agent wf : Agent (recording E);
     Wf.context_agent := Wf.context_agent wf : Agent (recording E);
     Wf.quality_agent := Wf.quality_agent wf : Agent (recording E) |}.

(** The start of the test double with nothing recorded. *)
Definition fresh {c : stub_config} : state (recording (stub c)) :=
  State ((0, []) : World (recording (stub c))) [].

(** * Properties *)

(** ** Occurrences and cuts *)

Lemma startswith_app (p s : pystr) :
  Str.startswith p s = true <-> exists t, s = p ++ t.
Proof.
  revert s; induction p as [|a p IH]; intros s; simpl.
  - split; [intros _; by exists s | done].
  - destruct s as [|b s].
    + split; [done | intros [t Ht]; discriminate].
    + rewrite andb_true_iff, N.eqb_eq, IH. split.
      * intros [-> [t ->]]. by exists t.
      * intros [t Ht]. injection Ht as -> ->. eauto.
Qed.

Lemma find_Some_occurrence (sep s : pystr) (i : nat) :
  Str.find sep s = Some i ->
  s = take i s ++ sep ++ drop (i + length sep) s.
Proof.
  revert i; induction s as [|c s IH]; intros i; simpl.
  - destruct (Str.startswith sep []) eqn:Hp; [|done].
    intros [= <-]. apply startswith_app in Hp as [t Ht].
    destruct sep; [by destruct t | done].
  - destruct (Str.startswith sep (c :: s)) eqn:Hp.
    + intros [= <-]. apply startswith_app in Hp as [t Ht].
      simpl. rewrite Ht at 1. f_equal.
      rewrite Ht, drop_app_length. done.
    + destruct (Str.find sep s) as [j|] eqn:Hf; [|done].
      simpl. intros [= <-]. simpl. f_equal. by apply IH.
Qed.

Lemma find_Some_first (sep s : pystr) (i j : nat) :
  Str.find sep s = Some i -> j < i -> Str.startswith sep (drop j s) = false.
Proof.
  revert i j; induction s as [|c s IH]; intros i j; simpl.
  - destruct (Str.startswith sep []); [intros [= <-]; lia | done].
  - destruct (Str.startswith sep (c :: s)) eqn:Hp; [intros [= <-]; lia |].
    destruct (Str.find sep s) as [k|] eqn:Hf; [|done].
    simpl. intros [= <-] Hj. destruct j as [|j]; [done |].
    simpl. apply (IH k); [done | lia].
Qed.

Lemma find_None_nowhere (sep s : pystr) (j : nat) :
  Str.find sep s = None -> Str.startswith sep (drop j s) = false.
Proof.
  revert j; induction s as [|c s IH]; intros j; simpl.
  - destruct (Str.startswith sep []) eqn:Hp; [done |].
    intros _. by destruct j.
  - destruct (Str.startswith sep (c :: s)) eqn:Hp; [done |].
    destruct (Str.find sep s) eqn:Hf; [done |].
    intros _. destruct j as [|j]; [done | by apply IH].
Qed.

Lemma find_in_empty (sep : pystr) (i : nat) :
  sep <> [] -> Str.find sep [] = Some i -> False.
Proof. by destruct sep. Qed.

Lemma upto_absent (sep s : pystr) : Str.find sep s = None -> upto sep s = s.
Proof. unfold upto. by intros ->. Qed.

Lemma find_Some_bound (sep s : pystr) (i : nat) :
  Str.find sep s = Some i -> i + length sep <= length s.
Proof.
  revert i; induction s as [|c s IH]; intros i; simpl.
  - destruct sep; [intros [= <-]; simpl; lia | done].
  - destruct (Str.startswith sep (c :: s)) eqn:Hp.
    + intros [= <-]. apply startswith_app in Hp as [t Ht].
      apply (f_equal length) in Ht. rewrite length_app in Ht. simpl in *. lia.
    + destruct (Str.find sep s) as [j|]; [|done].
      simpl. intros [= <-]. specialize (IH j eq_refl). lia.
Qed.

(** The fuel of [split] is enough: more of it changes nothing. *)
Lemma split_fuel_enough (sep s : pystr) (fuel fuel' : nat) :
  sep <> [] -> length s < fuel -> length s < fuel' ->
  Str.split_fuel fuel sep s = Str.split_fuel fuel' sep s.
Proof.
  intros Hsep. revert s fuel'.
  induction fuel as [|fuel IH]; intros s fuel' Hf Hf'; [lia |].
  destruct fuel' as [|fuel']; [lia |]. simpl.
  destruct (Str.find sep s) as [i|] eqn:Hi; [|done].
  f_equal. pose proof (find_Some_bound _ _ _ Hi) as Hb.
  assert (0 < length sep) by (destruct sep; [done | simpl; lia]).
  apply IH; rewrite length_drop; lia.
Qed.

(** [split] cuts at the first occurrence and splits what follows it. *)
Lemma split_unfold (sep s : pystr) (i : nat) :
  Str.find sep s = Some i ->
  Str.split sep s =
    rbind (Str.split sep (drop (i + length sep) s))
      (fun parts => Ok (take i s :: parts)).
Proof.
  intros Hi. destruct sep as [|a sep].
  { reflexivity. }
  unfold Str.split. cbn [rbind]. f_equal.
  change (Str.split_fuel (S (length s)) (a :: sep) s)
    with (match Str.find (a :: sep) s with
          | None => [s]
          | Some i =>
              take i s
              :: Str.split_fuel (length s) (a :: sep) (drop (i + length (a :: sep)) s)
          end).
  rewrite Hi. f_equal.
  pose proof (find_Some_bound _ _ _ Hi) as Hb. simpl in Hb.
  apply split_fuel_enough; [done | |]; rewrite ?length_drop; simpl; lia.
Qed.

(** The first two pieces of a split. *)
Lemma split_fuel_first (fuel : nat) (sep s : pystr) :
  Str.split_fuel (S fuel) sep s !! 0 = Some (upto sep s).
Proof. unfold upto. simpl. by destruct (Str.find sep s). Qed.

Lemma split_first (sep s : pystr) (parts : list pystr) :
  Str.split sep s = Ok parts -> Str.index parts 0 = Ok (upto sep s).
Proof.
  destruct sep as [|a sep]; [done |]. intros H.
  assert (parts = Str.split_fuel (S (length s)) (a :: sep) s) as ->
    by (unfold Str.split in H; congruence).
  unfold Str.index. by rewrite split_fuel_first.
Qed.

Lemma split_second (sep s : pystr) (parts : list pystr) (i : nat) :
  Str.split sep s = Ok parts ->
  Str.find sep s = Some i ->
  Str.index parts 1 = Ok (upto sep (drop (i + length sep) s)).
Proof.
  destruct sep as [|a sep]; [done |]. intros H Hf.
  assert (parts = Str.split_fuel (S (length s)) (a :: sep) s) as ->
    by (unfold Str.split in H; congruence).
  destruct s as [|c s].
  { by apply find_in_empty in Hf. }
  unfold Str.index. cbn [Str.split_fuel]. rewrite Hf.
  change (length (c :: s)) with (S (length s)).
  change ((?x :: ?l) !! 1) with (l !! 0).
  by rewrite split_fuel_first.
Qed.

Lemma split_ok (sep s : pystr) :
  sep <> [] -> exists parts, Str.split sep s = Ok parts.
Proof. destruct sep; [done | intros _; eexists; reflexivity]. Qed.

(** ** The two parsed fields in terms of occurrences *)

Lemma parse_accuracy_score_absent (qa : pystr) :
  Str.find SCORES qa = None -> parse_accuracy_score qa = lit "N/A".
Proof. unfold parse_accuracy_score, Str.contains. by intros ->. Qed.

Lemma parse_accuracy_score_present (qa : pystr) (i : nat) :
  Str.find SCORES qa = Some i ->
  parse_accuracy_score qa =
    Str.strip (upto ASSESSMENT (upto SCORES (drop (i + length SCORES) qa))).
Proof.
  intros Hf. unfold parse_accuracy_score, Str.contains. rewrite Hf.
  destruct (split_ok SCORES qa) as [parts Hparts]; [done |].
  rewrite Hparts. cbn [rbind assign_or_keep].
  rewrite (split_second _ _ _ _ Hparts Hf). cbn [rbind assign_or_keep].
  destruct (split_ok ASSESSMENT (upto SCORES (drop (i + length SCORES) qa)))
    as [parts' Hparts']; [done |].
  rewrite Hparts'. cbn [rbind assign_or_keep].
  by rewrite (split_first _ _ _ Hparts').
Qed.

Lemma parse_final_recommendation_absent (refined qa : pystr) :
  Str.find RECOMMENDATION qa = None ->
  parse_final_recommendation refined qa = refined.
Proof. unfold parse_final_recommendation, Str.contains. by intros ->. Qed.

Lemma parse_final_recommendation_present (refined qa : pystr) (i : nat) :
  Str.find RECOMMENDATION qa = Some i ->
  parse_final_recommendation refined qa =
    Str.strip (upto RECOMMENDATION (drop (i + length RECOMMENDATION) qa)).
Proof.
  intros Hf. unfold parse_final_recommendation, Str.contains. rewrite Hf.
  destruct (split_ok RECOMMENDATION qa) as [parts Hparts]; [done |].
  rewrite Hparts. cbn [rbind assign_or_keep].
  by rewrite (split_second _ _ _ _ Hparts Hf).
Qed.

(** ** Running the stages *)

Ltac unfold_monad :=
  unfold bind, try_except, call_ext, read_ext, print, emit, ret, lift in *.

Section WorkflowFacts.

Variable E : Externals.

Implicit Types (st : state E) (text source target initial : pystr).

(** The draft never raises: the outer handler turns every exception into
    a "Translation failed" text. *)
Lemma _get_initial_translation_returns text source target st :
  exists s st', _get_initial_translation E text source target st = (Ok s, st').
Proof.
  unfold _get_initial_translation, try_except at 1.
  match goal with |- context [match ?b st with _ => _ end] =>
    destruct (b st) as [[s|e] st1] end.
  - by eauto.
  - unfold_monad. simpl. by eauto.
Qed.

Lemma draft_stage_returns text source target st :
  exists initial st', draft_stage E text source target st = (Ok initial, st').
Proof.
  unfold draft_stage. unfold bind at 1 2 3 4. simpl.
  match goal with |- context [_get_initial_translation E ?a ?b ?c ?s] =>
    destruct (_get_initial_translation_returns a b c s) as (s0 & st1 & ->) end.
  unfold_monad. simpl. by eauto.
Qed.

(** [translate] once the draft and the three tasks are there. *)
Lemma translate_after_build text source target st initial st1 ct rt qt st2 :
  draft_stage E text source target st = (Ok initial, st1) ->
  build_tasks E text source target initial st1 = (Ok (ct, rt, qt), st2) ->
  translate E text source target st =
    match crew_stage E ct rt qt initial st2 with
    | (Ok parsed, st3) => (Ok (assemble text source target initial parsed), st3)
    | (Raise e, st3) =>
        (Ok (assemble text source target initial
               (ANALYSIS_FAILED, initial, quality_failed e)),
         State (world st3) (trace st3 ++ [crew_failed_line E e]))
    end.
Proof.
  intros Hd Hb. unfold translate, bind at 1. rewrite Hd.
  unfold bind at 1. rewrite Hb. unfold bind at 1, try_except.
  destruct (crew_stage E ct rt qt initial st2) as [[parsed|e] st3]; [done |].
  unfold crew_fallback. unfold_monad. by simpl.
Qed.

(** An exception of a [Task(...)] construction leaves [translate]. *)
Lemma translate_build_raises text source target st initial st1 e st2 :
  draft_stage E text source target st = (Ok initial, st1) ->
  build_tasks E text source target initial st1 = (Raise e, st2) ->
  translate E text source target st = (Raise e, st2).
Proof.
  intros Hd Hb. unfold translate, bind at 1. rewrite Hd.
  unfold bind at 1. by rewrite Hb.
Qed.

(** Every result of [translate] is assembled from the draft and the
    three texts of the crew stage or of its handler. *)
Lemma translate_returns_assembled text source target st r st' :
  translate E text source target st = (Ok r, st') ->
  exists initial parsed, r = assemble text source target initial parsed.
Proof.
  destruct (draft_stage_returns text source target st) as (initial & st1 & Hd).
  destruct (build_tasks E text source target initial st1)
    as [[[[ct rt] qt]|e] st2] eqn:Hb.
  - rewrite (translate_after_build _ _ _ _ _ _ _ _ _ _ Hd Hb).
    destruct (crew_stage E ct rt qt initial st2) as [[parsed|e] st3];
      intros H;
      [exists initial, parsed
      | exists initial, (ANALYSIS_FAILED, initial, quality_failed e)];
      congruence.
  - by rewrite (translate_build_raises _ _ _ _ _ _ _ _ Hd Hb).
Qed.

(** The crew stage: which calls decide its outcome. *)
Lemma crew_stage_crew_raises ct rt qt initial st e w :
  new_Crew E (the_crew E ct rt qt) (world st) = (Raise e, w) ->
  crew_stage E ct rt qt initial st = (Raise e, State w (trace st)).
Proof.
  intros H. unfold crew_stage, the_crew in *. unfold_monad. by rewrite H.
Qed.

Lemma crew_stage_kickoff_raises ct rt qt initial st crew w e w' :
  new_Crew E (the_crew E ct rt qt) (world st) = (Ok crew, w) ->
  kickoff E crew w = (Raise e, w') ->
  crew_stage E ct rt qt initial st
    = (Raise e, State w' (trace st ++ [executing_line E])).
Proof.
  intros H1 H2. unfold crew_stage, the_crew in *. unfold_monad.
  rewrite H1. simpl. by rewrite H2.
Qed.

Lemma crew_stage_runs ct rt qt initial st crew w w' :
  new_Crew E (the_crew E ct rt qt) (world st) = (Ok crew, w) ->
  kickoff E crew w = (Ok tt, w') ->
  crew_stage E ct rt qt initial st
    = (Ok (text_or (task_output E w' ct) CONTEXT_NOT_AVAILABLE,
           text_or (task_output E w' rt) initial,
           text_or (task_output E w' qt) QUALITY_NOT_AVAILABLE),
       State w' (trace st ++ [executing_line E])).
Proof.
  intros H1 H2. unfold crew_stage, the_crew, output_or in *. unfold_monad.
  rewrite H1. simpl. rewrite H2. simpl.
  done.
Qed.

End WorkflowFacts.

(** ** The parsed fields of a translation *)

(** C1 (as amended).  In every result of [translate]: without a "SCORES:"
    marker in the quality assessment the accuracy score is "N/A"; with
    exactly one, it is the trimmed text after the marker, up to the next
    "ASSESSMENT:" marker or, when none follows, up to the end of the text. *)
Theorem accuracy_score_from_markers (E : Externals)
    (text source target : pystr) (st st' : state E) (r : TranslationResult) :
  translate E text source target st = (Ok r, st') ->
  (Str.find SCORES (quality_assessment r) = None ->
   accuracy_score r = lit "N/A")
  /\ (forall i,
        Str.find SCORES (quality_assessment r) = Some i ->
        let rest := drop (i + length SCORES) (quality_assessment r) in
        Str.find SCORES rest = None ->
        accuracy_score r = Str.strip (upto ASSESSMENT rest)).
Proof.
  intros Hrun.
  destruct (translate_returns_assembled _ _ _ _ _ _ _ Hrun)
    as (initial & [[ca refined] qa] & ->).
  unfold assemble. cbn [accuracy_score quality_assessment]. split.
  - apply parse_accuracy_score_absent.
  - intros i Hi Hmore. rewrite (parse_accuracy_score_present _ _ Hi).
    by rewrite (upto_absent _ _ Hmore).
Qed.

Lemma accuracy_score_from_markers_witness :
  exists r st',
    translate (stub (replying (lit "SCORES: Accuracy: 9/10 ASSESSMENT: fluent")))
      hello en fr start = (Ok r, st')
    /\ accuracy_score r = lit "Accuracy: 9/10".
Proof.
  edestruct (accuracy_score_from_markers
               (stub (replying (lit "SCORES: Accuracy: 9/10 ASSESSMENT: fluent")))
               hello en fr start) as [_ H]; [vm_compute; reflexivity |].
  eexists _, _. split; [vm_compute; reflexivity |].
  etransitivity; [apply (H 0); vm_compute; reflexivity | vm_compute; reflexivity].
Defined.

(** C1, the claim as stated fails: with "SCORES:" present and
    "ASSESSMENT:" absent the accuracy score is the text after the marker,
    not "N/A". *)
Lemma accuracy_score_without_assessment :
  exists r st',
    translate (stub (replying (lit "SCORES: 9"))) hello en fr start = (Ok r, st')
    /\ quality_assessment r = lit "SCORES: 9"
    /\ Str.contains SCORES (quality_assessment r) = true
    /\ Str.contains ASSESSMENT (quality_assessment r) = false
    /\ accuracy_score r = lit "9"
    /\ accuracy_score r <> lit "N/A".
Proof.
  eexists _, _. split; [vm_compute; reflexivity |].
  vm_compute. repeat split; discriminate.
Qed.

(** The recommendation when the marker is absent or occurs once. *)
Lemma final_recommendation_from_marker (E : Externals)
    (text source target : pystr) (st st' : state E) (r : TranslationResult) :
  translate E text source target st = (Ok r, st') ->
  (Str.find RECOMMENDATION (quality_assessment r) = None ->
   final_recommendation r = refined_translation r)
  /\ (forall i,
        Str.find RECOMMENDATION (quality_assessment r) = Some i ->
        let rest := drop (i + length RECOMMENDATION) (quality_assessment r) in
        Str.find RECOMMENDATION rest = None ->
        final_recommendation r = Str.strip rest).
Proof.
  intros Hrun.
  destruct (translate_returns_assembled _ _ _ _ _ _ _ Hrun)
    as (initial & [[ca refined] qa] & ->).
  unfold assemble.
  cbn [final_recommendation refined_translation quality_assessment]. split.
  - apply parse_final_recommendation_absent.
  - intros i Hi Hmore. rewrite (parse_final_recommendation_present _ _ _ Hi).
    by rewrite (upto_absent _ _ Hmore).
Qed.

(** C2.  With two "RECOMMENDATION:" markers in the quality assessment the
    recommendation is cut at the second one: it is not the trimmed suffix
    after the marker. *)
Theorem final_recommendation_cut_at_second_marker :
  exists r st',
    translate
      (stub (replying (lit "RECOMMENDATION: keep it. RECOMMENDATION: or revise")))
      hello en fr start = (Ok r, st')
    /\ Str.find RECOMMENDATION (quality_assessment r) = Some 0
    /\ Str.strip (drop (0 + length RECOMMENDATION) (quality_assessment r))
       = lit "keep it. RECOMMENDATION: or revise"
    /\ final_recommendation r = lit "keep it.".
Proof.
  eexists _, _. split; [vm_compute; reflexivity |].
  vm_compute. by repeat split.
Qed.

(** ** The fallbacks of [translate] *)

(** C3 (as amended).  Once the draft is made and the three tasks are
    built, an exception raised by the [Crew] constructor or by the run of
    the crew is caught: [translate] returns a result whose refined
    translation is the draft, whose context analysis is "Multi-agent
    analysis failed" and whose quality assessment is "Quality assessment
    failed: " followed by the text of the exception. *)
Theorem crew_failure_falls_back (E : Externals)
    (text source target initial : pystr) (st st1 st2 : state E)
    (ct rt qt : Task E) (e : exn) :
  draft_stage E text source target st = (Ok initial, st1) ->
  build_tasks E text source target initial st1 = (Ok (ct, rt, qt), st2) ->
  (exists w, new_Crew E (the_crew E ct rt qt) (world st2) = (Raise e, w))
  \/ (exists crew w w',
        new_Crew E (the_crew E ct rt qt) (world st2) = (Ok crew, w)
        /\ kickoff E crew w = (Raise e, w')) ->
  exists r st',
    translate E text source target st = (Ok r, st')
    /\ initial_translation r = initial
    /\ refined_translation r = initial
    /\ context_analysis r = ANALYSIS_FAILED
    /\ quality_assessment r = lit "Quality assessment failed: " ++ exn_str e.
Proof.
  intros Hd Hb Hraise.
  rewrite (translate_after_build _ _ _ _ _ _ _ _ _ _ _ Hd Hb).
  destruct Hraise as [(w & Hc) | (crew & w & w' & Hc & Hk)].
  - rewrite (crew_stage_crew_raises _ _ _ _ _ _ _ _ Hc). by eauto 10.
  - rewrite (crew_stage_kickoff_raises _ _ _ _ _ _ _ _ _ _ Hc Hk). by eauto 10.
Qed.

Lemma crew_failure_falls_back_witness :
  exists r st',
    translate (stub stormy) hello en fr start = (Ok r, st')
    /\ initial_translation r = hello
    /\ refined_translation r = hello
    /\ context_analysis r = ANALYSIS_FAILED
    /\ quality_assessment r = lit "Quality assessment failed: rate limit".
Proof.
  eapply (crew_failure_falls_back (stub stormy) hello en fr hello start _ _
            0 1 2 (Exception (lit "rate limit"))).
  - vm_compute; reflexivity.
  - vm_compute; reflexivity.
  - right. exists tt, 3, 3. split; vm_compute; reflexivity.
Defined.

(** C3, the claim as stated fails: an exception raised while a task is
    constructed is not caught, it leaves [translate]. *)
Lemma task_construction_failure_escapes :
  exists st',
    translate (stub (rejecting 0)) hello en fr start
    = (Raise (Exception (lit "validation error")), st').
Proof. eexists. vm_compute. reflexivity. Qed.

(** C4.  [translate] either returns a result whose original text, source
    language and target language are the arguments it was given, or
    raises the exception a task construction raised. *)
Theorem translate_passes_inputs_through (E : Externals)
    (text source target : pystr) (st : state E) :
  match translate E text source target st with
  | (Ok r, _) =>
      original_text r = text /\ source_lang r = source /\ target_lang r = target
  | (Raise e, st') =>
      exists initial st1,
        draft_stage E text source target st = (Ok initial, st1)
        /\ build_tasks E text source target initial st1 = (Raise e, st')
  end.
Proof.
  destruct (draft_stage_returns E text source target st) as (initial & st1 & Hd).
  destruct (build_tasks E text source target initial st1)
    as [[[[ct rt] qt]|e] st2] eqn:Hb.
  - rewrite (translate_after_build _ _ _ _ _ _ _ _ _ _ _ Hd Hb).
    by destruct (crew_stage E ct rt qt initial st2) as [[[[ca refined] qa]|e] st3].
  - rewrite (translate_build_raises _ _ _ _ _ _ _ _ _ Hd Hb). by eauto.
Qed.

Lemma text_or_unavailable (a : output_attr) (default : pystr) :
  unavailable a -> text_or a default = default.
Proof. by intros [-> | ->]. Qed.

(** C9.  When the crew is built and its run returns, [translate] returns
    without running the failure handler, and a task whose output is
    missing or falsy gets its default: "Context analysis not available",
    the draft, and "Quality assessment not available". *)
Theorem missing_outputs_get_defaults (E : Externals)
    (text source target initial : pystr) (st st1 st2 : state E)
    (ct rt qt : Task E) (crew : Crew E) (w w' : World E) :
  draft_stage E text source target st = (Ok initial, st1) ->
  build_tasks E text source target initial st1 = (Ok (ct, rt, qt), st2) ->
  new_Crew E (the_crew E ct rt qt) (world st2) = (Ok crew, w) ->
  kickoff E crew w = (Ok tt, w') ->
  exists r,
    translate E text source target st
      = (Ok r, State w' (trace st2 ++ [executing_line E]))
    /\ (unavailable (task_output E w' ct) ->
        context_analysis r = CONTEXT_NOT_AVAILABLE)
    /\ (unavailable (task_output E w' rt) ->
        refined_translation r = initial /\ initial_translation r = initial)
    /\ (unavailable (task_output E w' qt) ->
        quality_assessment r = QUALITY_NOT_AVAILABLE).
Proof.
  intros Hd Hb Hc Hk.
  rewrite (translate_after_build _ _ _ _ _ _ _ _ _ _ _ Hd Hb).
  rewrite (crew_stage_runs _ _ _ _ _ _ _ _ _ Hc Hk).
  eexists. split; [reflexivity |].
  unfold assemble.
  cbn [context_analysis refined_translation quality_assessment initial_translation].
  repeat split; by apply text_or_unavailable.
Qed.

Lemma missing_outputs_get_defaults_witness :
  exists r st',
    translate (stub silent) hello en fr start = (Ok r, st')
    /\ context_analysis r = CONTEXT_NOT_AVAILABLE
    /\ refined_translation r = hello
    /\ quality_assessment r = QUALITY_NOT_AVAILABLE.
Proof.
  edestruct (missing_outputs_get_defaults (stub silent) hello en fr hello start)
    as (r & Hrun & Hc & Hr & Hq).
  - vm_compute; reflexivity.
  - vm_compute; reflexivity.
  - vm_compute; reflexivity.
  - vm_compute; reflexivity.
  - exists r. eexists. split; [exact Hrun |].
    split; [apply Hc; left; reflexivity |].
    split; [apply Hr; right; reflexivity | apply Hq; left; reflexivity].
Defined.

(** ** Batches *)

Section BatchFacts.

Variable E : Externals.
Variables source target : pystr.

Implicit Types (st : state E).




Lemma batch_loop_step total i text texts results st :
  batch_loop E total i (text :: texts) source target results st =
    match translate E text source target (announced total i st) with
    | (Ok r, st1) =>
        batch_loop E total (S i) texts source target (results ++ [r]) st1
    | (Raise e, st1) => (Raise e, st1)
    end.
Proof. reflexivity. Qed.


Lemma batch_loop_returns total i texts st results out st' :
  batch_loop E total i texts source target results st = (Ok out, st') ->
  exists rs, out = results ++ rs /\ batch_run source target total i texts st rs st'.
Proof.
  revert i st results. induction texts as [|text texts IH]; intros i st results.
  - intros [= <- <-]. exists []. split; [by rewrite app_nil_r | constructor].
  - rewrite batch_loop_step.
    destruct (translate E text source target (announced total i st))
      as [[r|e] st1] eqn:Hone; [|done].
    intros Hrest. apply IH in Hrest as (rs & -> & Hrun).
    exists (r :: rs). split; [by rewrite <- app_assoc |].
    by econstructor.
Qed.

(** An exception that leaves the [translate] of an item leaves the loop:
    the results gathered so far are dropped. *)
Lemma batch_loop_aborts total i text texts st results e st1 :
  translate E text source target (announced total i st) = (Raise e, st1) ->
  batch_loop E total i (text :: texts) source target results st = (Raise e, st1).
Proof. intros H. by rewrite batch_loop_step, H. Qed.

Lemma build_tasks_returns text initial st :
  tasks_always_built E ->
  exists built st', build_tasks E text source target initial st = (Ok built, st').
Proof.
  intros Hok. unfold build_tasks. unfold_monad.
  repeat match goal with
  | |- context [new_Task E ?kw ?w] =>
      let H := fresh in
      destruct (Hok kw w) as (? & ? & H); rewrite H; clear H; simpl
  end.
  by eauto.
Qed.

Lemma translate_returns text st :
  tasks_always_built E ->
  exists r st', translate E text source target st = (Ok r, st').
Proof.
  intros Hok.
  destruct (draft_stage_returns E text source target st) as (initial & st1 & Hd).
  destruct (build_tasks_returns text initial st1 Hok)
    as ([[ct rt] qt] & st2 & Hb).
  rewrite (translate_after_build _ _ _ _ _ _ _ _ _ _ _ Hd Hb).
  destruct (crew_stage E ct rt qt initial st2) as [[parsed|e] st3]; by eauto.
Qed.


End BatchFacts.



(** Two items whose crew run raises: both are there, both degraded. *)
Example batch_of_degraded_items :
  exists rs st',
    batch_translate (stub stormy) [lit "a"; lit "b"] en fr start = (Ok rs, st')
    /\ map original_text rs = [lit "a"; lit "b"]
    /\ map context_analysis rs = [ANALYSIS_FAILED; ANALYSIS_FAILED].
Proof.
  eexists _, _. split; [vm_compute; reflexivity |].
  split; vm_compute; reflexivity.
Qed.


(** ** The draft translator *)

Lemma dict_get_absent {V} (d : list (pystr * V)) (key : pystr) (default : V) :
  dict_has d key = false -> dict_get d key default = default.
Proof.
  unfold dict_has. rewrite bool_decide_eq_false.
  induction d as [|[k v] d IH]; simpl; [done |].
  intros Hnot. destruct (decide (k = key)) as [-> | _].
  - exfalso. apply Hnot. by left.
  - apply IH. intros Hin. apply Hnot. by right.
Qed.

(** [lang_mapping] maps every code of the allow-list to itself. *)
Lemma lang_mapping_identity (target default : pystr) :
  dict_has lang_mapping target = true ->
  dict_get lang_mapping target default = target.
Proof.
  unfold dict_has. rewrite bool_decide_eq_true. intros Hin.
  repeat (apply elem_of_cons in Hin as [-> | Hin]; [reflexivity |]).
  by apply elem_of_nil in Hin.
Qed.

Section DraftFacts.

Variable E : Externals.

(** With the default as mapped target the handler of the inner [try]
    asks for the same id again: it raises again before its [print]. *)
Lemma resolve_forced_bos_default (target : pystr) (st : state E) :
  resolve_forced_bos E target (lit "fr") st
  = (get_lang_id E (world st) (lit "fr"), st).
Proof.
  unfold resolve_forced_bos. unfold_monad.
  by destruct (get_lang_id E (world st) (lit "fr")).
Qed.

Lemma resolve_forced_bos_known (target mapped : pystr) (st : state E) (id : Z) :
  get_lang_id E (world st) mapped = Ok id ->
  resolve_forced_bos E target mapped st = (Ok id, st).
Proof. intros H. unfold resolve_forced_bos. unfold_monad. by rewrite H. Qed.

Lemma decode_stage_trace (inputs : Encoding E) (forced : Z) (st : state E) :
  trace (snd (decode_stage E inputs forced st))
  = trace st ++ [Generated (generation_call E inputs forced)].
Proof.
  unfold decode_stage, generation_call. unfold_monad. simpl.
  destruct (generate E _ (world st)) as [[outputs|e] w]; simpl; [|done].
  destruct (Str.index outputs 0) as [first|e]; simpl; [|done].
  by destruct (decode E first w).
Qed.

(** The draft in terms of its stages. *)
Lemma _get_initial_translation_stages (text source target : pystr) (st : state E) :
  _get_initial_translation E text source target st =
    let handle (out : result pystr * state E) :=
      match out with
      | (Ok s, st') => (Ok s, st')
      | (Raise e, st') =>
          (Ok (lit "Translation failed: " ++ exn_str e),
           State (world st') (trace st' ++ [error_line E e]))
      end in
    match set_src_lang E source (world st) with
    | (Ok _, w1) =>
        match tokenize E text w1 with
        | (Ok inputs, w2) =>
            match resolve_forced_bos E target
                    (dict_get lang_mapping target (lit "fr"))
                    (State w2 (trace st)) with
            | (Ok forced, st3) => handle (decode_stage E inputs forced st3)
            | (Raise e, st3) => handle (Raise e, st3)
            end
        | (Raise e, w2) => handle (Raise e, State w2 (trace st))
        end
    | (Raise e, w1) => handle (Raise e, State w1 (trace st))
    end.
Proof.
  unfold _get_initial_translation, decode_stage.
  unfold try_except at 1. unfold bind at 1. unfold call_ext at 1.
  destruct (set_src_lang E source (world st)) as [[[]|e] w1]; [|done].
  unfold bind at 1. unfold call_ext at 1. cbn [world trace].
  destruct (tokenize E text w1) as [[inputs|e] w2]; [|done].
  unfold bind at 1.
  destruct (resolve_forced_bos E target _ (State w2 (trace st)))
    as [[forced|e] st3]; [|done].
  cbv zeta.
  match goal with |- match ?a with _ => _ end = match ?b with _ => _ end =>
    change a with b; by destruct b as [[?|?] ?] end.
Qed.

End DraftFacts.

Lemma warning_is_no_error_line (E : Externals) (target : pystr) (e : exn) :
  @Printed E (unsupported_warning target) <> error_line E e.
Proof. unfold error_line, unsupported_warning. by intros [=]. Qed.

(** C6.  For a target language outside the allow-list the mapped target
    is 'fr', and the draft prints no "not supported" warning: the only
    line it can print is that of a failed translation. *)
Theorem unsupported_target_prints_no_warning (E : Externals)
    (text source target : pystr) (st : state E) :
  dict_has lang_mapping target = false ->
  dict_get lang_mapping target (lit "fr") = lit "fr"
  /\ exists evs,
       trace (snd (_get_initial_translation E text source target st))
         = trace st ++ evs
       /\ @Printed E (unsupported_warning target) ∉ evs.
Proof.
  intros Hout. pose proof (dict_get_absent lang_mapping _ (lit "fr") Hout) as Hfr.
  split; [done |].
  rewrite _get_initial_translation_stages. cbv zeta.
  assert (Hone : forall e, @Printed E (unsupported_warning target) ∉ [error_line E e]).
  { intros e Hin. apply list_elem_of_singleton in Hin.
    by apply warning_is_no_error_line in Hin. }
  destruct (set_src_lang E source (world st)) as [[[]|e] w1];
    [|exists [error_line E e]; by split].
  destruct (tokenize E text w1) as [[inputs|e] w2];
    [|exists [error_line E e]; by split].
  rewrite Hfr, resolve_forced_bos_default. cbn [world].
  destruct (get_lang_id E w2 (lit "fr")) as [forced|e];
    [|exists [error_line E e]; by split].
  pose proof (decode_stage_trace E inputs forced (State w2 (trace st))) as Htr.
  destruct (decode_stage E inputs forced (State w2 (trace st))) as [[s|e] st4];
    simpl in Htr; cbn [snd trace]; rewrite Htr.
  - eexists. split; [reflexivity |].
    intros Hin. apply list_elem_of_singleton in Hin. discriminate.
  - rewrite <- app_assoc. eexists. split; [reflexivity |].
    intros Hin. apply elem_of_cons in Hin as [Hin | Hin]; [discriminate |].
    by apply Hone in Hin.
Qed.

Lemma unsupported_target_prints_no_warning_witness :
  dict_get lang_mapping (lit "xx") (lit "fr") = lit "fr"
  /\ exists evs,
       trace (snd (_get_initial_translation (stub calm) hello en (lit "xx") start))
         = [] ++ evs
       /\ @Printed (stub calm) (unsupported_warning (lit "xx")) ∉ evs.
Proof.
  apply (unsupported_target_prints_no_warning (stub calm) hello en (lit "xx") start).
  vm_compute. reflexivity.
Defined.

(** The run behind C6: the draft for the target 'xx' is generated with
    the id of 'fr' forced and nothing is printed. *)
Example draft_for_unsupported_target :
  _get_initial_translation (stub calm) hello en (lit "xx") start
  = (Ok hello,
     State (0 : World (stub calm))
       [Generated (generation_call (stub calm) hello 128028)]).
Proof. vm_compute. reflexivity. Qed.

(** *** The calls of the model *)

Lemma recording_records (E : Externals) : records (recording E) recorded.
Proof. by split. Qed.

Section RecordedFacts.

Variable E : Externals.
Variable calls : World E -> list (generate_kwargs (Encoding E)).
Hypothesis Hrec : records E calls.

Implicit Types (st : state E).

(** The inner [try] asks the tokenizer and prints: the world stays. *)
Lemma resolve_forced_bos_world (target mapped : pystr) st :
  world (snd (resolve_forced_bos E target mapped st)) = world st.
Proof.
  unfold resolve_forced_bos. unfold_monad.
  destruct (get_lang_id E (world st) mapped); [done |].
  by destruct (get_lang_id E (world st) (lit "fr")).
Qed.

(** Lines 71-80 call the model once, whatever comes of the call and of
    the decoding. *)
Lemma decode_stage_recorded (inputs : Encoding E) (forced : Z) st :
  calls (world (snd (decode_stage E inputs forced st)))
  = calls (world st) ++ [generation_call E inputs forced].
Proof.
  unfold decode_stage. unfold_monad. cbn [world trace].
  pose proof (generate_recorded E calls Hrec
                (generation_call E inputs forced) (world st)) as Hgen.
  destruct (generate E (generation_call E inputs forced) (world st))
    as [[outputs|e] w]; cbn [snd fst world] in *; [|done].
  destruct (Str.index outputs 0) as [first|e]; cbn [snd fst world]; [|done].
  pose proof (decode_silent E calls Hrec first w) as Hdec.
  destruct (decode E first w) as [[s|e] w']; cbn [snd world] in *; congruence.
Qed.

(** The calls of the draft: one when the tokenizer takes the source
    language and the text and gives an id to force, none otherwise. *)
Lemma draft_recorded (text source target : pystr) st :
  calls (world (snd (_get_initial_translation E text source target st)))
  = calls (world st) ++
    match set_src_lang E source (world st) with
    | (Ok _, w1) =>
        match tokenize E text w1 with
        | (Ok inputs, w2) =>
            match resolve_forced_bos E target
                    (dict_get lang_mapping target (lit "fr"))
                    (State w2 (trace st)) with
            | (Ok forced, _) => [generation_call E inputs forced]
            | (Raise _, _) => []
            end
        | (Raise _, _) => []
        end
    | (Raise _, _) => []
    end.
Proof.
  rewrite _get_initial_translation_stages. cbv zeta.
  pose proof (set_src_lang_silent E calls Hrec source (world st)) as Hsrc.
  destruct (set_src_lang E source (world st)) as [[[]|e] w1]; cbn [snd] in Hsrc;
    [|cbn [snd world]; by rewrite app_nil_r].
  pose proof (tokenize_silent E calls Hrec text w1) as Htok.
  destruct (tokenize E text w1) as [[inputs|e] w2]; cbn [snd] in Htok;
    [|cbn [snd world]; rewrite app_nil_r; congruence].
  pose proof (resolve_forced_bos_world target
                (dict_get lang_mapping target (lit "fr")) (State w2 (trace st)))
    as Hres.
  destruct (resolve_forced_bos E target _ (State w2 (trace st)))
    as [[forced|e] st3]; cbn [snd world] in Hres.
  - pose proof (decode_stage_recorded inputs forced st3) as Hdec.
    destruct (decode_stage E inputs forced st3) as [[s|e] st4];
      cbn [snd world] in *; rewrite Hdec, Hres; congruence.
  - cbn [snd world]. rewrite app_nil_r, Hres. congruence.
Qed.

(** Whatever the languages, the draft calls [model.generate] at most
    once, and always with the four literal settings. *)
Lemma draft_generation_settings (text source target : pystr) st :
  exists made,
    calls (world (snd (_get_initial_translation E text source target st)))
    = calls (world st) ++ made
    /\ length made <= 1
    /\ Forall (fun kw => max_length kw = 200%Z /\ num_beams kw = 4%Z
                         /\ early_stopping kw = true /\ do_sample kw = false)
         made.
Proof.
  eexists. split; [apply draft_recorded |].
  destruct (set_src_lang E source (world st)) as [[[]|e] w1];
    [|split; [simpl; lia | constructor]].
  destruct (tokenize E text w1) as [[inputs|e] w2];
    [|split; [simpl; lia | constructor]].
  destruct (resolve_forced_bos E target _ (State w2 (trace st)))
    as [[forced|e] st3]; (split; [simpl; lia | by repeat constructor]).
Qed.

End RecordedFacts.

(** C8.  For a target language of the allow-list that the tokenizer
    knows, and a source language and text the tokenizer accepts, the draft
    calls [model.generate] once, with the id of the target language as
    [forced_bos_token_id], [num_beams] 4, [max_length] 200, sampling off
    and early stopping on: these keyword arguments are what the call adds
    to the calls the world keeps. *)
Theorem draft_forces_target_language (E : Externals)
    (calls : World E -> list (generate_kwargs (Encoding E)))
    (text source target : pystr) (st : state E)
    (w1 w2 : World E) (inputs : Encoding E) (id : Z) :
  records E calls ->
  dict_has lang_mapping target = true ->
  set_src_lang E source (world st) = (Ok tt, w1) ->
  tokenize E text w1 = (Ok inputs, w2) ->
  get_lang_id E w2 target = Ok id ->
  calls (world (snd (_get_initial_translation E text source target st)))
  = calls (world st)
      ++ [ {| gen_inputs := inputs;
              forced_bos_token_id := id;
              max_length := 200;
              num_beams := 4;
              early_stopping := true;
              do_sample := false |} ].
Proof.
  intros Hrec Hin Hsrc Htok Hid.
  rewrite (draft_recorded E calls Hrec), Hsrc, Htok.
  rewrite (lang_mapping_identity _ _ Hin).
  by rewrite (resolve_forced_bos_known E target target (State w2 (trace st)) id Hid).
Qed.

Lemma draft_forces_target_language_witness :
  recorded
    (world (snd (_get_initial_translation (recording (stub calm))
                   hello en (lit "de") fresh)))
  = [ {| gen_inputs := hello;
         forced_bos_token_id := 128020;
         max_length := 200;
         num_beams := 4;
         early_stopping := true;
         do_sample := false |} ].
Proof.
  apply (draft_forces_target_language (recording (stub calm)) recorded
           hello en (lit "de") fresh (0, []) (0, [])).
  - apply recording_records.
  - vm_compute; reflexivity.
  - vm_compute; reflexivity.
  - vm_compute; reflexivity.
  - vm_compute; reflexivity.
Defined.

(** C8, the claim as stated fails: the target 'fr' is in the allow-list,
    but the tokenizer rejects the source language 'xx', and the draft is
    the failure text without any call of [model.generate]. *)
Lemma rejected_source_makes_no_call :
  dict_has lang_mapping fr = true
  /\ _get_initial_translation (recording (stub (rejecting_source (lit "xx"))))
       hello (lit "xx") fr fresh
     = (Ok (lit "Translation failed: xx"),
        State ((0, []) : World (recording (stub (rejecting_source (lit "xx")))))
          [Printed (CROSS_MARK ++ lit " Translation error: xx")]).
Proof. split; vm_compute; reflexivity. Qed.

(** ** The language-model client *)

Section ClientFacts.

Variable E : Externals.

Lemma call_body_raises (prompt : pyval) (st : state E) (e : exn) :
  body_raises E prompt st e -> exists st', call_body E prompt st = (Raise e, st').
Proof.
  unfold call_body, text_or_default. unfold_monad.
  intros [Hn | [(content & w & Hn & Hg) | (content & response & w & Hn & Hg & Ht)]];
    rewrite Hn; [by eauto | |]; rewrite Hg; simpl; [by eauto |].
  rewrite Ht. by eauto.
Qed.

Lemma call_unfold (prompt : pyval) (st : state E) :
  call E prompt st =
    match call_body E prompt st with
    | (Ok s, st') => (Ok s, st')
    | (Raise e, st') =>
        (Ok APOLOGY, State (world st') (trace st' ++ [api_error_line E e]))
    end.
Proof.
  unfold call, try_except.
  by destruct (call_body E prompt st) as [[s|e] st'].
Qed.

End ClientFacts.

(** C7.  For every prompt, [call] returns a text, and when the
    normalisation of the prompt, the request or the access to the text of
    the response raises, that text is the apology. *)
Theorem call_never_raises (E : Externals) (prompt : pyval) (st : state E) :
  exists s st',
    call E prompt st = (Ok s, st')
    /\ forall e, body_raises E prompt st e -> s = APOLOGY.
Proof.
  rewrite call_unfold.
  destruct (call_body E prompt st) as [[s|e] st'] eqn:Hbody.
  - exists s, st'. split; [done |].
    intros e He. apply call_body_raises in He as [st'' He]. congruence.
  - eexists _, _. split; [reflexivity | done].
Qed.

Lemma call_never_raises_witness :
  exists st', call (stub offline) (VStr hello) start = (Ok APOLOGY, st').
Proof.
  destruct (call_never_raises (stub offline) (VStr hello) start)
    as (s & st' & Hrun & Hs).
  rewrite (Hs (Exception (lit "503 Service Unavailable"))) in Hrun.
  - by exists st'.
  - right; left. exists (VStr hello), 0. split; vm_compute; reflexivity.
Defined.

(** A message whose content is no [str] makes the normalisation raise;
    the caller gets the apology. *)
Example call_with_malformed_message :
  exists st',
    call (stub calm)
      (VList [VDict [(lit "content", VOther (lit "int") (lit "3"))]]) start
    = (Ok APOLOGY, st').
Proof. eexists. vm_compute. reflexivity. Qed.

(** C10.  When the request succeeds and the text of the response is
    [None] or the empty string, [call] returns "No response generated",
    which is not the apology, and prints nothing. *)
Theorem empty_response_is_no_error (E : Externals)
    (prompt content : pyval) (st : state E) (response : Response E) (w : World E) :
  normalize E prompt = Ok content ->
  generate_content E content (world st) = (Ok response, w) ->
  response_text E response = Ok None \/ response_text E response = Ok (Some []) ->
  call E prompt st = (Ok NO_RESPONSE, State w (trace st))
  /\ NO_RESPONSE <> APOLOGY.
Proof.
  intros Hn Hg Ht. split; [|done].
  rewrite call_unfold. unfold call_body, text_or_default. unfold_monad.
  rewrite Hn, Hg. simpl. by destruct Ht as [-> | ->].
Qed.

Lemma empty_response_is_no_error_witness :
  call (stub (answering (Ok (Some [])))) (VStr hello) start
    = (Ok NO_RESPONSE, start)
  /\ call (stub (answering (Ok None))) (VStr hello) start
    = (Ok NO_RESPONSE, start).
Proof.
  split.
  - apply (empty_response_is_no_error (stub (answering (Ok (Some []))))
             (VStr hello) (VStr hello) start (Ok (Some [])) 0).
    + vm_compute; reflexivity.
    + vm_compute; reflexivity.
    + right. vm_compute; reflexivity.
  - apply (empty_response_is_no_error (stub (answering (Ok None)))
             (VStr hello) (VStr hello) start (Ok None) 0).
    + vm_compute; reflexivity.
    + vm_compute; reflexivity.
    + left. vm_compute; reflexivity.
Defined.

(** ** More on trimming and occurrences *)

(** ** Trimming *)

Lemma lstrip_idem (s : pystr) : Str.lstrip (Str.lstrip s) = Str.lstrip s.
Proof.
  induction s as [|c s IH]; simpl; [done |].
  destruct (Str.isspace c) eqn:Hc; [done |]. simpl. by rewrite Hc.
Qed.

Lemma lstrip_snoc (s : pystr) (c : N) :
  Str.isspace c = false -> Str.lstrip (s ++ [c]) = Str.lstrip s ++ [c].
Proof.
  intros Hc. induction s as [|d s IH]; simpl.
  - by rewrite Hc.
  - by destruct (Str.isspace d).
Qed.

Lemma rstrip_cons (c : N) (s : pystr) :
  Str.isspace c = false -> Str.rstrip (c :: s) = c :: Str.rstrip s.
Proof.
  intros Hc. unfold Str.rstrip.
  by rewrite reverse_cons, (lstrip_snoc _ _ Hc), reverse_app.
Qed.

Lemma rstrip_idem (s : pystr) : Str.rstrip (Str.rstrip s) = Str.rstrip s.
Proof. unfold Str.rstrip. by rewrite reverse_involutive, lstrip_idem. Qed.

Lemma lstrip_head (s : pystr) :
  Str.lstrip s = [] \/ exists c t, Str.lstrip s = c :: t /\ Str.isspace c = false.
Proof.
  induction s as [|c s IH]; simpl; [by left |].
  destruct (Str.isspace c) eqn:Hc; [done | right; eauto].
Qed.

Lemma lstrip_rstrip_lstrip (s : pystr) :
  Str.lstrip (Str.rstrip (Str.lstrip s)) = Str.rstrip (Str.lstrip s).
Proof.
  destruct (lstrip_head s) as [-> | (c & t & -> & Hc)]; [done |].
  rewrite (rstrip_cons _ _ Hc). simpl. by rewrite Hc.
Qed.

Lemma strip_idem (s : pystr) : Str.strip (Str.strip s) = Str.strip s.
Proof.
  unfold Str.strip. by rewrite lstrip_rstrip_lstrip, rstrip_idem.
Qed.

Lemma lstrip_is_drop (s : pystr) : exists k, Str.lstrip s = drop k s.
Proof.
  induction s as [|c s [k IH]]; simpl; [by exists 0 |].
  destruct (Str.isspace c); [by exists (S k) | by exists 0].
Qed.

Lemma rstrip_is_take (s : pystr) : exists n, Str.rstrip s = take n s.
Proof.
  unfold Str.rstrip. destruct (lstrip_is_drop (reverse s)) as [k ->].
  exists (length s - k). by rewrite drop_reverse, reverse_involutive.
Qed.

(** ** Occurrences in parts of a text *)

Lemma find_None_iff (sep s : pystr) :
  Str.find sep s = None <-> forall j, Str.startswith sep (drop j s) = false.
Proof.
  split; [intros H j; by apply find_None_nowhere |].
  induction s as [|c s IH]; intros H; pose proof (H 0) as H0;
    cbn [drop] in H0; cbn [Str.find]; rewrite H0; [done |].
  rewrite IH; [done |]. intros j. apply (H (S j)).
Qed.

Lemma find_None_drop (sep s : pystr) (k : nat) :
  Str.find sep s = None -> Str.find sep (drop k s) = None.
Proof.
  rewrite !find_None_iff. intros H j. rewrite drop_drop. apply H.
Qed.

Lemma startswith_take (sep s : pystr) (j n : nat) :
  sep <> [] ->
  Str.startswith sep (drop j (take n s)) = true ->
  Str.startswith sep (drop j s) = true /\ j + length sep <= n.
Proof.
  intros Hsep H. apply startswith_app in H as [t Ht].
  assert (Hlen : length (drop j (take n s)) = length sep + length t)
    by (rewrite Ht; apply length_app).
  rewrite length_drop, length_take in Hlen.
  assert (0 < length sep) by (destruct sep; [done | simpl; lia]).
  split; [|lia].
  apply startswith_app. exists (t ++ drop n s).
  rewrite <- (take_drop n s) at 1.
  rewrite drop_app_le by (rewrite length_take; lia).
  by rewrite Ht, <- app_assoc.
Qed.

Lemma find_None_take (sep s : pystr) (n : nat) :
  sep <> [] -> Str.find sep s = None -> Str.find sep (take n s) = None.
Proof.
  intros Hsep. rewrite !find_None_iff. intros H j.
  destruct (Str.startswith sep (drop j (take n s))) eqn:Hj; [|done].
  apply startswith_take in Hj as [Hj _]; [|done]. by rewrite H in Hj.
Qed.

Lemma find_None_strip (sep s : pystr) :
  sep <> [] -> Str.find sep s = None -> Str.find sep (Str.strip s) = None.
Proof.
  intros Hsep H. unfold Str.strip.
  destruct (rstrip_is_take (Str.lstrip s)) as [n ->].
  destruct (lstrip_is_drop s) as [k ->].
  by apply find_None_take, find_None_drop.
Qed.

Lemma find_before_first (sep s : pystr) (i : nat) :
  sep <> [] -> Str.find sep s = Some i -> Str.find sep (take i s) = None.
Proof.
  intros Hsep Hi. apply find_None_iff. intros j.
  destruct (Str.startswith sep (drop j (take i s))) eqn:Hj; [|done].
  apply startswith_take in Hj as [Hj Hle]; [|done].
  assert (0 < length sep) by (destruct sep; [done | simpl; lia]).
  rewrite (find_Some_first _ _ _ _ Hi) in Hj; [done | lia].
Qed.

Lemma upto_free (sep s : pystr) : sep <> [] -> Str.find sep (upto sep s) = None.
Proof.
  intros Hsep. unfold upto. destruct (Str.find sep s) as [i|] eqn:Hi; [|done].
  by apply find_before_first.
Qed.

Lemma upto_keeps_free (sep sep' s : pystr) :
  sep <> [] -> Str.find sep s = None -> Str.find sep (upto sep' s) = None.
Proof.
  intros Hsep H. unfold upto. destruct (Str.find sep' s); [|done].
  by apply find_None_take.
Qed.

(** A text that does not hold the first character of [sep] can be put in
    front without creating an occurrence. *)
Lemma find_None_behind (a : N) (sep p s : pystr) :
  a ∉ p -> Str.find (a :: sep) s = None -> Str.find (a :: sep) (p ++ s) = None.
Proof.
  intros Hp Hs. induction p as [|c p IH]; [done |].
  apply not_elem_of_cons in Hp as [Hc Hp].
  change (Str.find (a :: sep) ((c :: p) ++ s))
    with (if Str.startswith (a :: sep) (c :: p ++ s) then Some 0
          else S <$> Str.find (a :: sep) (p ++ s)).
  simpl. destruct (N.eqb_spec a c) as [-> | _]; [done |]. simpl.
  by rewrite IH.
Qed.

(** ** More on [translate]: parsed fields, drafts and batches *)

(** *** The parsed fields are trimmed and free of markers *)

Lemma parse_accuracy_score_cases (qa : pystr) :
  parse_accuracy_score qa = lit "N/A"
  \/ exists x, parse_accuracy_score qa = Str.strip (upto ASSESSMENT (upto SCORES x)).
Proof.
  destruct (Str.find SCORES qa) as [i|] eqn:Hi.
  - right. eexists. by apply parse_accuracy_score_present.
  - left. by apply parse_accuracy_score_absent.
Qed.

Lemma parse_accuracy_score_clean (qa : pystr) :
  Str.strip (parse_accuracy_score qa) = parse_accuracy_score qa
  /\ Str.find SCORES (parse_accuracy_score qa) = None
  /\ Str.find ASSESSMENT (parse_accuracy_score qa) = None.
Proof.
  destruct (parse_accuracy_score_cases qa) as [-> | [x ->]].
  - by vm_compute.
  - split; [apply strip_idem |].
    split; apply find_None_strip; try done.
    + apply upto_keeps_free; [done |]. by apply upto_free.
    + by apply upto_free.
Qed.

Lemma parse_final_recommendation_clean (refined qa : pystr) :
  (Str.find RECOMMENDATION qa = None
   /\ parse_final_recommendation refined qa = refined)
  \/ (Str.strip (parse_final_recommendation refined qa)
        = parse_final_recommendation refined qa
      /\ Str.find RECOMMENDATION (parse_final_recommendation refined qa) = None).
Proof.
  destruct (Str.find RECOMMENDATION qa) as [i|] eqn:Hi.
  - right. rewrite (parse_final_recommendation_present _ _ _ Hi).
    split; [apply strip_idem |].
    apply find_None_strip; [done |]. by apply upto_free.
  - left. split; [done |]. by apply parse_final_recommendation_absent.
Qed.

(** X1.  In every result of [translate] the scores are trimmed and hold
    neither the marker 'SCORES:' nor the marker 'ASSESSMENT:'; the final
    recommendation is the refined translation, or it is trimmed and holds
    no marker 'RECOMMENDATION:'. *)
Theorem parsed_fields_are_clean (E : Externals)
    (text source target : pystr) (st st' : state E) (r : TranslationResult) :
  translate E text source target st = (Ok r, st') ->
  (Str.strip (accuracy_score r) = accuracy_score r
   /\ Str.contains SCORES (accuracy_score r) = false
   /\ Str.contains ASSESSMENT (accuracy_score r) = false)
  /\ (final_recommendation r = refined_translation r
      \/ (Str.strip (final_recommendation r) = final_recommendation r
          /\ Str.contains RECOMMENDATION (final_recommendation r) = false)).
Proof.
  intros Hrun.
  destruct (translate_returns_assembled _ _ _ _ _ _ _ Hrun)
    as (initial & [[ca refined] qa] & ->).
  unfold assemble, Str.contains.
  cbn [accuracy_score final_recommendation refined_translation].
  destruct (parse_accuracy_score_clean qa) as (H1 & H2 & H3).
  rewrite H2, H3. split; [done |].
  destruct (parse_final_recommendation_clean refined qa) as [[_ H] | [H4 H5]].
  - by left.
  - right. by rewrite H5.
Qed.

Lemma parsed_fields_are_clean_witness :
  exists r st',
    translate
      (stub (replying (lit "SCORES:  8/10 SCORES: 7 ASSESSMENT: ok RECOMMENDATION: use it ")))
      hello en fr start = (Ok r, st')
    /\ accuracy_score r = lit "8/10"
    /\ Str.strip (accuracy_score r) = accuracy_score r.
Proof.
  edestruct (parsed_fields_are_clean
               (stub (replying (lit "SCORES:  8/10 SCORES: 7 ASSESSMENT: ok RECOMMENDATION: use it ")))
               hello en fr start) as [(H & _) _]; [vm_compute; reflexivity |].
  eexists _, _. split; [vm_compute; reflexivity |].
  split; [vm_compute; reflexivity | exact H].
Defined.

(** *** Degraded results *)

Lemma quality_failed_free (a : N) (sep : pystr) (e : exn) :
  a ∉ lit "Quality assessment failed: " ->
  Str.find (a :: sep) (exn_str e) = None ->
  Str.find (a :: sep) (quality_failed e) = None.
Proof. intros Ha He. by apply find_None_behind. Qed.

(** X2.  When the crew fails with an exception whose text holds neither
    'SCORES:' nor 'RECOMMENDATION:', [translate] returns with the scores
    'N/A' and the draft as final recommendation, and the last line printed
    is the report of the failure. *)
Theorem failed_crew_gives_plain_defaults (E : Externals)
    (text source target initial : pystr) (st st1 st2 st3 : state E)
    (ct rt qt : Task E) (e : exn) :
  draft_stage E text source target st = (Ok initial, st1) ->
  build_tasks E text source target initial st1 = (Ok (ct, rt, qt), st2) ->
  crew_stage E ct rt qt initial st2 = (Raise e, st3) ->
  Str.contains SCORES (exn_str e) = false ->
  Str.contains RECOMMENDATION (exn_str e) = false ->
  exists r st',
    translate E text source target st = (Ok r, st')
    /\ accuracy_score r = lit "N/A"
    /\ final_recommendation r = initial
    /\ last (trace st') = Some (crew_failed_line E e).
Proof.
  intros Hd Hb Hc Hs Hr.
  rewrite (translate_after_build _ _ _ _ _ _ _ _ _ _ _ Hd Hb), Hc.
  eexists _, _. split; [reflexivity |].
  unfold assemble. cbn [accuracy_score final_recommendation trace].
  unfold Str.contains in Hs, Hr.
  destruct (Str.find SCORES (exn_str e)) eqn:Hs'; [done |].
  destruct (Str.find RECOMMENDATION (exn_str e)) eqn:Hr'; [done |].
  split; [|split].
  - apply parse_accuracy_score_absent. apply quality_failed_free; [|done].
    apply (bool_decide_eq_true_1 _). vm_compute. reflexivity.
  - apply parse_final_recommendation_absent. apply quality_failed_free; [|done].
    apply (bool_decide_eq_true_1 _). vm_compute. reflexivity.
  - apply last_snoc.
Qed.

Lemma failed_crew_gives_plain_defaults_witness :
  exists r st',
    translate (stub stormy) hello en fr start = (Ok r, st')
    /\ accuracy_score r = lit "N/A"
    /\ final_recommendation r = hello.
Proof.
  edestruct (failed_crew_gives_plain_defaults (stub stormy) hello en fr hello start)
    as (r & st' & Hrun & Ha & Hf & _).
  - vm_compute; reflexivity.
  - vm_compute; reflexivity.
  - vm_compute; reflexivity.
  - vm_compute; reflexivity.
  - vm_compute; reflexivity.
  - exists r, st'. by repeat split.
Defined.

(** X3.  When the crew runs but the quality task has no usable output, the
    assessment is the default text, which holds no marker: the scores are
    'N/A' and the final recommendation is the refined translation. *)
Theorem missing_assessment_gives_plain_defaults (E : Externals)
    (text source target initial : pystr) (st st1 st2 : state E)
    (ct rt qt : Task E) (crew : Crew E) (w w' : World E) :
  draft_stage E text source target st = (Ok initial, st1) ->
  build_tasks E text source target initial st1 = (Ok (ct, rt, qt), st2) ->
  new_Crew E (the_crew E ct rt qt) (world st2) = (Ok crew, w) ->
  kickoff E crew w = (Ok tt, w') ->
  unavailable (task_output E w' qt) ->
  exists r st',
    translate E text source target st = (Ok r, st')
    /\ accuracy_score r = lit "N/A"
    /\ final_recommendation r = refined_translation r.
Proof.
  intros Hd Hb Hc Hk Hq.
  rewrite (translate_after_build _ _ _ _ _ _ _ _ _ _ _ Hd Hb).
  rewrite (crew_stage_runs _ _ _ _ _ _ _ _ _ Hc Hk).
  eexists _, _. split; [reflexivity |].
  unfold assemble.
  cbn [accuracy_score final_recommendation refined_translation].
  rewrite (text_or_unavailable _ _ Hq). split.
  - by vm_compute.
  - by apply parse_final_recommendation_absent.
Qed.

Lemma missing_assessment_gives_plain_defaults_witness :
  exists r st',
    translate (stub silent) hello en fr start = (Ok r, st')
    /\ accuracy_score r = lit "N/A"
    /\ final_recommendation r = refined_translation r.
Proof.
  eapply (missing_assessment_gives_plain_defaults (stub silent) hello en fr hello
            start _ _ 0 1 2 tt 3 3).
  - vm_compute; reflexivity.
  - vm_compute; reflexivity.
  - vm_compute; reflexivity.
  - vm_compute; reflexivity.
  - left. vm_compute; reflexivity.
Defined.

(** *** The draft *)

Section DraftExtras.

Variable E : Externals.

Implicit Types (st : state E).

Lemma draft_stage_unfold text source target st :
  draft_stage E text source target st =
    let st0 := State (world st)
                 (trace st ++
                  [Printed (nl ++ ROCKET ++ lit " Starting multi-agent translation: "
                            ++ source ++ lit " " ++ RIGHT_ARROW ++ lit " " ++ target);
                   Printed (MEMO ++ lit " Text: '" ++ text ++ lit "'");
                   Printed (nl ++ ARROWS ++ lit " Getting initial translation...")]) in
    match _get_initial_translation E text source target st0 with
    | (Ok s, st1) =>
        (Ok s, State (world st1) (trace st1 ++ [Printed (lit "Initial: " ++ s)]))
    | (Raise e, st1) => (Raise e, st1)
    end.
Proof.
  unfold draft_stage. unfold bind at 1 2 3. unfold print, emit. cbn [world trace].
  rewrite <- !app_assoc. cbn [app]. unfold bind at 1.
  destruct (_get_initial_translation E text source target _) as [[s|e] st1];
    [|done].
  by unfold_monad.
Qed.

End DraftExtras.

Lemma draft_rejected_source (E : Externals)
    (text source target : pystr) (st : state E) (e : exn) (w : World E) :
  set_src_lang E source (world st) = (Raise e, w) ->
  _get_initial_translation E text source target st
  = (Ok (translation_failed e), State w (trace st ++ [error_line E e])).
Proof.
  intros H. rewrite _get_initial_translation_stages. cbv zeta. by rewrite H.
Qed.

(** The inner [try] when the tokenizer has no id for the mapped target
    but has one for 'fr'. *)
Lemma resolve_forced_bos_fallback (E : Externals) (target mapped : pystr)
    (st : state E) (e : exn) (id : Z) :
  get_lang_id E (world st) mapped = Raise e ->
  get_lang_id E (world st) (lit "fr") = Ok id ->
  resolve_forced_bos E target mapped st
  = (Ok id, State (world st) (trace st ++ [Printed (unsupported_warning target)])).
Proof.
  intros Hno Hfr. unfold resolve_forced_bos. unfold_monad. by rewrite Hno, Hfr.
Qed.

(** X4.  A target language of the allow-list that the tokenizer does not
    know, while it knows 'fr' and accepts the source language and the
    text: the warning is the first line the draft prints, and the draft
    calls [model.generate] once, with the id of 'fr' forced. *)
Theorem unknown_target_warns_and_forces_default (E : Externals)
    (calls : World E -> list (generate_kwargs (Encoding E)))
    (text source target : pystr) (st : state E)
    (w1 w2 : World E) (inputs : Encoding E) (e : exn) (id : Z) :
  records E calls ->
  dict_has lang_mapping target = true ->
  set_src_lang E source (world st) = (Ok tt, w1) ->
  tokenize E text w1 = (Ok inputs, w2) ->
  get_lang_id E w2 target = Raise e ->
  get_lang_id E w2 (lit "fr") = Ok id ->
  (exists evs,
     trace (snd (_get_initial_translation E text source target st))
     = trace st ++ Printed (unsupported_warning target) :: evs)
  /\ calls (world (snd (_get_initial_translation E text source target st)))
     = calls (world st) ++ [generation_call E inputs id].
Proof.
  intros Hrec Hin Hsrc Htok Hno Hfr.
  pose proof (resolve_forced_bos_fallback E target target (State w2 (trace st))
                e id Hno Hfr) as Hres. cbn [world trace] in Hres.
  split.
  - rewrite _get_initial_translation_stages, Hsrc, Htok.
    rewrite (lang_mapping_identity _ _ Hin), Hres. cbv zeta.
    match goal with |- context [decode_stage E inputs id ?s] =>
      pose proof (decode_stage_trace E inputs id s) as Htr;
      destruct (decode_stage E inputs id s) as [[s'|e'] st4] end;
      cbn [snd trace] in *; rewrite Htr; rewrite <- !app_assoc; cbn [app];
      by eexists.
  - rewrite (draft_recorded E calls Hrec), Hsrc, Htok.
    by rewrite (lang_mapping_identity _ _ Hin), Hres.
Qed.

Lemma unknown_target_warns_and_forces_default_witness :
  (exists evs,
     trace (snd (_get_initial_translation (recording (stub calm))
                   hello en (lit "es") fresh))
     = [] ++ Printed (unsupported_warning (lit "es")) :: evs)
  /\ recorded
       (world (snd (_get_initial_translation (recording (stub calm))
                      hello en (lit "es") fresh)))
     = [] ++ [generation_call (recording (stub calm)) hello 128028].
Proof.
  refine (unknown_target_warns_and_forces_default (recording (stub calm)) recorded
            hello en (lit "es") fresh (0, []) (0, []) hello
            (Exception (lit "es")) 128028 (recording_records _) _ _ _ _ _);
    vm_compute; reflexivity.
Defined.

(** X5.  Neither the mapped target nor 'fr' is known to the tokenizer: the
    handler of the inner [try] raises in its turn, and the draft is the
    failure text of that second exception, after the error line alone:
    no warning is printed and the model is not asked to generate. *)
Theorem unknown_default_gives_failure_text (E : Externals)
    (text source target : pystr) (st : state E)
    (w1 w2 : World E) (inputs : Encoding E) (e e' : exn) :
  set_src_lang E source (world st) = (Ok tt, w1) ->
  tokenize E text w1 = (Ok inputs, w2) ->
  get_lang_id E w2 (dict_get lang_mapping target (lit "fr")) = Raise e ->
  get_lang_id E w2 (lit "fr") = Raise e' ->
  _get_initial_translation E text source target st
  = (Ok (translation_failed e'), State w2 (trace st ++ [error_line E e'])).
Proof.
  intros Hsrc Htok Hno Hfr.
  rewrite _get_initial_translation_stages, Hsrc, Htok. cbv zeta.
  unfold resolve_forced_bos. unfold try_except at 1. unfold read_ext at 1.
  cbn [world]. rewrite Hno. unfold_monad. cbn [world trace]. by rewrite Hfr.
Qed.

(** A tokenizer without any language id. *)
Lemma unknown_default_gives_failure_text_witness :
  _get_initial_translation (stub tongueless) hello en (lit "de") start
  = (Ok (lit "Translation failed: fr"),
     State (0 : World (stub tongueless)) [error_line _ (Exception (lit "fr"))]).
Proof.
  refine (unknown_default_gives_failure_text (stub tongueless) hello en (lit "de")
            start 0 0 hello (Exception (lit "de")) (Exception (lit "fr")) _ _ _ _);
    vm_compute; reflexivity.
Defined.

Lemma draft_forced_to_default (E : Externals)
    (calls : World E -> list (generate_kwargs (Encoding E)))
    (text source target : pystr) (st : state E)
    (w1 w2 : World E) (inputs : Encoding E) (id : Z) :
  records E calls ->
  dict_has lang_mapping target = false ->
  set_src_lang E source (world st) = (Ok tt, w1) ->
  tokenize E text w1 = (Ok inputs, w2) ->
  get_lang_id E w2 (lit "fr") = Ok id ->
  calls (world (snd (_get_initial_translation E text source target st)))
  = calls (world st) ++ [generation_call E inputs id].
Proof.
  intros Hrec Hout Hsrc Htok Hfr.
  rewrite (draft_recorded E calls Hrec), Hsrc, Htok.
  rewrite (dict_get_absent _ _ _ Hout), resolve_forced_bos_default.
  cbn [world]. by rewrite Hfr.
Qed.

(** X6.  A target language outside the allow-list, with a tokenizer that
    accepts the source language and the text and knows 'fr': the draft
    calls [model.generate] once, with the id of 'fr' forced. *)
Theorem unsupported_target_forces_default (E : Externals)
    (calls : World E -> list (generate_kwargs (Encoding E)))
    (text source target : pystr) (st : state E)
    (w1 w2 : World E) (inputs : Encoding E) (id : Z) :
  records E calls ->
  dict_has lang_mapping target = false ->
  set_src_lang E source (world st) = (Ok tt, w1) ->
  tokenize E text w1 = (Ok inputs, w2) ->
  get_lang_id E w2 (lit "fr") = Ok id ->
  calls (world (snd (_get_initial_translation E text source target st)))
  = calls (world st) ++ [generation_call E inputs id].
Proof. apply draft_forced_to_default. Qed.

Lemma unsupported_target_forces_default_witness :
  recorded
    (world (snd (_get_initial_translation (recording (stub calm))
                   hello en (lit "nl") fresh)))
  = [] ++ [generation_call (recording (stub calm)) hello 128028].
Proof.
  refine (unsupported_target_forces_default (recording (stub calm)) recorded
            hello en (lit "nl") fresh (0, []) (0, []) hello 128028
            (recording_records _) _ _ _ _); vm_compute; reflexivity.
Defined.

(** *** [translate] with a failed draft *)

Lemma translate_result_draft (E : Externals)
    (text source target : pystr) (st st' : state E) (r : TranslationResult) :
  translate E text source target st = (Ok r, st') ->
  exists st1,
    draft_stage E text source target st = (Ok (initial_translation r), st1).
Proof.
  destruct (draft_stage_returns E text source target st) as (initial & st1 & Hd).
  destruct (build_tasks E text source target initial st1)
    as [[[[ct rt] qt]|e] st2] eqn:Hb.
  - rewrite (translate_after_build _ _ _ _ _ _ _ _ _ _ _ Hd Hb).
    destruct (crew_stage E ct rt qt initial st2) as [[[[ca refined] qa]|e] st3];
      intros [= <- _]; by exists st1.
  - by rewrite (translate_build_raises _ _ _ _ _ _ _ _ _ Hd Hb).
Qed.

(** X7.  A source language the tokenizer rejects does not stop
    [translate]: the failure text is the draft of the result it
    returns. *)
Theorem rejected_source_becomes_the_draft (E : Externals)
    (text source target : pystr) (st st' : state E) (r : TranslationResult)
    (e : exn) (w : World E) :
  set_src_lang E source (world st) = (Raise e, w) ->
  translate E text source target st = (Ok r, st') ->
  initial_translation r = lit "Translation failed: " ++ exn_str e.
Proof.
  intros Hsrc Hrun.
  destruct (translate_result_draft _ _ _ _ _ _ _ Hrun) as [st1 Hd].
  rewrite draft_stage_unfold in Hd. cbv zeta in Hd.
  rewrite (draft_rejected_source E text source target _ e w) in Hd by done.
  by injection Hd as <- _.
Qed.

Lemma rejected_source_becomes_the_draft_witness :
  exists r st',
    translate (stub (rejecting_source (lit "tlh"))) hello (lit "tlh") fr start
      = (Ok r, st')
    /\ initial_translation r = lit "Translation failed: tlh".
Proof.
  eexists _, _. split; [vm_compute; reflexivity |].
  eapply (rejected_source_becomes_the_draft
            (stub (rejecting_source (lit "tlh"))) hello (lit "tlh") fr start _ _
            (Exception (lit "tlh")) 0); vm_compute; reflexivity.
Defined.

(** *** A batch that breaks *)

Section BatchExtras.

Variable E : Externals.
Variables source target : pystr.

Implicit Types (st : state E).

Lemma batch_loop_breaks total i done_texts st rs st1 text rest e st2 results :
  batch_run source target total i done_texts st rs st1 ->
  translate E text source target (announced total (i + length done_texts) st1)
    = (Raise e, st2) ->
  batch_loop E total i (done_texts ++ text :: rest) source target results st
    = (Raise e, st2).
Proof.
  intros Hrun. revert results.
  induction Hrun as [|i t ts st r st1 rs st2' Hone _ IH]; intros results Hbad.
  - rewrite Nat.add_0_r in Hbad. by apply batch_loop_aborts.
  - cbn [app]. rewrite batch_loop_step, Hone. apply IH.
    cbn [length] in Hbad. by rewrite <- Nat.add_succ_comm in Hbad.
Qed.

End BatchExtras.

(** X8.  When the [translate] of an item raises, [batch_translate] raises
    the same exception: the results of the items before it are not
    returned. *)
Theorem batch_failure_loses_earlier_results (E : Externals)
    (source target : pystr) (done_texts rest : list pystr) (text : pystr)
    (st st1 st2 : state E) (rs : list TranslationResult) (e : exn) :
  let texts := done_texts ++ text :: rest in
  batch_run source target (length texts) 1 done_texts st rs st1 ->
  translate E text source target
    (announced (length texts) (S (length done_texts)) st1) = (Raise e, st2) ->
  batch_translate E texts source target st = (Raise e, st2).
Proof.
  intros texts Hrun Hbad. unfold batch_translate.
  by apply (batch_loop_breaks E source target _ _ _ _ _ _ _ _ _ _ _ Hrun).
Qed.

Lemma batch_failure_loses_earlier_results_witness :
  batch_translate (stub (rejecting 3)) [lit "a"; lit "b"; lit "c"] en fr start
  = (Raise (Exception (lit "validation error")),
     snd (batch_translate (stub (rejecting 3)) [lit "a"; lit "b"; lit "c"] en fr start)).
Proof.
  eapply (batch_failure_loses_earlier_results (stub (rejecting 3)) en fr
            [lit "a"] [lit "c"] (lit "b") start).
  - eapply batch_item; [vm_compute; reflexivity | apply batch_done].
  - vm_compute; reflexivity.
Defined.

(** ** More on the language-model client *)

(** *** The prompt sent to the API *)

Section JoinFacts.

Variable E : Externals.

Lemma join_messages_step (content : pystr) (msg : pyval) (msgs : list pyval) :
  malformed msg = false ->
  join_messages E (VStr content) (msg :: msgs)
  = join_messages E (VStr (content ++ message_text msg)) msgs.
Proof.
  destruct msg as [s | items | d | tn rp]; cbn [join_messages malformed message_text];
    rewrite ?app_nil_r; try done.
  unfold selected.
  destruct (dict_has d (lit "content")).
  { destruct (dict_item d (lit "content")); by rewrite ?app_nil_r. }
  destruct (dict_has d (lit "text")); [|by rewrite app_nil_r].
  destruct (dict_item d (lit "text")); by rewrite ?app_nil_r.
Qed.

Lemma join_messages_well_formed (content : pystr) (msgs : list pyval) :
  Forall (fun msg => malformed msg = false) msgs ->
  join_messages E (VStr content) msgs
  = Ok (VStr (content ++ concat (map message_text msgs))).
Proof.
  intros Hall. revert content.
  induction Hall as [|msg msgs Hmsg _ IH]; intros content.
  - by rewrite app_nil_r.
  - rewrite (join_messages_step _ _ _ Hmsg), IH. cbn [map concat].
    by rewrite app_assoc.
Qed.

Lemma append_line_unaddable (content v : pyval) (e : exn) :
  add_newline E v = Raise e -> append_line E content v = Raise e.
Proof. intros H. unfold append_line. by rewrite H. Qed.

(** Whatever the content so far and the other messages, the loop raises
    when it holds a message that cannot take the line break: it raises
    at that message, or before it. *)
Lemma join_messages_raises (content : pyval) (msgs : list pyval) :
  Exists (unaddable E) msgs ->
  exists e, join_messages E content msgs = Raise e.
Proof.
  intros Hex. revert content.
  induction msgs as [|msg msgs IH]; intros content; [by inversion Hex |].
  apply Exists_cons in Hex.
  assert (Hnext : forall v,
    Exists (unaddable E) msgs ->
    exists e, rbind (append_line E content v)
                (fun content' => join_messages E content' msgs) = Raise e).
  { intros v Htail. destruct (append_line E content v) as [content'|e];
      cbn [rbind]; [by apply IH | by eexists]. }
  destruct msg as [s | items | d | tn rp]; cbn [join_messages].
  - destruct Hex as [[] | Hex]. by apply Hnext.
  - destruct Hex as [[] | Hex]. by apply IH.
  - unfold unaddable, selected in Hex.
    destruct (dict_has d (lit "content")).
    { destruct Hex as [[e He] | Hex]; [|by apply Hnext].
      rewrite (append_line_unaddable _ _ _ He). by eexists. }
    destruct (dict_has d (lit "text")).
    { destruct Hex as [[e He] | Hex]; [|by apply Hnext].
      rewrite (append_line_unaddable _ _ _ He). by eexists. }
    destruct Hex as [[] | Hex]. by apply IH.
  - destruct Hex as [[] | Hex]. by apply IH.
Qed.

End JoinFacts.

(** X9.  A list of messages none of which is malformed: the content sent
    is the texts of the messages in their order, a line break after each,
    the whole trimmed; items that are neither a [str] nor a record, and
    records with neither key, add nothing. *)
Theorem well_formed_messages_are_joined (E : Externals) (msgs : list pyval) :
  Forall (fun msg => malformed msg = false) msgs ->
  exists content,
    normalize E (VList msgs) = Ok (VStr content)
    /\ content = Str.strip (concat (map message_text msgs))
    /\ Str.strip content = content.
Proof.
  intros Hall. eexists. split; [|split; [reflexivity | apply strip_idem]].
  cbn [normalize]. by rewrite (join_messages_well_formed E _ _ Hall).
Qed.

Lemma well_formed_messages_are_joined_witness :
  exists content,
    normalize (stub calm)
      (VList [VDict [(lit "role", VStr (lit "system"));
                     (lit "content", VStr (lit " You translate."))];
              VOther (lit "int") (lit "7");
              VDict [(lit "text", VStr (lit "Bonjour "))];
              VStr (lit "Merci")])
    = Ok (VStr content)
    /\ content = lit "You translate." ++ nl ++ lit "Bonjour " ++ nl ++ lit "Merci".
Proof.
  edestruct (well_formed_messages_are_joined (stub calm)
      [VDict [(lit "role", VStr (lit "system"));
              (lit "content", VStr (lit " You translate."))];
       VOther (lit "int") (lit "7");
       VDict [(lit "text", VStr (lit "Bonjour "))];
       VStr (lit "Merci")]) as (content & Hn & Hc & _).
  - repeat constructor.
  - exists content. split; [exact Hn |]. rewrite Hc. vm_compute. reflexivity.
Defined.

(** X10.  A list with a record whose 'content', or without it whose
    'text', cannot take the line break, as a [list] or a [dict] cannot:
    [call] returns the apology after one error line, and no request is
    made, whatever the other messages are. *)
Theorem malformed_message_sends_nothing (E : Externals)
    (msgs : list pyval) (st : state E) :
  Exists (unaddable E) msgs ->
  exists e,
    call E (VList msgs) st
    = (Ok APOLOGY, State (world st) (trace st ++ [api_error_line E e])).
Proof.
  intros Hex. destruct (join_messages_raises E (VStr []) msgs Hex) as [e He].
  exists e. rewrite call_unfold. unfold call_body. unfold_monad.
  cbn [normalize]. by rewrite He.
Qed.

Lemma malformed_message_sends_nothing_witness :
  exists e,
    call (stub calm)
      (VList [VStr hello; VDict [(lit "content", VList [VStr (lit "part")])]]) start
    = (Ok APOLOGY, State (0 : World (stub calm)) [api_error_line _ e]).
Proof.
  apply (malformed_message_sends_nothing (stub calm)
           [VStr hello; VDict [(lit "content", VList [VStr (lit "part")])]] start).
  right. left. vm_compute. eexists. reflexivity.
Defined.

(** X11.  A response with a non-empty text: [call] returns that text
    unchanged, after one request and without printing. *)
Theorem response_text_is_returned (E : Externals)
    (prompt content : pyval) (st : state E) (response : Response E) (w : World E)
    (text : pystr) :
  normalize E prompt = Ok content ->
  generate_content E content (world st) = (Ok response, w) ->
  response_text E response = Ok (Some text) ->
  text <> [] ->
  call E prompt st = (Ok text, State w (trace st)).
Proof.
  intros Hn Hg Ht Hne.
  rewrite call_unfold. unfold call_body, text_or_default. unfold_monad.
  rewrite Hn, Hg. simpl. rewrite Ht. simpl. by destruct text.
Qed.

Lemma response_text_is_returned_witness :
  call (stub calm) (VStr hello) start = (Ok (lit "pong"), start).
Proof.
  refine (response_text_is_returned (stub calm) (VStr hello) (VStr hello) start
            (Ok (Some (lit "pong"))) 0 (lit "pong") _ _ _ _);
    try (vm_compute; reflexivity). discriminate.
Defined.

(** ** Construction and the web form *)

(** *** Generation happens in the draft only *)

Section GenerationFacts.

Variable E : Externals.
Variable calls : World E -> list (generate_kwargs (Encoding E)).
Hypothesis Hrec : records E calls.

Implicit Types (st : state E).

Lemma build_tasks_recorded text source target initial st :
  calls (world (snd (build_tasks E text source target initial st)))
  = calls (world st).
Proof.
  unfold build_tasks. unfold_monad.
  repeat match goal with
  | |- context [new_Task E ?kw ?w] =>
      let H := fresh "Hsilent" in
      pose proof (new_Task_silent E calls Hrec kw w) as H;
      destruct (new_Task E kw w) as [[?|?] ?]; cbn [snd fst world] in *;
      [|congruence]
  end.
  congruence.
Qed.

Lemma crew_stage_recorded ct rt qt initial st :
  calls (world (snd (crew_stage E ct rt qt initial st))) = calls (world st).
Proof.
  unfold crew_stage, output_or. unfold_monad.
  pose proof (new_Crew_silent E calls Hrec (the_crew E ct rt qt) (world st)) as Hc.
  destruct (new_Crew E _ (world st)) as [[crew|e] w]; cbn [snd fst world] in *;
    [|done].
  pose proof (kickoff_silent E calls Hrec crew w) as Hk.
  destruct (kickoff E crew w) as [[[]|e] w']; cbn [snd fst world] in *; congruence.
Qed.

(** After the draft, [translate] makes no call of the model. *)
Lemma translate_recorded text source target st :
  exists st0 : state E,
    world st0 = world st
    /\ calls (world (snd (translate E text source target st)))
       = calls (world (snd (_get_initial_translation E text source target st0))).
Proof.
  exists (State (world st)
            (trace st ++
             [Printed (nl ++ ROCKET ++ lit " Starting multi-agent translation: "
                       ++ source ++ lit " " ++ RIGHT_ARROW ++ lit " " ++ target);
              Printed (MEMO ++ lit " Text: '" ++ text ++ lit "'");
              Printed (nl ++ ARROWS ++ lit " Getting initial translation...")])).
  split; [reflexivity |].
  unfold translate. unfold bind at 1. rewrite draft_stage_unfold. cbv zeta.
  match goal with |- context [_get_initial_translation E text source target ?s] =>
    destruct (_get_initial_translation_returns E text source target s)
      as (s0 & st1 & Hd); rewrite Hd end.
  cbn [snd]. unfold bind at 1.
  match goal with |- context [build_tasks E text source target s0 ?s] =>
    pose proof (build_tasks_recorded text source target s0 s) as Hb;
    destruct (build_tasks E text source target s0 s)
      as [[[[ct rt] qt]|e] st2] end;
    cbn [snd world] in Hb; [|done].
  unfold bind at 1. unfold try_except.
  pose proof (crew_stage_recorded ct rt qt s0 st2) as Hc.
  destruct (crew_stage E ct rt qt s0 st2) as [[parsed|e] st3];
    cbn [snd] in Hc.
  - unfold_monad. cbn [snd world]. congruence.
  - unfold crew_fallback. unfold_monad. cbn [snd world]. congruence.
Qed.

End GenerationFacts.

(** X12.  Unless the tokenizer, a task or the crew call the model
    themselves, one [translate], whatever its outcome, calls
    [model.generate] at most once, and with the four literal settings:
    the only call is that of the draft. *)
Theorem translate_generates_at_most_once (E : Externals)
    (calls : World E -> list (generate_kwargs (Encoding E)))
    (text source target : pystr) (st : state E) :
  records E calls ->
  exists made,
    calls (world (snd (translate E text source target st)))
    = calls (world st) ++ made
    /\ length made <= 1
    /\ Forall (fun kw => max_length kw = 200%Z /\ num_beams kw = 4%Z
                         /\ early_stopping kw = true /\ do_sample kw = false)
         made.
Proof.
  intros Hrec.
  destruct (translate_recorded E calls Hrec text source target st)
    as (st0 & H0 & ->).
  destruct (draft_generation_settings E calls Hrec text source target st0)
    as (made & -> & Hlen & Hall).
  exists made. by rewrite H0.
Qed.

Lemma translate_generates_at_most_once_witness :
  exists made,
    recorded (world (snd (translate (recording (stub stormy)) hello en fr fresh)))
    = [] ++ made
    /\ length made <= 1
    /\ Forall (fun kw => max_length kw = 200%Z /\ num_beams kw = 4%Z
                         /\ early_stopping kw = true /\ do_sample kw = false)
         made.
Proof.
  apply (translate_generates_at_most_once (recording (stub stormy)) recorded
           hello en fr fresh).
  apply recording_records.
Defined.

(** *** Construction *)

Section ConstructionFacts.

Variable E : Externals.
Variable K : Setup E.

Implicit Types (st : state E).

Lemma load_model_outcome st :
  match load_model E K st with
  | (Ok _, st') => True
  | (Raise e, st') => last (trace st') = Some (load_failed_line e)
  end.
Proof.
  unfold load_model, raise. unfold_monad.
  destruct (tokenizer_from_pretrained K _ (world st)) as [[[]|e] w1]; simpl;
    [|by rewrite last_snoc].
  destruct (model_from_pretrained K _ w1) as [[[]|e] w2]; simpl;
    [done | by rewrite last_snoc].
Qed.

Lemma load_agents_outcome st :
  match load_agents E K st with
  | (Ok _, st') => last (trace st') = Some agents_ready_line
  | (Raise e, st') => last (trace st') = Some (agents_failed_line e)
  end.
Proof.
  unfold load_agents, TranslationAgents_init, GeminiLLM_init,
    create_translator_agent, create_context_agent, create_quality_agent, raise.
  unfold_monad.
  destruct (LLM_init K _ (world st)) as [[llm|e] w1]; simpl;
    [|by rewrite last_snoc].
  destruct (genai_configure K _ w1) as [[[]|e] w2]; simpl;
    [|by rewrite last_snoc].
  destruct (GenerativeModel K _ w2) as [[[]|e] w3]; simpl;
    [|by rewrite last_snoc].
  destruct (new_Agent K (translator_kwargs llm) w3) as [[a1|e] w4]; simpl;
    [|by rewrite last_snoc].
  destruct (new_Agent K (context_kwargs llm) w4) as [[a2|e] w5]; simpl;
    [|by rewrite last_snoc].
  destruct (new_Agent K (quality_kwargs llm) w5) as [[a3|e] w6]; simpl;
    by rewrite last_snoc.
Qed.

End ConstructionFacts.

(** X13.  [TranslationWorkflow()] either returns, its last line being that
    all agents are initialised, or raises the exception of the step that
    failed, after a line that names the failed part and holds the text of
    the exception. *)
Theorem construction_reports_before_raising (E : Externals) (K : Setup E)
    (st : state E) :
  match TranslationWorkflow_init E K st with
  | (Ok _, st') => last (trace st') = Some agents_ready_line
  | (Raise e, st') =>
      last (trace st') = Some (load_failed_line e)
      \/ last (trace st') = Some (agents_failed_line e)
  end.
Proof.
  unfold TranslationWorkflow_init. unfold bind at 1. unfold print, emit.
  unfold bind at 1.
  match goal with |- context [load_model E K ?s] =>
    pose proof (load_model_outcome E K s) as Hm;
    destruct (load_model E K s) as [[[]|e] st1] end; [|by left].
  pose proof (load_agents_outcome E K st1) as Ha.
  destruct (load_agents E K st1) as [[wf|e] st2]; [done | by right].
Qed.

(** *** The handlers of the web form *)

Section GradioFacts.

Variable E : Externals.
Variable K : Setup E.

Implicit Types (st : state E) (workflow : Gradio.workflow_attr E K).

(** The handler once the three guards are passed. *)
Lemma translate_single_guarded wf text source_lang target_lang st :
  Gradio.truthy (Str.strip text) = true ->
  source_lang <> target_lang ->
  Gradio.translate_single E K (Some wf) text source_lang target_lang st =
    match Gradio.language_code E K source_lang,
          Gradio.language_code E K target_lang with
    | Ok source_code, Ok target_code =>
        match translate E text source_code target_code st with
        | (Ok r, st') =>
            (Ok (completed_status source_lang target_lang,
                 initial_translation r, refined_translation r,
                 context_analysis r, accuracy_score r, quality_assessment r), st')
        | (Raise e, st') => (Ok (Gradio.only_status (failed_status e)), st')
        end
    | Ok _, Raise e | Raise e, _ => (Ok (Gradio.only_status (failed_status e)), st)
    end.
Proof.
  intros Htext Hne. unfold Gradio.translate_single. rewrite Htext. cbn [negb].
  destruct (decide (source_lang = target_lang)); [done |].
  unfold_monad.
  destruct (Gradio.language_code E K source_lang) as [sc|e]; [|done].
  destruct (Gradio.language_code E K target_lang) as [tc|e]; [|done].
  by destruct (translate E text sc tc st) as [[r|e] st'].
Qed.

End GradioFacts.

Lemma initialize_workflow_outcome (E : Externals) (K : Setup E)
    (workflow : Gradio.workflow_attr E K) (st : state E) :
  match TranslationWorkflow_init E K st with
  | (Ok built, st') =>
      Gradio.initialize_workflow E K workflow st
      = (Ok (Some built, Gradio.INITIALIZED), st')
  | (Raise e, st') =>
      Gradio.initialize_workflow E K workflow st
      = (Ok (workflow,
             CROSS_MARK ++ lit " Failed to initialize workflow: " ++ exn_str e), st')
  end.
Proof.
  unfold Gradio.initialize_workflow. unfold_monad.
  by destruct (TranslationWorkflow_init E K st) as [[built|e] st'].
Qed.

(** X14.  A construction that fails when the application starts does not
    stop it: the application holds no workflow, and from then on both
    handlers answer that the workflow is not initialised, whatever they
    are given, and touch nothing. *)
Theorem failed_start_disables_the_form (E : Externals) (K : Setup E)
    (st st' : state E) (e : exn) :
  TranslationWorkflow_init E K st = (Raise e, st') ->
  Gradio.app_init E K st = (Ok None, st')
  /\ forall text source_lang target_lang (st2 : state E),
       Gradio.translate_single E K None text source_lang target_lang st2
         = (Ok (Gradio.only_status Gradio.NOT_INITIALIZED), st2)
       /\ Gradio.translate_batch E K None text source_lang target_lang st2
         = (Ok (Gradio.NOT_INITIALIZED, []), st2).
Proof.
  intros Hinit. split; [|done].
  unfold Gradio.app_init. unfold bind.
  pose proof (initialize_workflow_outcome E K None st) as H.
  rewrite Hinit in H. by rewrite H.
Qed.

Lemma failed_start_disables_the_form_witness :
  Gradio.app_init (stub calm) (test_setup calm false) start
  = (Ok None,
     snd (TranslationWorkflow_init (stub calm) (test_setup calm false) start)).
Proof.
  refine (proj1 (failed_start_disables_the_form (stub calm) (test_setup calm false)
                   start _ (Exception (lit "no network")) _)).
  vm_compute; reflexivity.
Defined.

(** X15.  [translate_single] never raises: it returns either the status of
    a completed translation with five fields of the result of
    [translate], or a status alone with the five other outputs empty. *)
Theorem translate_single_never_raises (E : Externals) (K : Setup E)
    (workflow : Gradio.workflow_attr E K)
    (text source_lang target_lang : pystr) (st : state E) :
  exists out st',
    Gradio.translate_single E K workflow text source_lang target_lang st
      = (Ok out, st')
    /\ ((exists status, out = Gradio.only_status status)
        \/ (exists source_code target_code r,
              Gradio.language_code E K source_lang = Ok source_code
              /\ Gradio.language_code E K target_lang = Ok target_code
              /\ translate E text source_code target_code st = (Ok r, st')
              /\ out = (completed_status source_lang target_lang,
                        initial_translation r, refined_translation r,
                        context_analysis r, accuracy_score r,
                        quality_assessment r))).
Proof.
  destruct workflow as [wf|]; [|by eexists _, _; split; [reflexivity | left; eauto]].
  destruct (Gradio.truthy (Str.strip text)) eqn:Htext; cycle 1.
  { unfold Gradio.translate_single. rewrite Htext.
    eexists _, _. split; [reflexivity | left; eauto]. }
  destruct (decide (source_lang = target_lang)) as [Heq | Hne].
  { unfold Gradio.translate_single. rewrite Htext.
    destruct (decide (source_lang = target_lang)); [|done].
    eexists _, _. split; [reflexivity | left; eauto]. }
  rewrite (translate_single_guarded E K _ _ _ _ _ Htext Hne).
  destruct (Gradio.language_code E K source_lang) as [sc|e];
    [|eexists _, _; split; [reflexivity | left; eauto]].
  destruct (Gradio.language_code E K target_lang) as [tc|e];
    [|eexists _, _; split; [reflexivity | left; eauto]].
  destruct (translate E text sc tc st) as [[r|e] st'] eqn:Hrun;
    eexists _, _; (split; [reflexivity |]); [right | left; eauto].
  by exists sc, tc, r.
Qed.

(** X16.  With a blank text, or with twice the same language, the two
    handlers leave the state as it is: nothing is printed and no
    collaborator is called.  The blank text is reported first. *)
Theorem form_guards_touch_nothing (E : Externals) (K : Setup E)
    (wf : Wf.t E (LLMHandle K))
    (text source_lang target_lang : pystr) (st : state E) :
  Gradio.truthy (Str.strip text) = false \/ source_lang = target_lang ->
  Gradio.translate_single E K (Some wf) text source_lang target_lang st
  = (Ok (Gradio.only_status
           (if Gradio.truthy (Str.strip text) then Gradio.SAME_LANGUAGES
            else Gradio.PLEASE_ENTER_TEXT)), st)
  /\ Gradio.translate_batch E K (Some wf) text source_lang target_lang st
  = (Ok (if Gradio.truthy (Str.strip text) then Gradio.SAME_LANGUAGES
         else Gradio.PLEASE_ENTER_TEXTS, []), st).
Proof.
  intros H. unfold Gradio.translate_single, Gradio.translate_batch.
  destruct (Gradio.truthy (Str.strip text)) eqn:Htext; [|done]. cbn [negb].
  destruct (decide (source_lang = target_lang)); [done |].
  by destruct H.
Qed.

Lemma form_guards_touch_nothing_witness :
  Gradio.translate_single (stub calm) (test_setup calm true)
    (Some (test_workflow calm)) (lit "  ") (lit "English") (lit "English") start
  = (Ok (Gradio.only_status Gradio.PLEASE_ENTER_TEXT), start).
Proof.
  refine (proj1 (form_guards_touch_nothing (stub calm) (test_setup calm true)
                   (test_workflow calm) (lit "  ") (lit "English") (lit "English")
                   start _)).
  left. vm_compute; reflexivity.
Defined.

(** X17.  A language name that is no key of [LANGUAGES]: the status is the
    failure with the [repr] of the name, and [translate] is not called.
    The source language is looked up first. *)
Theorem unknown_language_is_reported (E : Externals) (K : Setup E)
    (wf : Wf.t E (LLMHandle K))
    (text source_lang target_lang : pystr) (st : state E) :
  Gradio.truthy (Str.strip text) = true ->
  source_lang <> target_lang ->
  dict_has Gradio.LANGUAGES source_lang = false
  \/ dict_has Gradio.LANGUAGES target_lang = false ->
  Gradio.translate_single E K (Some wf) text source_lang target_lang st
  = (Ok (Gradio.only_status
           (CROSS_MARK ++ lit " Translation failed: "
              ++ builtin_repr K
                   (if dict_has Gradio.LANGUAGES source_lang
                    then target_lang else source_lang))), st).
Proof.
  intros Htext Hne H.
  rewrite (translate_single_guarded E K _ _ _ _ _ Htext Hne).
  unfold Gradio.language_code.
  destruct (dict_has Gradio.LANGUAGES source_lang); [|done].
  destruct H as [? | ->]; done.
Qed.

Lemma unknown_language_is_reported_witness :
  Gradio.translate_single (stub calm) (test_setup calm true)
    (Some (test_workflow calm)) hello (lit "English") (lit "Klingon") start
  = (Ok (Gradio.only_status
           (CROSS_MARK ++ lit " Translation failed: 'Klingon'")), start).
Proof.
  refine (unknown_language_is_reported (stub calm) (test_setup calm true)
            (test_workflow calm) hello (lit "English") (lit "Klingon") start _ _ _).
  - vm_compute; reflexivity.
  - discriminate.
  - right. vm_compute; reflexivity.
Defined.

(** *** Blank texts and lines *)

Lemma lstrip_keeps_nonspace (s : pystr) :
  Exists nonspace (Str.lstrip s) <-> Exists nonspace s.
Proof.
  induction s as [|c s IH]; simpl; [done |].
  destruct (Str.isspace c) eqn:Hc; [|done].
  rewrite IH, Exists_cons.
  split; [by right | intros [H | H]; [unfold nonspace in H; congruence | done]].
Qed.

Lemma lstrip_truthy (s : pystr) :
  Gradio.truthy (Str.lstrip s) = true <-> Exists nonspace s.
Proof.
  induction s as [|c s IH]; simpl.
  - split; [done | by inversion 1].
  - destruct (Str.isspace c) eqn:Hc.
    + rewrite IH, Exists_cons.
      split; [by right | intros [H | H]; [unfold nonspace in H; congruence | done]].
    + simpl. split; [intros _; by left | done].
Qed.

Lemma truthy_reverse (s : pystr) : Gradio.truthy (reverse s) = Gradio.truthy s.
Proof.
  destruct s as [|c s]; [done |]. rewrite reverse_cons. by destruct (reverse s).
Qed.

Lemma nonspace_reverse (s : pystr) :
  Exists nonspace (reverse s) <-> Exists nonspace s.
Proof.
  rewrite !Exists_exists. by setoid_rewrite elem_of_reverse.
Qed.

Lemma strip_truthy (s : pystr) :
  Gradio.truthy (Str.strip s) = true <-> Exists nonspace s.
Proof.
  unfold Str.strip, Str.rstrip.
  by rewrite truthy_reverse, lstrip_truthy, nonspace_reverse, lstrip_keeps_nonspace.
Qed.

Lemma split_fuel_keeps_nonspace (fuel : nat) (s : pystr) :
  Exists nonspace s -> Exists (Exists nonspace) (Str.split_fuel fuel nl s).
Proof.
  revert s. induction fuel as [|fuel IH]; intros s Hs; simpl; [by left |].
  destruct (Str.find nl s) as [i|] eqn:Hi; [|by left].
  rewrite (find_Some_occurrence _ _ _ Hi) in Hs.
  apply Exists_app in Hs as [Hs | Hs]; [by left |].
  apply Exists_app in Hs as [Hs | Hs].
  - exfalso. apply Exists_cons in Hs as [Hs | Hs]; [done | by inversion Hs].
  - right. by apply IH.
Qed.

Lemma texts_of_nonempty (lines : list pystr) :
  Exists (Exists nonspace) lines -> Gradio.texts_of lines <> [].
Proof.
  unfold Gradio.texts_of. induction 1 as [line lines Hl | line lines _ IH]; simpl.
  - apply strip_truthy in Hl. by rewrite Hl.
  - by destruct (Gradio.truthy (Str.strip line)).
Qed.

(** A text that is not blank has a line that is not blank. *)
Lemma texts_of_split (batch_text : pystr) (lines : list pystr) :
  Gradio.truthy (Str.strip batch_text) = true ->
  Str.split nl batch_text = Ok lines ->
  Gradio.texts_of lines <> [].
Proof.
  intros Ht Hsplit.
  assert (lines = Str.split_fuel (S (length batch_text)) nl batch_text) as ->
    by (change (Str.split nl batch_text)
          with (Ok (Str.split_fuel (S (length batch_text)) nl batch_text))
          in Hsplit; congruence).
  apply texts_of_nonempty, split_fuel_keeps_nonspace. by apply strip_truthy.
Qed.

(** *** The results table *)

Lemma shortened_length (context : pystr) :
  length (Gradio.shortened context) <= 103.
Proof.
  unfold Gradio.shortened. destruct (100 <? length context) eqn:H.
  - rewrite length_app, length_take. change (length (lit "...")) with 3. lia.
  - apply Nat.ltb_ge in H. lia.
Qed.

Lemma shortened_short (context : pystr) :
  length context <= 100 -> Gradio.shortened context = context.
Proof.
  intros H. unfold Gradio.shortened.
  by destruct (Nat.ltb_spec 100 (length context)); [lia |].
Qed.

Lemma rows_from_acc (i : nat) (results : list TranslationResult)
    (df_data : list Gradio.row) :
  Gradio.rows_from i results df_data
  = df_data ++ imap (fun k r => row_of (i + k) r) results.
Proof.
  revert i df_data. induction results as [|r results IH]; intros i df_data; simpl.
  - by rewrite app_nil_r.
  - rewrite IH, <- app_assoc. simpl. do 2 f_equal.
    + by rewrite Nat.add_0_r.
    + apply imap_ext. intros k x _. simpl. f_equal. lia.
Qed.



(** X18.  The table has one row per result, in the order of the results
    and numbered from 1; a row shows the original, the draft, the refined
    text and the scores of its result, and a context of at most 103
    characters, which is the whole context when that has at most 100. *)
Theorem table_mirrors_results (results : list TranslationResult) :
  let df := Gradio.rows_from 1 results [] in
  length df = length results
  /\ (forall k r,
        results !! k = Some r ->
        exists row,
          df !! k = Some row
          /\ Gradio.Item row = S k
          /\ Gradio.Original_Text row = original_text r
          /\ Gradio.Initial_Translation row = initial_translation r
          /\ Gradio.Refined_Translation row = refined_translation r
          /\ Gradio.Quality_Scores row = accuracy_score r
          /\ length (Gradio.Context_Analysis row) <= 103
          /\ (length (context_analysis r) <= 100 ->
              Gradio.Context_Analysis row = context_analysis r)).
Proof.
  cbv zeta. rewrite rows_from_acc. cbn [app]. split; [apply length_imap |].
  intros k r Hk. exists (row_of (S k) r). rewrite list_lookup_imap, Hk.
  split; [done |]. cbn. repeat split; try done.
  - apply shortened_length.
  - apply shortened_short.
Qed.

Section GradioBatchFacts.

Variable E : Externals.
Variable K : Setup E.

Implicit Types (st : state E).

(** The batch handler once the three guards are passed. *)
Lemma translate_batch_guarded wf batch_text source_lang target_lang st :
  Gradio.truthy (Str.strip batch_text) = true ->
  source_lang <> target_lang ->
  exists lines,
    Str.split nl batch_text = Ok lines
    /\ Gradio.texts_of lines <> []
    /\ Gradio.translate_batch E K (Some wf) batch_text source_lang target_lang st =
       match Gradio.language_code E K source_lang,
             Gradio.language_code E K target_lang with
       | Ok source_code, Ok target_code =>
           match batch_translate E (Gradio.texts_of lines)
                   source_code target_code st with
           | (Ok results, st') =>
               (Ok (batch_completed_status (length (Gradio.texts_of lines))
                      source_lang target_lang,
                    Gradio.rows_from 1 results []), st')
           | (Raise e, st') => (Ok (batch_failed_status e, []), st')
           end
       | Ok _, Raise e | Raise e, _ => (Ok (batch_failed_status e, []), st)
       end.
Proof.
  intros Htext Hne.
  destruct (split_ok nl batch_text) as [lines Hsplit]; [done |].
  pose proof (texts_of_split _ _ Htext Hsplit) as Htexts.
  exists lines. split; [done |]. split; [done |].
  unfold Gradio.translate_batch. rewrite Htext. cbn [negb].
  destruct (decide (source_lang = target_lang)); [done |].
  unfold_monad. rewrite Hsplit.
  destruct (Gradio.texts_of lines) as [|t ts] eqn:Ht; [done |].
  destruct (Gradio.language_code E K source_lang) as [sc|e]; [|done].
  destruct (Gradio.language_code E K target_lang) as [tc|e]; [|done].
  by destruct (batch_translate E (t :: ts) sc tc st) as [[results|e] st'].
Qed.

End GradioBatchFacts.

(** X19.  [translate_batch] never raises, and it never answers 'No valid
    texts found': a text that passes the blank check has a line that is
    not blank.  A table with rows comes only with the status of a
    completed batch. *)
Theorem translate_batch_never_raises (E : Externals) (K : Setup E)
    (workflow : Gradio.workflow_attr E K)
    (batch_text source_lang target_lang : pystr) (st : state E) :
  exists status df st',
    Gradio.translate_batch E K workflow batch_text source_lang target_lang st
      = (Ok (status, df), st')
    /\ status <> Gradio.NO_VALID_TEXTS
    /\ (df = []
        \/ exists n, status = batch_completed_status n source_lang target_lang).
Proof.
  destruct workflow as [wf|];
    [|by eexists _, _, _; split; [reflexivity | split; [| left]]].
  destruct (Gradio.truthy (Str.strip batch_text)) eqn:Htext; cycle 1.
  { unfold Gradio.translate_batch. rewrite Htext.
    eexists _, _, _. split; [reflexivity |]. split; [by vm_compute | by left]. }
  destruct (decide (source_lang = target_lang)) as [Heq | Hne].
  { unfold Gradio.translate_batch. rewrite Htext.
    destruct (decide (source_lang = target_lang)); [|done].
    eexists _, _, _. split; [reflexivity |]. split; [by vm_compute | by left]. }
  destruct (translate_batch_guarded E K wf _ _ _ st Htext Hne)
    as (lines & _ & _ & ->).
  destruct (Gradio.language_code E K source_lang) as [sc|e];
    [|by eexists _, _, _; split; [reflexivity | split; [| left]]].
  destruct (Gradio.language_code E K target_lang) as [tc|e];
    [|by eexists _, _, _; split; [reflexivity | split; [| left]]].
  destruct (batch_translate E (Gradio.texts_of lines) sc tc st)
    as [[results|e] st'];
    eexists _, _, _; (split; [reflexivity |]); (split; [done |]);
    [right; eauto | by left].
Qed.

(** X20.  A batch that breaks (see [batch_translate]) gives the failure
    status and an empty table: the rows of the items before the failure
    are lost. *)
Theorem broken_batch_empties_table (E : Externals) (K : Setup E)
    (wf : Wf.t E (LLMHandle K))
    (batch_text source_lang target_lang source_code target_code : pystr)
    (lines : list pystr) (st st' : state E) (e : exn) :
  Gradio.truthy (Str.strip batch_text) = true ->
  source_lang <> target_lang ->
  Str.split nl batch_text = Ok lines ->
  Gradio.language_code E K source_lang = Ok source_code ->
  Gradio.language_code E K target_lang = Ok target_code ->
  batch_translate E (Gradio.texts_of lines) source_code target_code st
    = (Raise e, st') ->
  Gradio.translate_batch E K (Some wf) batch_text source_lang target_lang st
  = (Ok (CROSS_MARK ++ lit " Batch translation failed: " ++ exn_str e, []), st').
Proof.
  intros Htext Hne Hsplit Hsc Htc Hrun.
  destruct (translate_batch_guarded E K wf _ _ _ st Htext Hne)
    as (lines' & Hsplit' & _ & ->).
  assert (lines' = lines) as -> by congruence.
  by rewrite Hsc, Htc, Hrun.
Qed.

Lemma broken_batch_empties_table_witness :
  exists st',
    Gradio.translate_batch (stub (rejecting 3)) (test_setup (rejecting 3) true)
      (Some (test_workflow (rejecting 3))) three_lines
      (lit "English") (lit "French") start
    = (Ok (CROSS_MARK ++ lit " Batch translation failed: validation error", []), st').
Proof.
  eexists.
  refine (broken_batch_empties_table (stub (rejecting 3))
            (test_setup (rejecting 3) true) (test_workflow (rejecting 3))
            three_lines (lit "English") (lit "French") en fr _ start _
            (Exception (lit "validation error")) _ _ _ _ _ _).
  - vm_compute; reflexivity.
  - discriminate.
  - vm_compute; reflexivity.
  - vm_compute; reflexivity.
  - vm_compute; reflexivity.
  - vm_compute; reflexivity.
Defined.



(** ** The languages of the form *)

(** X22.  Dutch, Turkish and Polish are offered by the form but are
    outside the allow-list of the draft.  For a text that is not blank, a
    source language of the form other than the target, and a tokenizer
    that accepts the source language and the text and knows 'fr', when no
    task construction raises: the translation is reported as completed
    for the language asked for, while the one call of [model.generate]
    was forced to the id of 'fr'. *)
Theorem form_language_outside_allow_list (E : Externals) (K : Setup E)
    (calls : World E -> list (generate_kwargs (Encoding E)))
    (wf : Wf.t E (LLMHandle K))
    (text source_lang target_lang source_code : pystr) (st : state E)
    (w1 w2 : World E) (inputs : Encoding E) (id : Z) :
  records E calls ->
  tasks_always_built E ->
  Gradio.truthy (Str.strip text) = true ->
  source_lang <> target_lang ->
  Gradio.language_code E K source_lang = Ok source_code ->
  target_lang ∈ [lit "Dutch"; lit "Turkish"; lit "Polish"] ->
  set_src_lang E source_code (world st) = (Ok tt, w1) ->
  tokenize E text w1 = (Ok inputs, w2) ->
  get_lang_id E w2 (lit "fr") = Ok id ->
  exists initial refined context scores assessment st',
    Gradio.translate_single E K (Some wf) text source_lang target_lang st
    = (Ok (CHECK_MARK ++ lit " Translation completed: " ++ source_lang
             ++ lit " " ++ RIGHT_ARROW ++ lit " " ++ target_lang,
           initial, refined, context, scores, assessment), st')
    /\ calls (world st') = calls (world st) ++ [generation_call E inputs id].
Proof.
  intros Hrec Hok Htext Hne Hsc Hin Hsrc Htok Hfr.
  assert (exists tc, Gradio.language_code E K target_lang = Ok tc
                     /\ dict_has lang_mapping tc = false) as (tc & Htc & Hout).
  { repeat (apply elem_of_cons in Hin as [-> | Hin];
            [eexists; split; [reflexivity | by vm_compute] |]).
    by apply elem_of_nil in Hin. }
  rewrite (translate_single_guarded E K _ _ _ _ _ Htext Hne), Hsc, Htc.
  destruct (translate_recorded E calls Hrec text source_code tc st)
    as (st0 & Hw & Hcalls).
  rewrite <- Hw in Hsrc.
  rewrite (draft_forced_to_default E calls text source_code tc st0 w1 w2 inputs id
             Hrec Hout Hsrc Htok Hfr), Hw in Hcalls.
  destruct (translate_returns E source_code tc text st Hok) as (r & st' & Hrun).
  rewrite Hrun in Hcalls |- *. by eexists _, _, _, _, _, _.
Qed.

Lemma form_language_outside_allow_list_witness :
  exists initial refined context scores assessment st',
    Gradio.translate_single (recording (stub calm))
      (recording_setup (test_setup calm true))
      (Some (recording_workflow (test_workflow calm)))
      hello (lit "English") (lit "Dutch") fresh
    = (Ok (CHECK_MARK ++ lit " Translation completed: English "
             ++ RIGHT_ARROW ++ lit " Dutch",
           initial, refined, context, scores, assessment), st')
    /\ recorded (world st')
       = [] ++ [generation_call (recording (stub calm)) hello 128028].
Proof.
  refine (form_language_outside_allow_list (recording (stub calm))
            (recording_setup (test_setup calm true)) recorded
            (recording_workflow (test_workflow calm))
            hello (lit "English") (lit "Dutch") (lit "en")
            fresh (0, []) (0, []) hello 128028 (recording_records _)
            _ _ _ _ _ _ _ _).
  - intros kwargs w. eexists _, _. reflexivity.
  - vm_compute; reflexivity.
  - discriminate.
  - vm_compute; reflexivity.
  - apply (bool_decide_eq_true_1 _). vm_compute; reflexivity.
  - vm_compute; reflexivity.
  - vm_compute; reflexivity.
  - vm_compute; reflexivity.
Defined.

(** ** The console application *)

(** *** The console *)

Section CliFacts.

Variable E : Externals.
Variable K : Setup E.

Implicit Types (c : Cli.console E) (wf : Wf.t E (LLMHandle K)).

Lemma or_default_truthy (x default : pystr) :
  default <> [] -> Cli.or_default x default <> [].
Proof. by destruct x. Qed.

Lemma input_line prompt c raw rest :
  Cli.stdin c = Cli.Line raw :: rest ->
  Cli.input prompt c
  = (Cli.Done raw,
     Cli.Console (Cli.c_world c) rest (Cli.screen c ++ [Cli.Prompt prompt])).
Proof. intros H. unfold Cli.input. by rewrite H. Qed.

Lemma input_outcome prompt c :
  Cli.c_world (snd (Cli.input prompt c)) = Cli.c_world c
  /\ Cli.screen (snd (Cli.input prompt c)) = Cli.screen c ++ [Cli.Prompt prompt]
  /\ match fst (Cli.input prompt c) with
     | Cli.Done raw =>
         Cli.stdin c = Cli.Line raw :: Cli.stdin (snd (Cli.input prompt c))
     | Cli.Thrown (Cli.Exc e) =>
         Cli.stdin c = [] /\ Cli.stdin (snd (Cli.input prompt c)) = []
     | Cli.Thrown Cli.KeyboardInterrupt =>
         Cli.stdin c = Cli.CtrlC :: Cli.stdin (snd (Cli.input prompt c))
     | Cli.Running => False
     end.
Proof. unfold Cli.input. by destruct (Cli.stdin c) as [|[raw|] rest]. Qed.

Lemma run_print line c :
  Cli.run (print line) c
  = (Cli.Done tt,
     Cli.Console (Cli.c_world c) (Cli.stdin c)
       (Cli.screen c ++ [Cli.Out (Printed line)])).
Proof. reflexivity. Qed.

End CliFacts.

(** X23.  What [get_user_input] returns: nothing when the first line is
    blank, the languages then not being asked for; otherwise a text that
    is trimmed and not empty, with language codes that are not empty.
    It calls no collaborator. *)
Theorem get_user_input_result (E : Externals) (c c' : Cli.console E)
    (got : option (pystr * pystr * pystr)) :
  Cli.get_user_input E c = (Cli.Done got, c') ->
  Cli.c_world c' = Cli.c_world c
  /\ match got with
     | None =>
         exists raw, Cli.stdin c = Cli.Line raw :: Cli.stdin c'
                     /\ Str.strip raw = []
     | Some (text, source, target) =>
         text <> [] /\ Str.strip text = text /\ source <> [] /\ target <> []
         /\ exists raw raw_source raw_target,
              Cli.stdin c
                = Cli.Line raw :: Cli.Line raw_source :: Cli.Line raw_target
                    :: Cli.stdin c'
              /\ text = Str.strip raw
              /\ (Str.strip raw_source = [] -> source = lit "en")
              /\ (Str.strip raw_target = [] -> target = lit "fr")
     end.
Proof.
  unfold Cli.get_user_input. unfold Cli.cbind at 1.
  destruct (input_outcome E (MEMO ++ lit " Text to translate: ") c)
    as (Hw1 & _ & Hin1).
  destruct (Cli.input _ c) as [[raw | s |] c1]; [|done | done].
  cbn [fst snd] in *.
  destruct (Str.strip raw) as [|ch text] eqn:Hraw.
  { intros [= <- <-]. split; [done |]. by exists raw. }
  unfold Cli.cbind at 1.
  destruct (input_outcome E (LETTERS ++ lit " From language [en]: ") c1)
    as (Hw2 & _ & Hin2).
  destruct (Cli.input _ c1) as [[raw_source | s |] c2]; [|done | done].
  cbn [fst snd] in *. unfold Cli.cbind at 1.
  destruct (input_outcome E (DART ++ lit " To language [fr]: ") c2)
    as (Hw3 & _ & Hin3).
  destruct (Cli.input _ c2) as [[raw_target | s |] c3]; [|done | done].
  cbn [fst snd] in *. intros [= <- <-].
  split; [congruence |]. split; [done |].
  split; [rewrite <- Hraw; apply strip_idem |].
  split; [by apply or_default_truthy |]. split; [by apply or_default_truthy |].
  exists raw, raw_source, raw_target.
  split; [congruence |]. split; [done |]. by split; intros ->.
Qed.

Lemma get_user_input_result_witness :
  exists c',
    Cli.get_user_input (stub calm)
      (keyboard calm [Cli.Line (lit "  Hello "); Cli.Line []; Cli.Line (lit " de ")])
    = (Cli.Done (Some (lit "Hello", lit "en", lit "de")), c')
    /\ Cli.c_world c' = 0.
Proof.
  eexists. split; [vm_compute; reflexivity |].
  refine (proj1 (get_user_input_result (stub calm)
                   (keyboard calm [Cli.Line (lit "  Hello "); Cli.Line [];
                                   Cli.Line (lit " de ")]) _ _ _)).
  vm_compute; reflexivity.
Defined.

Section ReadLoop.

Variable E : Externals.

Implicit Types (c : Cli.console E).

Lemma read_texts_until_blank rounds texts lines blank rest c :
  Forall (fun l => Gradio.truthy (Str.strip l) = true) lines ->
  Str.strip blank = [] ->
  Cli.stdin c = map Cli.Line lines ++ Cli.Line blank :: rest ->
  length lines < rounds ->
  Cli.read_texts E rounds texts c
  = (Cli.Done (texts ++ map Str.strip lines),
     Cli.Console (Cli.c_world c) rest
       (Cli.screen c ++ text_prompts E (length texts) (S (length lines)))).
Proof.
  intros Hall Hblank. revert rounds texts c.
  induction Hall as [|l lines Hl _ IH]; intros rounds texts c Hin Hr;
    (destruct rounds as [|rounds]; [simpl in Hr; lia |]);
    cbn [Cli.read_texts]; unfold Cli.cbind at 1;
    erewrite input_line by exact Hin.
  - rewrite Hblank. by rewrite app_nil_r.
  - destruct (Str.strip l) as [|ch t] eqn:Hs; [done |].
    erewrite IH; [| reflexivity | simpl in Hr; lia].
    cbn [Cli.c_world Cli.screen map]. rewrite Hs, <- !app_assoc, length_app.
    cbn [app length]. rewrite Nat.add_1_r.
    change (text_prompts E (length texts) (S (S (length lines))))
      with (Cli.Prompt (text_prompt (length texts))
              :: text_prompts E (S (length texts)) (S (length lines))).
    unfold text_prompt at 1. by rewrite Nat.add_1_r.
Qed.

Lemma read_texts_end_of_input rounds texts lines c :
  Forall (fun l => Gradio.truthy (Str.strip l) = true) lines ->
  Cli.stdin c = map Cli.Line lines ->
  length lines < rounds ->
  exists c',
    Cli.read_texts E rounds texts c
    = (Cli.Thrown (Cli.Exc (Exception (lit "EOF when reading a line"))), c')
    /\ Cli.stdin c' = [] /\ Cli.c_world c' = Cli.c_world c.
Proof.
  intros Hall. revert rounds texts c.
  induction Hall as [|l lines Hl _ IH]; intros rounds texts c Hin Hr;
    (destruct rounds as [|rounds]; [simpl in Hr; lia |]);
    cbn [Cli.read_texts]; unfold Cli.cbind at 1.
  - unfold Cli.input. rewrite Hin. by eexists.
  - erewrite input_line by exact Hin.
    destruct (Str.strip l) as [|ch t] eqn:Hs; [done |].
    edestruct IH as (c' & Hc' & Hs' & Hw'); cycle 2.
    + rewrite Hc'. by exists c'.
    + reflexivity.
    + simpl in Hr. lia.
Qed.

Lemma read_texts_ends rounds texts c :
  length (Cli.stdin c) < rounds ->
  fst (Cli.read_texts E rounds texts c) <> Cli.Running.
Proof.
  revert texts c. induction rounds as [|rounds IH]; intros texts c Hr; [lia |].
  cbn [Cli.read_texts]. unfold Cli.cbind at 1.
  destruct (input_outcome E (lit "Text " ++ str_of_nat (length texts + 1) ++ lit ": ") c)
    as (_ & _ & Hin).
  destruct (Cli.input _ c) as [[raw | s |] c1]; cbn [fst snd] in *; try done.
  destruct (Str.strip raw); [done |].
  apply IH. rewrite Hin in Hr. simpl in Hr. lia.
Qed.

End ReadLoop.

Lemma get_batch_input_no_running (E : Externals) (c : Cli.console E) :
  fst (Cli.get_batch_input E c) <> Cli.Running.
Proof.
  unfold Cli.get_batch_input. unfold Cli.cbind at 1. rewrite run_print.
  unfold Cli.cbind at 1. cbn [Cli.stdin].
  match goal with |- context [Cli.read_texts E ?r ?t ?c0] =>
    pose proof (read_texts_ends E r t c0) as Hends;
    destruct (Cli.read_texts E r t c0) as [[texts | s |] c1] end;
    cbn [fst] in *; [|done | exfalso; apply Hends; [simpl; lia | done]].
  destruct texts as [|t ts]; [done |].
  unfold Cli.cbind at 1.
  destruct (input_outcome E (lit "From language [en]: ") c1) as (_ & _ & Hin2).
  destruct (Cli.input _ c1) as [[raw_source | s |] c2]; [|done | done].
  unfold Cli.cbind at 1.
  destruct (input_outcome E (lit "To language [fr]: ") c2) as (_ & _ & Hin3).
  by destruct (Cli.input _ c2) as [[raw_target | s |] c3].
Qed.

(** X24.  The reading loop of [get_batch_input] ends on every input.  When
    the input ends before a blank line it ends with [EOFError]: the texts
    typed so far are not returned. *)
Theorem get_batch_input_ends (E : Externals) (c : Cli.console E) :
  fst (Cli.get_batch_input E c) <> Cli.Running
  /\ forall lines,
       Forall (fun l => Gradio.truthy (Str.strip l) = true) lines ->
       Cli.stdin c = map Cli.Line lines ->
       exists c',
         Cli.get_batch_input E c
         = (Cli.Thrown (Cli.Exc (Exception (lit "EOF when reading a line"))), c').
Proof.
  split; [apply get_batch_input_no_running |].
  intros lines Hall Hin.
  unfold Cli.get_batch_input. unfold Cli.cbind at 1. rewrite run_print.
  unfold Cli.cbind at 1. cbn [Cli.stdin].
  match goal with |- context [Cli.read_texts E ?r ?t ?c0] =>
    destruct (read_texts_end_of_input E r t lines c0 Hall)
      as (c' & -> & _) end; [done | | by eexists].
  rewrite Hin, length_map. lia.
Qed.

(** X25.  The texts of a batch are the stripped lines before the first
    blank line, in their order; the two lines after the blank one give
    the languages. *)
Theorem get_batch_input_reads_until_blank (E : Externals) (c : Cli.console E)
    (lines : list pystr) (blank raw_source raw_target : pystr)
    (rest : list Cli.key) :
  lines <> [] ->
  Forall (fun l => Gradio.truthy (Str.strip l) = true) lines ->
  Str.strip blank = [] ->
  Cli.stdin c
    = map Cli.Line lines
        ++ Cli.Line blank :: Cli.Line raw_source :: Cli.Line raw_target :: rest ->
  exists c',
    Cli.get_batch_input E c
    = (Cli.Done (Some (map Str.strip lines,
                       Cli.or_default (Str.strip raw_source) (lit "en"),
                       Cli.or_default (Str.strip raw_target) (lit "fr"))), c')
    /\ Cli.stdin c' = rest
    /\ Cli.c_world c' = Cli.c_world c.
Proof.
  intros Hne Hall Hblank Hin.
  unfold Cli.get_batch_input. unfold Cli.cbind at 1. rewrite run_print.
  unfold Cli.cbind at 1. cbn [Cli.stdin].
  erewrite (read_texts_until_blank E _ [] lines blank); cycle 1;
    [exact Hall | exact Hblank | exact Hin | |].
  { rewrite Hin, length_app, length_map. simpl. lia. }
  cbn [app Cli.c_world].
  destruct (map Str.strip lines) as [|t ts] eqn:Hm;
    [by destruct lines |].
  unfold Cli.cbind at 1. erewrite input_line by reflexivity.
  unfold Cli.cbind at 1. erewrite input_line by reflexivity.
  by eexists.
Qed.

Lemma get_batch_input_reads_until_blank_witness :
  exists c',
    Cli.get_batch_input (stub calm)
      (keyboard calm [Cli.Line (lit " one"); Cli.Line (lit "two ");
                      Cli.Line (lit " "); Cli.Line []; Cli.Line (lit "es");
                      Cli.Line (lit "quit")])
    = (Cli.Done (Some ([lit "one"; lit "two"], lit "en", lit "es")), c')
    /\ Cli.stdin c' = [Cli.Line (lit "quit")]
    /\ Cli.c_world c' = 0.
Proof.
  refine (get_batch_input_reads_until_blank (stub calm)
            (keyboard calm [Cli.Line (lit " one"); Cli.Line (lit "two ");
                            Cli.Line (lit " "); Cli.Line []; Cli.Line (lit "es");
                            Cli.Line (lit "quit")])
            [lit " one"; lit "two "] (lit " ") [] (lit "es") [Cli.Line (lit "quit")]
            _ _ _ _).
  - discriminate.
  - repeat constructor.
  - vm_compute; reflexivity.
  - reflexivity.
Defined.

Section MainFacts.

Variable E : Externals.
Variable K : Setup E.

Implicit Types (c : Cli.console E) (wf : Wf.t E (LLMHandle K)).

Lemma run_report_error e c :
  Cli.run (Cli.report_error E e) c
  = (Cli.Done tt,
     Cli.Console (Cli.c_world c) (Cli.stdin c)
       (Cli.screen c ++
        [Cli.Out (Printed (CROSS_MARK ++ lit " Error: " ++ exn_str e));
         Cli.Out (Printed (BULB ++ lit " Try again or type 'quit' to exit"))])).
Proof. reflexivity. Qed.

Lemma main_loop_no_throw rounds wf c :
  match fst (Cli.main_loop E K rounds wf c) with
  | Cli.Thrown _ => False
  | _ => True
  end.
Proof.
  revert c. induction rounds as [|rounds IH]; intros c; [done |].
  cbn [Cli.main_loop].
  destruct (Cli.one_command E K wf c) as [[[|] | [e|] |] c1]; try done.
  - apply IH.
  - unfold Cli.cbind. rewrite run_report_error. apply IH.
Qed.

Lemma one_command_end_of_input wf c :
  Cli.stdin c = [] ->
  Cli.one_command E K wf c
  = (Cli.Thrown (Cli.Exc (Exception (lit "EOF when reading a line"))),
     Cli.Console (Cli.c_world c) [] (Cli.screen c ++ [mode_prompt E])).
Proof.
  intros Hin. unfold Cli.one_command, Cli.cbind, Cli.input. by rewrite Hin.
Qed.

End MainFacts.

(** X26.  No exception leaves the command loop of [main]: within the
    rounds it is given it ends, or it is still running. *)
Theorem main_loop_never_throws (E : Externals) (K : Setup E)
    (rounds : nat) (wf : Wf.t E (LLMHandle K)) (c : Cli.console E) :
  (exists c', Cli.main_loop E K rounds wf c = (Cli.Done tt, c'))
  \/ (exists c', Cli.main_loop E K rounds wf c = (Cli.Running, c')).
Proof.
  pose proof (main_loop_no_throw E K rounds wf c) as H.
  destruct (Cli.main_loop E K rounds wf c) as [[[] | s |] c']; [| done |]; eauto.
Qed.

(** X27.  At the end of the input the command loop does not end: [input]
    raises [EOFError], the loop reports it and asks again, for ever.
    Each round shows the prompt and the two lines of the report, and
    nothing else changes. *)
Theorem main_loop_spins_at_end_of_input (E : Externals) (K : Setup E)
    (wf : Wf.t E (LLMHandle K)) (c : Cli.console E) (rounds : nat) :
  Cli.stdin c = [] ->
  exists shown,
    Cli.main_loop E K rounds wf c
    = (Cli.Running, Cli.Console (Cli.c_world c) [] (Cli.screen c ++ shown))
    /\ length shown = 3 * rounds.
Proof.
  revert c. induction rounds as [|rounds IH]; intros c Hin.
  - exists []. rewrite app_nil_r. split; [|done].
    cbn [Cli.main_loop]. destruct c as [w keys shown]. simpl in Hin. by subst.
  - cbn [Cli.main_loop]. rewrite (one_command_end_of_input E K wf c Hin).
    unfold Cli.cbind. rewrite run_report_error.
    cbn [Cli.c_world Cli.stdin Cli.screen].
    edestruct IH as (shown & -> & Hlen); [reflexivity |].
    cbn [Cli.c_world Cli.screen]. rewrite <- !app_assoc.
    eexists. split; [reflexivity |]. rewrite !length_app, Hlen. simpl. lia.
Qed.

Lemma main_loop_spins_at_end_of_input_witness :
  exists shown,
    Cli.main_loop (stub calm) (test_setup calm true) 5 (test_workflow calm)
      (keyboard calm [])
    = (Cli.Running, Cli.Console (0 : World (stub calm)) [] ([] ++ shown))
    /\ length shown = 15.
Proof.
  refine (main_loop_spins_at_end_of_input (stub calm) (test_setup calm true)
            (test_workflow calm) (keyboard calm []) 5 _).
  reflexivity.
Defined.

(** X28.  A line that reads 'quit' once trimmed and put in lower case, and
    an interrupt from the keyboard at the prompt, end the loop after a
    farewell; what is left of the input is not read. *)
Theorem quit_and_interrupt_end_the_loop (E : Externals) (K : Setup E)
    (wf : Wf.t E (LLMHandle K)) (c : Cli.console E) (rounds : nat)
    (rest : list Cli.key) :
  (forall raw,
     Cli.stdin c = Cli.Line raw :: rest ->
     str_lower K (Str.strip raw) = lit "quit" ->
     Cli.main_loop E K (S rounds) wf c
     = (Cli.Done tt,
        Cli.Console (Cli.c_world c) rest
          (Cli.screen c ++
           [mode_prompt E; Cli.Out (Printed (WAVE ++ lit " Goodbye!"))])))
  /\ (Cli.stdin c = Cli.CtrlC :: rest ->
      Cli.main_loop E K (S rounds) wf c
      = (Cli.Done tt,
         Cli.Console (Cli.c_world c) rest
           (Cli.screen c ++
            [mode_prompt E;
             Cli.Out (Printed (nl ++ WAVE ++ lit " Interrupted by user. Goodbye!"))]))).
Proof.
  split.
  - intros raw Hin Hquit. cbn [Cli.main_loop].
    unfold Cli.one_command. unfold Cli.cbind at 1.
    erewrite input_line by exact Hin. rewrite Hquit.
    destruct (decide (lit "quit" = lit "quit")); [|done].
    unfold Cli.cbind, Cli.cret. rewrite run_print.
    cbn [Cli.c_world Cli.stdin Cli.screen]. by rewrite <- app_assoc.
  - intros Hin. cbn [Cli.main_loop].
    unfold Cli.one_command. unfold Cli.cbind at 1. unfold Cli.input at 1.
    rewrite Hin. rewrite run_print.
    cbn [Cli.c_world Cli.stdin Cli.screen]. by rewrite <- app_assoc.
Qed.

Lemma quit_and_interrupt_end_the_loop_witness :
  Cli.main_loop (stub calm) (test_setup calm true) 1 (test_workflow calm)
    (keyboard calm [Cli.Line (lit " QUIT "); Cli.Line (lit "single")])
  = (Cli.Done tt,
     Cli.Console (0 : World (stub calm)) [Cli.Line (lit "single")]
       ([] ++ [mode_prompt (stub calm);
               Cli.Out (Printed (WAVE ++ lit " Goodbye!"))])).
Proof.
  refine (proj1 (quit_and_interrupt_end_the_loop (stub calm) (test_setup calm true)
                   (test_workflow calm)
                   (keyboard calm [Cli.Line (lit " QUIT "); Cli.Line (lit "single")])
                   0 [Cli.Line (lit "single")]) (lit " QUIT ") _ _).
  - reflexivity.
  - vm_compute; reflexivity.
Defined.

(** X29.  When the workflow cannot be built, [main] shows the failure and
    the hints and returns: the command loop is not entered and no input
    is read. *)
Theorem main_without_workflow (E : Externals) (K : Setup E)
    (c : Cli.console E) (rounds : nat) (e : exn) (st : state E) :
  TranslationWorkflow_init E K (State (Cli.c_world c) []) = (Raise e, st) ->
  exists shown,
    Cli.main E K rounds c
    = (Cli.Done tt, Cli.Console (world st) (Cli.stdin c) (Cli.screen c ++ shown))
    /\ last shown
       = Some (Cli.Out (Printed (lit "   - Required packages: pip install crewai transformers torch google-generativeai"))).
Proof.
  intros Hinit. unfold Cli.main. unfold Cli.cbind at 1.
  change (Cli.run (Cli.print_header E) c)
    with (Cli.Done tt,
          Cli.Console (Cli.c_world c) (Cli.stdin c)
            (Cli.screen c ++ map Cli.Out
               (trace (snd (Cli.print_header E (State (Cli.c_world c) [])))))).
  unfold Cli.run at 1. cbn [Cli.c_world Cli.stdin Cli.screen]. rewrite Hinit.
  unfold Cli.run, Cli.report_no_workflow. unfold_monad.
  cbn [Cli.c_world Cli.stdin Cli.screen world trace snd app map].
  rewrite <- !app_assoc. eexists. split; [reflexivity |].
  by rewrite !last_app.
Qed.

Lemma main_without_workflow_witness :
  exists shown,
    Cli.main (stub calm) (test_setup calm false) 7
      (keyboard calm [Cli.Line (lit "single")])
    = (Cli.Done tt,
       Cli.Console (0 : World (stub calm)) [Cli.Line (lit "single")] ([] ++ shown))
    /\ last shown
       = Some (Cli.Out (Printed (lit "   - Required packages: pip install crewai transformers torch google-generativeai"))).
Proof.
  refine (main_without_workflow (stub calm) (test_setup calm false)
            (keyboard calm [Cli.Line (lit "single")]) 7
            (Exception (lit "no network"))
            (snd (TranslationWorkflow_init (stub calm) (test_setup calm false)
                    (State (0 : World (stub calm)) []))) _).
  vm_compute; reflexivity.
Defined.
